(** * Synapse: the disruption-resolution orchestration engine

    A shallow embedding of the Python sources
      - [core/model_capability.py]        (task-to-backend router),
      - [core/llm_manager.py]             (backend gateway client),
      - [core/multi_model_orchestrator.py] (scheduler and synthesizer),
      - [agents/service_agents.py]        (specialist agents),
      - [orchestrator/langgraph_orchestrator.py] (workflow state machine),
      - [orchestrator/crew_integration.py] and [main.py] (the driver),
      - [core/multi_instance_lm_manager.py] (parallel manager),
      - [config/settings.py]
    followed by the properties of the specification that are settled on it.

    Conventions of the embedding.
      - A Python [float] is a binary64 number: Rocq's primitive [float],
        whose operations round exactly as CPython's do.
      - A Python [str] is the [string] of the bytes of its UTF-8
        encoding: [len] counts the code points, a search for an ASCII
        keyword is a search in the bytes, and [lower] is exact on every
        ASCII character of its result (see [Py.lower]).
      - A [dict] with a fixed set of possible keys is a record whose
        optional keys are [option] fields; [d.get(k, v)] is [get_or].
      - The inference backend is external: it is a function from the
        index of the call to a reply, about which nothing is assumed.
      - Mutable objects are threaded explicitly (a small state monad).
      - The values of a dictionary have the types the interface gives
        them (texts are strings, counts are integers, flags are
        booleans); a key may be absent.
      - Prompt texts, timestamps and console output are not modelled. *)

From Stdlib Require Import Bool Arith ZArith List String Ascii Lia.
From Stdlib Require Import Floats.
Import ListNotations.

Set Warnings "-inexact-float".

Local Open Scope string_scope.
Local Open Scope list_scope.

(* ================================================================== *)
(** ** Python primitives *)
(* ================================================================== *)

Module Py.

(** [d.get(key, default)] on an optional key. *)
Definition get_or {A : Type} (o : option A) (default : A) : A :=
  match o with
  | Some v => v
  | None => default
  end.

(** [c.lower()] on one character. *)
Definition lower_ascii (c : ascii) : ascii :=
  let n := nat_of_ascii c in
  if (65 <=? n)%nat && (n <=? 90)%nat then ascii_of_nat (n + 32) else c.

(** The letters A..Z of [s] folded, every other byte kept. *)
Fixpoint ascii_lower (s : string) : string :=
  match s with
  | EmptyString => EmptyString
  | String c s' => String (lower_ascii c) (ascii_lower s')
  end.

(** The two code points outside ASCII whose lower case has an ASCII
    letter: U+212A (Kelvin sign, bytes E2 84 AA) becomes [k], and
    U+0130 (capital I with dot, bytes C4 B0) becomes [i] followed by
    U+0307 (bytes CC 87). *)
Fixpoint lower_special (s : string) : string :=
  match s with
  | String "226" (String "132" (String "170" s')) =>
      String "k" (lower_special s')
  | String "196" (String "176" s') =>
      String "i" (String "204" (String "135" (lower_special s')))
  | String c s' => String c (lower_special s')
  | EmptyString => EmptyString
  end.

(** [s.lower()], as far as a search for ASCII text can tell: the
    ASCII characters of the result and the places between them where
    other characters stand are those of [str.lower]. A letter outside
    ASCII other than the two above keeps its own code point, where
    [str.lower] may put another one outside ASCII; every text the
    program lower-cases is only searched for ASCII keywords. *)
Definition lower (s : string) : string :=
  lower_special (ascii_lower s).

(** A byte of the form 10xxxxxx continues a code point. *)
Definition is_continuation (c : ascii) : bool :=
  let n := nat_of_ascii c in
  (128 <=? n)%nat && (n <? 192)%nat.

(** [len(s)]: the number of code points, one for each byte that does
    not continue one. *)
Fixpoint len (s : string) : nat :=
  match s with
  | EmptyString => 0
  | String c s' => (if is_continuation c then 0 else 1) + len s'
  end.

(** [word in text] on strings: [word] occurs as a contiguous substring. *)
Fixpoint contains (word text : string) : bool :=
  String.prefix word text
  || match text with
     | EmptyString => false
     | String _ text' => contains word text'
     end.

(** [any(word in text for word in words)]. *)
Definition any_in (words : list string) (text : string) : bool :=
  existsb (fun word => contains word text) words.

(** [x in xs] on a list of strings. *)
Definition mem (x : string) (xs : list string) : bool :=
  existsb (String.eqb x) xs.

(** [len(set(xs))]: the number of distinct strings of [xs]. *)
Definition distinct (xs : list string) : nat :=
  List.length (nodup string_dec xs).

(** [sum(flags)] on a list of booleans. *)
Definition sum_bool (flags : list bool) : nat :=
  List.length (filter (fun b => b) flags).

(** The builtin [min(a, b)] keeps [a] unless [b < a]. *)
Definition min (a b : float) : float :=
  if PrimFloat.ltb b a then b else a.

(** The builtin [max(a, b)] keeps [a] unless [b > a]. *)
Definition max (a b : float) : float :=
  if PrimFloat.ltb a b then b else a.

(** An [int] used in float arithmetic (exact below 2^53). *)
Definition float_of_nat (n : nat) : float :=
  PrimFloat.of_uint63 (Uint63.of_Z (Z.of_nat n)).

End Py.

(* ================================================================== *)
(** ** config/settings.py *)
(* ================================================================== *)

Module Settings.

Record Config := {
  MAX_ITERATIONS : Z;
  CONFIDENCE_THRESHOLD : float;
  HUMAN_ESCALATION_THRESHOLD : float
}.

(** [Config()] with no environment override. *)
Definition config : Config := {|
  MAX_ITERATIONS := 10;
  CONFIDENCE_THRESHOLD := 0.8;
  HUMAN_ESCALATION_THRESHOLD := 0.6
|}.

End Settings.

(* ================================================================== *)
(** ** core/model_capability.py *)
(* ================================================================== *)

Module ModelCapability.

Inductive Capability :=
| REASONING
| EMPATHY
| SPATIAL
| GENERAL
| URGENT
| COORDINATION.

Inductive TaskType :=
| ROUTE_OPTIMIZATION
| CUSTOMER_COMMUNICATION
| STRATEGIC_PLANNING
| SENTIMENT_ANALYSIS
| EMERGENCY_RESPONSE.

(** [TaskType.value] *)
Definition value (t : TaskType) : string :=
  match t with
  | ROUTE_OPTIMIZATION => "route_optimization"
  | CUSTOMER_COMMUNICATION => "customer_communication"
  | STRATEGIC_PLANNING => "strategic_planning"
  | SENTIMENT_ANALYSIS => "sentiment_analysis"
  | EMERGENCY_RESPONSE => "emergency_response"
  end.

Definition TaskType_eqb (a b : TaskType) : bool :=
  String.eqb (value a) (value b).

(** [self.task_model_mapping]; every task kind has an entry, so
    [get_model_for_task]'s default is never taken. *)
Definition get_model_for_task (task : TaskType) : string :=
  match task with
  | ROUTE_OPTIMIZATION => "qwen/qwen3-4b-thinking-2507"
  | CUSTOMER_COMMUNICATION => "microsoft/phi-4-mini-reasoning"
  | STRATEGIC_PLANNING => "deepseek/deepseek-r1-0528-qwen3-8b"
  | SENTIMENT_ANALYSIS => "google/gemma-3-4b"
  | EMERGENCY_RESPONSE => "qwen/qwen3-1.7b"
  end.

(** [self.urgency_model_map.get(urgency_level, "qwen/qwen3-4b")] *)
Definition get_model_by_urgency (urgency_level : string) : string :=
  if urgency_level =? "urgent" then "qwen/qwen3-1.7b"
  else if urgency_level =? "medium" then "microsoft/phi-4-mini-reasoning"
  else if urgency_level =? "complex" then "deepseek/deepseek-r1-0528-qwen3-8b"
  else if urgency_level =? "customer" then "microsoft/phi-4-mini-reasoning"
  else if urgency_level =? "spatial" then "qwen/qwen3-4b-thinking-2507"
  else "qwen/qwen3-4b".

(** [self.agent_task_mapping[agent_type].get(task_type)] *)
Definition agent_task_mapping (agent_type task_type : string)
  : option (option TaskType) :=
  if agent_type =? "grabfood" then
    Some (if task_type =? "primary" then Some ROUTE_OPTIMIZATION
          else if task_type =? "customer_comm" then Some CUSTOMER_COMMUNICATION
          else if task_type =? "fallback" then Some EMERGENCY_RESPONSE
          else None)
  else if agent_type =? "grabexpress" then
    Some (if task_type =? "primary" then Some STRATEGIC_PLANNING
          else if task_type =? "spatial" then Some ROUTE_OPTIMIZATION
          else if task_type =? "fallback" then Some EMERGENCY_RESPONSE
          else None)
  else if agent_type =? "customer_service" then
    Some (if task_type =? "primary" then Some CUSTOMER_COMMUNICATION
          else if task_type =? "sentiment" then Some SENTIMENT_ANALYSIS
          else if task_type =? "fallback" then Some EMERGENCY_RESPONSE
          else None)
  else if agent_type =? "orchestrator" then
    Some (if task_type =? "primary" then Some STRATEGIC_PLANNING
          else if task_type =? "coordination" then Some ROUTE_OPTIMIZATION
          else None)
  else None.

Definition get_model_for_agent (agent_type task_type : string) : string :=
  match agent_task_mapping agent_type task_type with
  | Some (Some task) => get_model_for_task task
  | _ => "qwen/qwen3-4b"
  end.

(** The [problem_context] dictionary, as far as the router and the
    scheduler read it. *)
Record ProblemContext := {
  description : option string;
  urgency : option string
}.

(** One entry of [recommended_tasks]. *)
Record TaskInfo := {
  task : TaskType;
  model : string;
  priority : string
}.

Definition recommend (t : TaskType) (p : string) : TaskInfo :=
  {| task := t; model := get_model_for_task t; priority := p |}.

(** [recommended_tasks.append(x)] guarded by [cond]. *)
Definition append_if (cond : bool) (x : TaskInfo) (acc : list TaskInfo)
  : list TaskInfo :=
  if cond then acc ++ [x] else acc.

(** [analyze_problem_requirements], field ["recommended_tasks"]. *)
Definition recommended_tasks (problem_context : ProblemContext)
  : list TaskInfo :=
  let description := Py.lower (Py.get_or (description problem_context) "") in
  let urgency := Py.get_or (urgency problem_context) "medium" in
  let acc := [] in
  let acc :=
    append_if (Py.any_in ["traffic"; "route"; "location"; "delivery"] description)
              (recommend ROUTE_OPTIMIZATION "high") acc in
  let acc :=
    append_if (Py.any_in ["customer"; "notification"; "communication"] description)
              (recommend CUSTOMER_COMMUNICATION "high") acc in
  let acc :=
    append_if (Py.any_in ["angry"; "frustrated"; "complaint"] description)
              (recommend SENTIMENT_ANALYSIS "medium") acc in
  let acc :=
    append_if ((1 <? List.length acc)%nat || Py.mem urgency ["high"; "complex"])
              (recommend STRATEGIC_PLANNING "high") acc in
  let acc :=
    append_if ((urgency =? "high") || Py.contains "emergency" description)
              (recommend EMERGENCY_RESPONSE "critical") acc in
  acc.

Record TaskAnalysis := {
  ta_recommended_tasks : list TaskInfo;
  total_tasks : nat;
  models_needed : list string
}.

Definition analyze_problem_requirements (problem_context : ProblemContext)
  : TaskAnalysis :=
  let tasks := recommended_tasks problem_context in
  {| ta_recommended_tasks := tasks;
     total_tasks := List.length tasks;
     models_needed := nodup string_dec (map model tasks) |}.

End ModelCapability.

(* ================================================================== *)
(** ** A state monad for the mutable objects *)
(* ================================================================== *)

Module St.

Definition M (S A : Type) : Type := S -> A * S.

Definition ret {S A : Type} (a : A) : M S A := fun s => (a, s).

Definition bind {S A B : Type} (m : M S A) (k : A -> M S B) : M S B :=
  fun s => let (a, s') := m s in k a s'.

Definition get {S : Type} : M S S := fun s => (s, s).

Definition put {S : Type} (s : S) : M S unit := fun _ => (tt, s).

(** Run a computation on a component of the state. *)
Definition zoom {S T A : Type} (proj : S -> T) (upd : T -> S -> S)
           (m : M T A) : M S A :=
  fun s => let (a, t') := m (proj s) in (a, upd t' s).

End St.

Declare Scope st_scope.
Delimit Scope st_scope with st.
Notation "x <- m ;; k" := (St.bind m (fun x => k))
  (at level 61, m at next level, right associativity) : st_scope.
Notation "m ;;; k" := (St.bind m (fun _ => k))
  (at level 61, right associativity) : st_scope.

(* ================================================================== *)
(** ** core/llm_manager.py *)
(* ================================================================== *)

Module LLM.

(** What [client.chat.completions.create] is called with. The messages
    are determined by the agent type, the urgency and the prompt; only
    the former two are recorded. *)
Record Request := {
  req_model : string;
  req_agent_type : string;
  req_urgency : string;
  req_temperature : float;
  req_max_tokens : Z
}.

(** What comes back: a completion, whose message content may be
    [None], or an exception with its [str(e)]. *)
Inductive Reply :=
| Completion (content : option string)
| Failure (error : string).

(** The external backend: the reply to the n-th call. *)
Definition Gateway := nat -> Reply.

(** [LMStudioManager]'s only mutable field, together with the history
    of the requests issued through it so far (oldest first). *)
Record LMStudioManager := {
  current_active_model : string;
  gateway_calls : list Request
}.

(** [LMStudioManager.__init__] *)
Definition init : LMStudioManager := {|
  current_active_model := "qwen/qwen3-4b";
  gateway_calls := []
|}.

(** The dictionary returned by [generate_response_for_agent]. *)
Record Response := {
  content : string;
  provider : string;
  active_model : string;
  optimal_model : option string;
  agent_type : string;
  urgency : option string;
  confidence : float;
  error : option string
}.

Definition get_optimal_model_for_agent (agent_type urgency : string) : string :=
  if urgency =? "urgent" then ModelCapability.get_model_by_urgency "urgent"
  else if urgency =? "complex" then ModelCapability.get_model_by_urgency "complex"
  else ModelCapability.get_model_for_agent agent_type "primary".

Definition _get_temperature_for_agent (agent_type : string) : float :=
  if agent_type =? "grabfood" then 0.4%float
  else if agent_type =? "grabexpress" then 0.3%float
  else if agent_type =? "customer_service" then 0.7%float
  else if agent_type =? "orchestrator" then 0.5%float
  else 0.5%float.

Definition _get_max_tokens_for_agent (agent_type : string) : Z :=
  if agent_type =? "grabfood" then 600
  else if agent_type =? "grabexpress" then 500
  else if agent_type =? "customer_service" then 800
  else if agent_type =? "orchestrator" then 400
  else 600.

(** [quality_indicators.get(agent_type, [])] *)
Definition quality_indicators (agent_type : string) : list string :=
  if agent_type =? "grabfood" then
    ["restaurant"; "delivery"; "food"; "temperature"; "quality"]
  else if agent_type =? "grabexpress" then
    ["package"; "urgent"; "secure"; "delivery"; "address"]
  else if agent_type =? "customer_service" then
    ["understand"; "sorry"; "help"; "solution"; "resolve"]
  else if agent_type =? "orchestrator" then
    ["coordinate"; "assign"; "prioritize"; "allocate"; "manage"]
  else [].

Definition uncertainty_words : list string :=
  ["uncertain"; "maybe"; "possibly"; "might"; "unclear"].

(** The length adjustment of [_calculate_confidence]. *)
Definition length_step (content : string) (base_confidence : float) : float :=
  if (100 <? Py.len content)%nat then (base_confidence + 0.05)%float
  else if (Py.len content <? 50)%nat then (base_confidence - 0.1)%float
  else base_confidence.

Definition quality_step (content agent_type : string) (base_confidence : float)
  : float :=
  if Py.any_in (quality_indicators agent_type) (Py.lower content)
  then (base_confidence + 0.1)%float else base_confidence.

Definition uncertainty_step (content : string) (base_confidence : float)
  : float :=
  if Py.any_in uncertainty_words (Py.lower content)
  then (base_confidence - 0.15)%float else base_confidence.

Definition _calculate_confidence (content agent_type : string) : float :=
  let base_confidence := 0.8%float in
  let base_confidence := length_step content base_confidence in
  let base_confidence := quality_step content agent_type base_confidence in
  let base_confidence := uncertainty_step content base_confidence in
  Py.max 0.1 (Py.min 0.95 base_confidence).

(** [fallback_responses.get(agent_type, "System temporarily unavailable.")] *)
Definition fallback_responses (agent_type : string) : string :=
  if agent_type =? "grabfood" then
    "Food delivery analysis temporarily unavailable. Escalating to human food delivery coordinator."
  else if agent_type =? "grabexpress" then
    "Express delivery system offline. Switching to standard delivery protocols."
  else if agent_type =? "customer_service" then
    "We're experiencing technical difficulties but are working to resolve your issue promptly."
  else if agent_type =? "orchestrator" then
    "Coordination system temporarily offline. Switching to manual oversight mode."
  else "System temporarily unavailable.".

Definition _fallback_response (agent_type error : string) : Response := {|
  content := fallback_responses agent_type;
  provider := "lm_studio_fallback";
  active_model := "fallback";
  optimal_model := None;
  agent_type := agent_type;
  urgency := None;
  confidence := 0.2;
  error := Some error
|}.

(** [str(e)] of the [TypeError] that [len(None)] raises inside the
    [try] block when the completion carries no content. *)
Definition len_of_None : string :=
  "object of type 'NoneType' has no len()".

(** The body of the [try] block once the backend has answered. *)
Definition on_reply (self : LMStudioManager)
           (agent_type urgency optimal_model : string) (reply : Reply)
  : Response :=
  match reply with
  | Completion (Some content) =>
      {| content := content;
         provider := "lm_studio";
         active_model := current_active_model self;
         optimal_model := Some optimal_model;
         agent_type := agent_type;
         urgency := Some urgency;
         confidence := _calculate_confidence content agent_type;
         error := None |}
  | Completion None => _fallback_response agent_type len_of_None
  | Failure e => _fallback_response agent_type e
  end.

Definition generate_response_for_agent (gateway : Gateway)
           (agent_type urgency : string) : St.M LMStudioManager Response :=
  fun self =>
    let optimal_model := get_optimal_model_for_agent agent_type urgency in
    let request := {|
      req_model := current_active_model self;
      req_agent_type := agent_type;
      req_urgency := urgency;
      req_temperature := _get_temperature_for_agent agent_type;
      req_max_tokens := _get_max_tokens_for_agent agent_type |} in
    let reply := gateway (List.length (gateway_calls self)) in
    (on_reply self agent_type urgency optimal_model reply,
     {| current_active_model := current_active_model self;
        gateway_calls := gateway_calls self ++ [request] |}).

(** The legacy entry point [generate_response(prompt, capability)]. *)
Definition generate_response (gateway : Gateway)
           (capability : ModelCapability.Capability)
  : St.M LMStudioManager Response :=
  let agent_type :=
    match capability with
    | ModelCapability.REASONING => "orchestrator"
    | ModelCapability.EMPATHY => "customer_service"
    | ModelCapability.SPATIAL => "grabexpress"
    | ModelCapability.GENERAL => "orchestrator"
    | ModelCapability.URGENT => "grabexpress"
    | ModelCapability.COORDINATION => "orchestrator"
    end in
  let urgency :=
    match capability with
    | ModelCapability.URGENT => "urgent"
    | _ => "medium"
    end in
  generate_response_for_agent gateway agent_type urgency.

End LLM.

(* ================================================================== *)
(** ** agents/service_agents.py *)
(* ================================================================== *)

Module Agents.

(** The [task] dictionary, with the keys the agents read to classify
    a task. Keys that only feed the prompt text are left out. *)
Record Task := {
  task_id : option string;
  disruption : option string;
  service_type : option string;
  urgency : option string;
  severity : option string;
  affected_orders : option Z;
  package_value : option Z;
  package_type : option string;
  fragile : option bool;
  customer_issue : option string;
  sentiment : option string
}.

(** [task.get(key) == literal] *)
Definition get_eq (o : option string) (literal : string) : bool :=
  match o with
  | Some v => v =? literal
  | None => false
  end.

(** [keyword in task.get('disruption', '').lower()] *)
Definition in_disruption (keyword : string) (task : Task) : bool :=
  Py.contains keyword (Py.lower (Py.get_or (disruption task) "")).

(** The three specialists. *)
Inductive Agent := GrabFoodAgent | GrabExpressAgent | CustomerServiceAgent.

(** [factors["urgent"]] of [_determine_urgency]. *)
Definition urgent_factors (a : Agent) (task : Task) : list bool :=
  match a with
  | GrabFoodAgent =>
      [ get_eq (urgency task) "high";
        (10 <? Py.get_or (affected_orders task) 0)%Z;
        in_disruption "food poisoning" task;
        in_disruption "temperature" task;
        in_disruption "contamination" task;
        in_disruption "expired" task ]
  | GrabExpressAgent =>
      [ get_eq (urgency task) "high";
        (50000 <? Py.get_or (package_value task) 0)%Z;
        Py.contains "medical" (Py.lower (Py.get_or (package_type task) ""));
        in_disruption "emergency" task;
        in_disruption "time-sensitive" task ]
  | CustomerServiceAgent => []
  end.

(** [factors["complex"]] of [_determine_urgency]. *)
Definition complex_factors (a : Agent) (task : Task) : list bool :=
  match a with
  | GrabFoodAgent =>
      [ (5 <? Py.get_or (affected_orders task) 0)%Z;
        in_disruption "multiple" task;
        get_eq (severity task) "high";
        in_disruption "restaurant" task && in_disruption "closed" task ]
  | GrabExpressAgent =>
      [ Py.get_or (fragile task) false;
        in_disruption "multiple" task;
        (10000 <? Py.get_or (package_value task) 0)%Z;
        in_disruption "wrong address" task ]
  | CustomerServiceAgent => []
  end.

(** [CustomerServiceAgent._analyze_sentiment] *)
Definition _analyze_sentiment (task : Task) : string :=
  let disruption_text :=
    Py.lower (Py.get_or (customer_issue task)
                        (Py.get_or (disruption task) "")) in
  if Py.any_in ["angry"; "furious"; "outraged"; "unacceptable"] disruption_text
  then "angry"
  else if Py.any_in ["frustrated"; "annoyed"; "disappointed"; "upset"] disruption_text
  then "frustrated"
  else if Py.any_in ["confused"; "unclear"; "don't understand"] disruption_text
  then "confused"
  else if Py.any_in ["happy"; "satisfied"; "good"; "excellent"] disruption_text
  then "positive"
  else Py.get_or (sentiment task) "neutral".

(** [GrabFoodAgent._determine_urgency] and
    [GrabExpressAgent._determine_urgency]; for the customer-service
    agent, the urgency computed at the head of its [process_task]. *)
Definition _determine_urgency (a : Agent) (task : Task) : string :=
  match a with
  | CustomerServiceAgent =>
      if Py.mem (_analyze_sentiment task) ["angry"; "frustrated"]
      then "urgent" else "medium"
  | _ =>
      if (2 <=? Py.sum_bool (urgent_factors a task))%nat then "urgent"
      else if (2 <=? Py.sum_bool (complex_factors a task))%nat then "complex"
      else "medium"
  end.

(** The agent type under which each specialist calls the gateway. *)
Definition gateway_name (a : Agent) : string :=
  match a with
  | GrabFoodAgent => "grabfood"
  | GrabExpressAgent => "grabexpress"
  | CustomerServiceAgent => "customer_service"
  end.

Definition agent_id (a : Agent) : string :=
  match a with
  | GrabFoodAgent => "grabfood_specialist"
  | GrabExpressAgent => "grabexpress_specialist"
  | CustomerServiceAgent => "customer_service_specialist"
  end.

(** [AgentMessage.content]. The food and express agents file their
    text under ["solution"], the customer-service agent under
    ["customer_message"]; the derived checklists (action items, route
    summary, security measures, compensation) are left out. *)
Inductive Content :=
| Solution (solution : string) (confidence : float)
           (model_used optimal_model urgency : string)
           (requires_escalation : bool)
| CustomerMessage (customer_message sentiment_analysis : string)
                  (confidence : float)
                  (model_used optimal_model : string)
                  (escalation_needed : bool).

Record AgentMessage := {
  am_agent_id : string;
  message_type : string;
  content : Content;
  confidence : float
}.

(** [self.state.status] after a task. *)
Definition status_of (confidence : float) : string :=
  if PrimFloat.ltb 0.7 confidence then "completed" else "escalating".

(** [BaseAgent.should_escalate] once [self.state.confidence] is set. *)
Definition should_escalate (confidence : float) : bool :=
  PrimFloat.ltb confidence 0.6.

(** [process_task]: classify, call the gateway once, wrap the answer. *)
Definition process_task (gateway : LLM.Gateway) (a : Agent) (task : Task)
  : St.M LLM.LMStudioManager AgentMessage :=
  (let urgency := _determine_urgency a task in
   response <- LLM.generate_response_for_agent gateway (gateway_name a) urgency ;;
   let c := LLM.confidence response in
   let model_used := LLM.active_model response in
   let optimal_model := Py.get_or (LLM.optimal_model response) "unknown" in
   St.ret
     match a with
     | CustomerServiceAgent =>
         {| am_agent_id := agent_id a;
            message_type := "customer_communication";
            content := CustomerMessage (LLM.content response)
                         (_analyze_sentiment task) c model_used optimal_model
                         (PrimFloat.ltb c 0.7);
            confidence := c |}
     | _ =>
         {| am_agent_id := agent_id a;
            message_type := "task_completion";
            content := Solution (LLM.content response) c model_used
                         optimal_model urgency (should_escalate c);
            confidence := c |}
     end)%st.

End Agents.

(* ================================================================== *)
(** ** core/multi_model_orchestrator.py *)
(* ================================================================== *)

Module MultiModel.

(** The orchestrator object: its two own fields and the gateway
    client it holds a reference to. *)
Record MultiModelOrchestrator := {
  lm_manager : LLM.LMStudioManager;
  current_loaded_model : option string;
  model_switch_count : nat
}.

(** [MultiModelOrchestrator.__init__] *)
Definition init (lm_studio_manager : LLM.LMStudioManager)
  : MultiModelOrchestrator := {|
  lm_manager := lm_studio_manager;
  current_loaded_model := None;
  model_switch_count := 0
|}.

Definition set_lm_manager (lm : LLM.LMStudioManager)
           (self : MultiModelOrchestrator) : MultiModelOrchestrator := {|
  lm_manager := lm;
  current_loaded_model := current_loaded_model self;
  model_switch_count := model_switch_count self
|}.

(** [new_model != self.current_loaded_model]; a name never equals [None]. *)
Definition differs (new_model : string) (loaded : option string) : bool :=
  match loaded with
  | None => true
  | Some m => negb (new_model =? m)
  end.

Definition _switch_model (new_model : string)
  : St.M MultiModelOrchestrator unit :=
  fun self =>
    if differs new_model (current_loaded_model self) then
      (tt, {| lm_manager := lm_manager self;
              current_loaded_model := Some new_model;
              model_switch_count := model_switch_count self + 1 |})
    else (tt, self).

(** One entry of [task_results]. *)
Record TaskResult := {
  task : string;
  model : string;
  priority : string;
  response : string;
  confidence : float;
  specialized : bool
}.

Definition _execute_specialized_task (gateway : LLM.Gateway)
           (task_name model_name priority : string)
           (problem_context : ModelCapability.ProblemContext)
  : St.M MultiModelOrchestrator TaskResult :=
  (response <- St.zoom lm_manager set_lm_manager
                 (LLM.generate_response_for_agent gateway
                    ("specialist_" ++ task_name)
                    (Py.get_or (ModelCapability.urgency problem_context) "medium")) ;;
   St.ret {| task := task_name;
             model := model_name;
             priority := priority;
             response := LLM.content response;
             confidence := LLM.confidence response;
             specialized := true |})%st.

(** Step 2 of [execute_multi_model_analysis]: the loop over the
    recommended tasks, in order. *)
Fixpoint execute_tasks (gateway : LLM.Gateway)
         (problem_context : ModelCapability.ProblemContext)
         (tasks : list ModelCapability.TaskInfo)
  : St.M MultiModelOrchestrator (list TaskResult) :=
  match tasks with
  | [] => St.ret []
  | task_info :: rest =>
      (let task_name := ModelCapability.value (ModelCapability.task task_info) in
       let optimal_model := ModelCapability.model task_info in
       let priority := ModelCapability.priority task_info in
       self <- St.get ;;
       (if differs optimal_model (current_loaded_model self)
        then _switch_model optimal_model else St.ret tt) ;;;
       result <- _execute_specialized_task gateway task_name optimal_model
                   priority problem_context ;;
       results <- execute_tasks gateway problem_context rest ;;
       St.ret (result :: results))%st
  end.

(** What [_synthesize_multi_model_results] returns. *)
Record Synthesis := {
  unified_plan : string;
  synthesis_confidence : float;
  models_synthesized : nat;
  priority_levels : nat;
  comprehensive : bool
}.

Definition _synthesize_multi_model_results (gateway : LLM.Gateway)
           (task_results : list TaskResult)
  : St.M MultiModelOrchestrator Synthesis :=
  (synthesis_response <- St.zoom lm_manager set_lm_manager
                           (LLM.generate_response_for_agent gateway
                              "master_synthesizer" "complex") ;;
   St.ret {| unified_plan := LLM.content synthesis_response;
             synthesis_confidence := LLM.confidence synthesis_response;
             models_synthesized := Py.distinct (map model task_results);
             priority_levels := Py.distinct (map priority task_results);
             comprehensive := true |})%st.

(** [priority_weights.get(result['priority'], 0.5)] *)
Definition priority_weights (priority : string) : float :=
  if priority =? "critical" then 1.0%float
  else if priority =? "high" then 0.8%float
  else if priority =? "medium" then 0.6%float
  else 0.5%float.

(** The accumulation loop of [_calculate_multi_model_confidence]. *)
Fixpoint accumulate (task_results : list TaskResult)
         (weighted_sum total_weight : float) : float * float :=
  match task_results with
  | [] => (weighted_sum, total_weight)
  | result :: rest =>
      let weight := priority_weights (priority result) in
      accumulate rest
        (weighted_sum + confidence result * weight)%float
        (total_weight + weight)%float
  end.

Definition _calculate_multi_model_confidence (task_results : list TaskResult)
  : float :=
  match task_results with
  | [] => 0.0%float
  | _ =>
      let (weighted_sum, total_weight) := accumulate task_results 0 0 in
      let base_confidence :=
        if PrimFloat.ltb 0 total_weight
        then (weighted_sum / total_weight)%float else 0.0%float in
      let unique_models := Py.distinct (map model task_results) in
      let diversity_bonus :=
        Py.min 0.15 (Py.float_of_nat unique_models * 0.03)%float in
      Py.min 0.95 (base_confidence + diversity_bonus)%float
  end.

(** What [execute_multi_model_analysis] returns. *)
Record Analysis := {
  problem_analysis : ModelCapability.TaskAnalysis;
  task_results : list TaskResult;
  final_solution : Synthesis;
  models_used : list string;
  model_switches : nat;
  overall_confidence : float
}.

(** Steps 2 and 3 on a given task list. *)
Definition execute_and_synthesize (gateway : LLM.Gateway)
           (problem_context : ModelCapability.ProblemContext)
           (task_analysis : ModelCapability.TaskAnalysis)
  : St.M MultiModelOrchestrator Analysis :=
  (task_results <- execute_tasks gateway problem_context
                     (ModelCapability.ta_recommended_tasks task_analysis) ;;
   final_solution <- _synthesize_multi_model_results gateway task_results ;;
   self <- St.get ;;
   St.ret {| problem_analysis := task_analysis;
             task_results := task_results;
             final_solution := final_solution;
             models_used := ModelCapability.models_needed task_analysis;
             model_switches := model_switch_count self;
             overall_confidence :=
               _calculate_multi_model_confidence task_results |})%st.

Definition execute_multi_model_analysis (gateway : LLM.Gateway)
           (problem_context : ModelCapability.ProblemContext)
  : St.M MultiModelOrchestrator Analysis :=
  execute_and_synthesize gateway problem_context
    (ModelCapability.analyze_problem_requirements problem_context).

End MultiModel.

(* ================================================================== *)
(** ** orchestrator/langgraph_orchestrator.py *)
(* ================================================================== *)

Module Workflow.

(** The exceptions that can leave a node or the graph run. *)
Inductive Exn :=
| KeyError (key : string)
| GraphRecursionError (recursion_limit : nat).

(** The disruption dictionary: the keys of the input record that the
    workflow or the agents inspect, and the two annexes that the
    first two nodes attach. The keys ["task_id"], ["disruption"]
    ([disruption_key]), ["customer_issue"] and ["sentiment"] are read
    by the agents only, which get every key of the report in their
    task. *)
Record Disruption := {
  id : option string;
  description : option string;
  service_type : option string;
  urgency : option string;
  severity : option string;
  affected_orders : option Z;
  package_value : option Z;
  package_type : option string;
  fragile : option bool;
  customer_sentiment : option string;
  task_id : option string;
  disruption_key : option string;
  customer_issue : option string;
  sentiment : option string;
  analysis : option LLM.Response;
  specialist_briefing : option LLM.Response
}.

(** [response_dict]: an [AgentMessage] converted field by field. *)
Record ResponseDict := {
  agent_id : string;
  message_type : string;
  content : Agents.Content;
  confidence : float
}.

(** One entry of [state["agent_responses"]]. *)
Record AgentResponse := {
  agent : string;
  response : ResponseDict
}.

(** The value stored under ["solution"]. *)
Inductive SolutionText :=
| Text (s : string)
| Stringified (c : Agents.Content)      (* [str(response_content)] *)
| SystemError (e : Exn).                (* [f"System error: {str(e)}"] *)

Record EscalationContext := {
  ec_disruption : Disruption;
  attempted_solutions : list AgentResponse;
  confidence_scores : list float;
  escalation_reason : string;
  recommended_actions : SolutionText
}.

(** The ["validation"] entry: its content and its confidence. *)
Record Validation := {
  v_content : string;
  v_confidence : float
}.

(** [state["final_solution"]]; it starts as the empty dictionary. *)
Record FinalSolution := {
  solution : option SolutionText;
  validation : option Validation;
  fs_confidence : option float;
  customer_communication : option ResponseDict;
  escalation_context : option EscalationContext
}.

Definition empty_solution : FinalSolution := {|
  solution := None;
  validation := None;
  fs_confidence := None;
  customer_communication := None;
  escalation_context := None
|}.

(** One entry of the conversation log (its ["input"] is the
    disruption dictionary itself). *)
Record HistoryEntry := {
  step : string;
  output : LLM.Response
}.

Record LogisticsState := {
  disruption : Disruption;
  current_agent : string;
  agent_responses : list AgentResponse;
  final_solution : FinalSolution;
  escalation_needed : bool;
  confidence_score : float;
  conversation_history : list HistoryEntry
}.

(** *** Field updates *)

Definition set_analysis (a : LLM.Response) (d : Disruption) : Disruption := {|
  id := id d; description := description d; service_type := service_type d;
  urgency := urgency d; severity := severity d;
  affected_orders := affected_orders d; package_value := package_value d;
  package_type := package_type d; fragile := fragile d;
  customer_sentiment := customer_sentiment d;
  task_id := task_id d; disruption_key := disruption_key d;
  customer_issue := customer_issue d; sentiment := sentiment d;
  analysis := Some a;
  specialist_briefing := specialist_briefing d
|}.

Definition set_specialist_briefing (b : LLM.Response) (d : Disruption)
  : Disruption := {|
  id := id d; description := description d; service_type := service_type d;
  urgency := urgency d; severity := severity d;
  affected_orders := affected_orders d; package_value := package_value d;
  package_type := package_type d; fragile := fragile d;
  customer_sentiment := customer_sentiment d;
  task_id := task_id d; disruption_key := disruption_key d;
  customer_issue := customer_issue d; sentiment := sentiment d;
  analysis := analysis d;
  specialist_briefing := Some b
|}.

Definition set_disruption (d : Disruption) (s : LogisticsState)
  : LogisticsState := {|
  disruption := d; current_agent := current_agent s;
  agent_responses := agent_responses s; final_solution := final_solution s;
  escalation_needed := escalation_needed s;
  confidence_score := confidence_score s;
  conversation_history := conversation_history s
|}.

Definition set_current_agent (a : string) (s : LogisticsState)
  : LogisticsState := {|
  disruption := disruption s; current_agent := a;
  agent_responses := agent_responses s; final_solution := final_solution s;
  escalation_needed := escalation_needed s;
  confidence_score := confidence_score s;
  conversation_history := conversation_history s
|}.

Definition set_final_solution (f : FinalSolution) (s : LogisticsState)
  : LogisticsState := {|
  disruption := disruption s; current_agent := current_agent s;
  agent_responses := agent_responses s; final_solution := f;
  escalation_needed := escalation_needed s;
  confidence_score := confidence_score s;
  conversation_history := conversation_history s
|}.

Definition log_history (h : HistoryEntry) (s : LogisticsState)
  : LogisticsState := {|
  disruption := disruption s; current_agent := current_agent s;
  agent_responses := agent_responses s; final_solution := final_solution s;
  escalation_needed := escalation_needed s;
  confidence_score := confidence_score s;
  conversation_history := conversation_history s ++ [h]
|}.

(** [state["agent_responses"].append(r)] followed by
    [state["confidence_score"] = c]. *)
Definition record_response (r : AgentResponse) (c : float)
           (s : LogisticsState) : LogisticsState := {|
  disruption := disruption s; current_agent := current_agent s;
  agent_responses := agent_responses s ++ [r];
  final_solution := final_solution s;
  escalation_needed := escalation_needed s;
  confidence_score := c;
  conversation_history := conversation_history s
|}.

Definition set_escalation_needed (b : bool) (s : LogisticsState)
  : LogisticsState := {|
  disruption := disruption s; current_agent := current_agent s;
  agent_responses := agent_responses s; final_solution := final_solution s;
  escalation_needed := b;
  confidence_score := confidence_score s;
  conversation_history := conversation_history s
|}.

(** *** The nodes

    A node maps the state to a new state or raises; it may call the
    gateway through the shared [LMStudioManager]. The gateway client
    and, on values of the interface's types, the agents return without
    raising, so the [except] branches that wrap those calls inside the
    nodes (substitute answers with confidence 0.5 and 0.3) are never
    entered; what a node can raise is the [KeyError] of a subscript on
    an absent key, outside those [try] blocks. *)

Definition Node := LogisticsState -> St.M LLM.LMStudioManager (Exn + LogisticsState).

Definition analyze_disruption (gateway : LLM.Gateway) : Node :=
  fun state =>
    (analysis <- LLM.generate_response gateway ModelCapability.REASONING ;;
     let state := log_history {| step := "disruption_analysis";
                                 output := analysis |} state in
     St.ret (inr (set_disruption (set_analysis analysis (disruption state))
                                 state)))%st.

(** The specialist chosen by [route_to_specialist]. *)
Definition choose_specialist (analysis service_type : string) : string :=
  if Py.contains "food" (Py.lower analysis)
     || Py.contains "restaurant" (Py.lower analysis)
     || (service_type =? "grabfood")
  then "grabfood"
  else if Py.contains "package" (Py.lower analysis)
          || Py.contains "express" (Py.lower analysis)
          || (service_type =? "grabexpress")
  then "grabexpress"
  else "customer_service".

Definition route_to_specialist (gateway : LLM.Gateway) : Node :=
  fun state =>
    match analysis (disruption state) with
    | None => St.ret (inl (KeyError "analysis"))
    | Some a =>
        (let analysis := LLM.content a in
         let service_type := Py.get_or (service_type (disruption state)) "" in
         let specialist := choose_specialist analysis service_type in
         let state := set_current_agent specialist state in
         briefing <- LLM.generate_response gateway ModelCapability.REASONING ;;
         St.ret (inr (set_disruption
                        (set_specialist_briefing briefing (disruption state))
                        state)))%st
    end.

(** [self.agents[name]] *)
Definition agents (name : string) : option Agents.Agent :=
  if name =? "grabfood" then Some Agents.GrabFoodAgent
  else if name =? "grabexpress" then Some Agents.GrabExpressAgent
  else if name =? "customer_service" then Some Agents.CustomerServiceAgent
  else None.

(** The [task] dictionary of [execute_specialist_task]: the keys
    set from the state, then every key of the disruption
    ([**state["disruption"]]), which wins where both set a key:
    ["task_id"] and ["disruption"] are the report's own if it has
    them (otherwise the generated id, which stands here as ["task"],
    and the description), and ["service_type"] is the report's in
    either case. *)
Definition specialist_task (d : Disruption) (description service_type : string)
  : Agents.Task := {|
  Agents.task_id := Some (Py.get_or (task_id d) "task");
  Agents.disruption := Some (Py.get_or (disruption_key d) description);
  Agents.service_type := Some service_type;
  Agents.urgency := urgency d;
  Agents.severity := severity d;
  Agents.affected_orders := affected_orders d;
  Agents.package_value := package_value d;
  Agents.package_type := package_type d;
  Agents.fragile := fragile d;
  Agents.customer_issue := customer_issue d;
  Agents.sentiment := sentiment d
|}.

Definition to_dict (m : Agents.AgentMessage) : ResponseDict := {|
  agent_id := Agents.am_agent_id m;
  message_type := Agents.message_type m;
  content := Agents.content m;
  confidence := Agents.confidence m
|}.

Definition execute_specialist_task (gateway : LLM.Gateway) : Node :=
  fun state =>
    let current_agent := current_agent state in
    match agents current_agent with
    | None => St.ret (inl (KeyError current_agent))
    | Some agent =>
        match description (disruption state) with
        | None => St.ret (inl (KeyError "description"))
        | Some description =>
            match service_type (disruption state) with
            | None => St.ret (inl (KeyError "service_type"))
            | Some service_type =>
                (let task := specialist_task (disruption state)
                                             description service_type in
                 response <- Agents.process_task gateway agent task ;;
                 let response_dict := to_dict response in
                 St.ret (inr (record_response
                                {| agent := current_agent;
                                   response := response_dict |}
                                (confidence response_dict) state)))%st
            end
        end
    end.

(** The solution text that [validate_solution] extracts. *)
Definition extract_solution (c : Agents.Content) : SolutionText :=
  match c with
  | Agents.Solution solution _ _ _ _ _ => Text solution
  | Agents.CustomerMessage _ _ _ _ _ _ => Stringified c
  end.

Definition validate_solution (gateway : LLM.Gateway) : Node :=
  fun state =>
    match rev (agent_responses state) with
    | [] =>
        St.ret (inr (set_final_solution
          {| solution := Some (Text "No solution generated");
             validation := Some {| v_content := "No validation possible";
                                   v_confidence := 0.1 |};
             fs_confidence := Some 0.1%float;
             customer_communication := None;
             escalation_context := None |} state))
    | latest_response :: _ =>
        match description (disruption state) with
        | None => St.ret (inl (KeyError "description"))
        | Some _ =>
            (let solution := extract_solution (content (response latest_response)) in
             validation <- LLM.generate_response gateway ModelCapability.REASONING ;;
             St.ret (inr (set_final_solution
               {| solution := Some solution;
                  validation := Some {| v_content := LLM.content validation;
                                        v_confidence := LLM.confidence validation |};
                  fs_confidence := Some (confidence (response latest_response));
                  customer_communication := None;
                  escalation_context := None |} state)))%st
        end
    end.

(** The task handed to the customer-service agent by
    [handle_customer_communication]. *)
Definition communication_task (d : Disruption) (description service_type : string)
  : Agents.Task := {|
  Agents.task_id := None;
  Agents.disruption := None;
  Agents.service_type := Some service_type;
  Agents.urgency := None;
  Agents.severity := None;
  Agents.affected_orders := None;
  Agents.package_value := None;
  Agents.package_type := None;
  Agents.fragile := None;
  Agents.customer_issue := Some description;
  Agents.sentiment := Some (Py.get_or (customer_sentiment d) "neutral")
|}.

Definition set_customer_communication (c : ResponseDict) (f : FinalSolution)
  : FinalSolution := {|
  solution := solution f; validation := validation f;
  fs_confidence := fs_confidence f;
  customer_communication := Some c;
  escalation_context := escalation_context f
|}.

Definition set_escalation_context (c : EscalationContext) (f : FinalSolution)
  : FinalSolution := {|
  solution := solution f; validation := validation f;
  fs_confidence := fs_confidence f;
  customer_communication := customer_communication f;
  escalation_context := Some c
|}.

Definition handle_customer_communication (gateway : LLM.Gateway) : Node :=
  fun state =>
    match description (disruption state) with
    | None => St.ret (inl (KeyError "description"))
    | Some description =>
        match solution (final_solution state) with
        | None => St.ret (inl (KeyError "solution"))
        | Some _ =>
            match service_type (disruption state) with
            | None => St.ret (inl (KeyError "service_type"))
            | Some service_type =>
                (let task := communication_task (disruption state)
                                                description service_type in
                 communication <- Agents.process_task gateway
                                    Agents.CustomerServiceAgent task ;;
                 St.ret (inr (set_final_solution
                                (set_customer_communication
                                   (to_dict communication)
                                   (final_solution state))
                                state)))%st
            end
        end
    end.

Definition escalate_to_human : Node :=
  fun state =>
    let escalation_context := {|
      ec_disruption := disruption state;
      attempted_solutions := agent_responses state;
      confidence_scores :=
        map (fun resp => confidence (response resp)) (agent_responses state);
      escalation_reason := "Low confidence score or complex scenario";
      recommended_actions :=
        Py.get_or (solution (final_solution state)) (Text "None generated")
    |} in
    let state := set_escalation_needed true state in
    St.ret (inr (set_final_solution
                   (set_escalation_context escalation_context
                                           (final_solution state))
                   state)).

(** The record handed to [_store_solution_for_learning]. *)
Record SolutionLog := {
  disruption_id : option string;
  disruption_type : option string;
  sl_solution : SolutionText;
  sl_confidence : float;
  agents_involved : list string
}.

Definition solution_log (state : LogisticsState) : SolutionLog := {|
  disruption_id := id (disruption state);
  disruption_type := service_type (disruption state);
  sl_solution := Py.get_or (solution (final_solution state)) (Text "No solution");
  sl_confidence := Py.get_or (fs_confidence (final_solution state)) 0%float;
  agents_involved := map agent (agent_responses state)
|}.

(** [finalize_solution] logs [solution_log state] and returns the
    state as it is. *)
Definition finalize_solution : Node :=
  fun state => St.ret (inr state).

(** *** The graph *)

(** The labels [_should_escalate] returns. *)
Inductive Decision := escalate | retry | communicate.

Definition _should_escalate (config : Settings.Config) (state : LogisticsState)
  : Decision :=
  let confidence := confidence_score state in
  if PrimFloat.ltb confidence (Settings.HUMAN_ESCALATION_THRESHOLD config)
  then escalate
  else if PrimFloat.ltb confidence (Settings.CONFIDENCE_THRESHOLD config)
  then retry
  else communicate.

(** The names under which [_build_workflow_graph] registers the nodes. *)
Inductive NodeName :=
| N_disruption_analysis
| N_route_to_specialist
| N_execute_specialist_task
| N_validate_solution
| N_customer_communication
| N_escalate_to_human
| N_finalize_solution.

(** [workflow.add_node] *)
Definition node (gateway : LLM.Gateway) (n : NodeName) : Node :=
  match n with
  | N_disruption_analysis => analyze_disruption gateway
  | N_route_to_specialist => route_to_specialist gateway
  | N_execute_specialist_task => execute_specialist_task gateway
  | N_validate_solution => validate_solution gateway
  | N_customer_communication => handle_customer_communication gateway
  | N_escalate_to_human => escalate_to_human
  | N_finalize_solution => finalize_solution
  end.

(** The mapping given to [add_conditional_edges]. *)
Definition conditional_edges (d : Decision) : NodeName :=
  match d with
  | escalate => N_escalate_to_human
  | communicate => N_customer_communication
  | retry => N_execute_specialist_task
  end.

(** [workflow.add_edge] and [add_conditional_edges]: the node that
    follows [n] when [n] has produced [state]; [None] is [END]. *)
Definition successor (config : Settings.Config) (n : NodeName)
           (state : LogisticsState) : option NodeName :=
  match n with
  | N_disruption_analysis => Some N_route_to_specialist
  | N_route_to_specialist => Some N_execute_specialist_task
  | N_execute_specialist_task => Some N_validate_solution
  | N_validate_solution =>
      Some (conditional_edges (_should_escalate config state))
  | N_customer_communication => Some N_finalize_solution
  | N_escalate_to_human => None
  | N_finalize_solution => None
  end.

(** [workflow.set_entry_point] *)
Definition entry_point : NodeName := N_disruption_analysis.

(** An exception that leaves the graph run, and the caller's report
    as it stands at that moment. [state["disruption"]] is the very
    dictionary that the caller passed to [process_disruption]: the
    nodes write their annexes into it in place, so what the caller
    holds when the run raises is the [disruption] of the state that
    the run had reached. *)
Definition Raised : Type := Exn * Disruption.

(** The compiled graph's run loop. The graph library is not part of
    the repository; its contract is that a run executes one node per
    step, follows the edges, stops at [END], lets a node's exception
    through, and raises [GraphRecursionError] when [recursion_limit]
    steps have been taken and [END] has not been reached. [steps] is
    the number of steps still allowed. A node that raises does so
    before it writes to the report. *)
Fixpoint run (config : Settings.Config) (gateway : LLM.Gateway)
         (recursion_limit steps : nat) (n : NodeName) (state : LogisticsState)
  : St.M LLM.LMStudioManager (Raised + LogisticsState) :=
  match steps with
  | O => St.ret (inl (GraphRecursionError recursion_limit, disruption state))
  | S steps' =>
      (r <- node gateway n state ;;
       match r with
       | inl e => St.ret (inl (e, disruption state))
       | inr state' =>
           match successor config n state' with
           | None => St.ret (inr state')
           | Some n' => run config gateway recursion_limit steps' n' state'
           end
       end)%st
  end.

(** [self.graph.ainvoke(initial_state, {"recursion_limit": limit})] *)
Definition ainvoke (config : Settings.Config) (gateway : LLM.Gateway)
           (initial_state : LogisticsState) (recursion_limit : nat)
  : St.M LLM.LMStudioManager (Raised + LogisticsState) :=
  run config gateway recursion_limit recursion_limit entry_point initial_state.

(** *** The entry point *)

Definition initial_state (disruption : Disruption) : LogisticsState := {|
  disruption := disruption;
  current_agent := "";
  agent_responses := [];
  final_solution := empty_solution;
  escalation_needed := false;
  confidence_score := 0.0;
  conversation_history := []
|}.

(** The dictionary built in the [except] branch of
    [process_disruption]; its ["disruption"] is the caller's report,
    with whatever the nodes have written into it. *)
Record ErrorState := {
  es_disruption : Disruption;
  es_final_solution : FinalSolution;
  es_escalation_needed : bool;
  es_confidence_score : float;
  es_error : Exn
}.

(** What the caller of [process_disruption] receives. *)
Inductive Result :=
| FinalState (state : LogisticsState)
| ErrorResult (state : ErrorState).

Definition error_state (disruption : Disruption) (e : Exn) : ErrorState := {|
  es_disruption := disruption;
  es_final_solution := {|
    solution := Some (SystemError e);
    validation := None;
    fs_confidence := Some 0.1%float;
    customer_communication := None;
    escalation_context := None |};
  es_escalation_needed := true;
  es_confidence_score := 0.1;
  es_error := e
|}.

Definition process_disruption (config : Settings.Config)
           (gateway : LLM.Gateway) (disruption : Disruption)
  : St.M LLM.LMStudioManager Result :=
  (r <- ainvoke config gateway (initial_state disruption) 50 ;;
   St.ret match r with
          | inr final_state => FinalState final_state
          | inl (e, report) => ErrorResult (error_state report e)
          end)%st.

(** *** Reading the result, key by key *)

Definition result_final_solution (r : Result) : FinalSolution :=
  match r with
  | FinalState s => final_solution s
  | ErrorResult s => es_final_solution s
  end.

Definition result_escalation_needed (r : Result) : bool :=
  match r with
  | FinalState s => escalation_needed s
  | ErrorResult s => es_escalation_needed s
  end.

Definition result_confidence_score (r : Result) : float :=
  match r with
  | FinalState s => confidence_score s
  | ErrorResult s => es_confidence_score s
  end.

End Workflow.

(* ================================================================== *)
(** ** core/model_capability.py: the catalogue of models *)
(* ================================================================== *)

Module LogisticsModelManager.

(** [self.task_model_mapping.values()] *)
Definition task_models : list string :=
  map ModelCapability.get_model_for_task
      [ModelCapability.ROUTE_OPTIMIZATION; ModelCapability.CUSTOMER_COMMUNICATION;
       ModelCapability.STRATEGIC_PLANNING; ModelCapability.SENTIMENT_ANALYSIS;
       ModelCapability.EMERGENCY_RESPONSE].

(** [self.urgency_model_map.values()] *)
Definition urgency_models : list string :=
  map ModelCapability.get_model_by_urgency
      ["urgent"; "medium"; "complex"; "customer"; "spatial"].

(** [get_all_models]: the set of the names in the two tables, as a
    duplicate-free list. *)
Definition get_all_models : list string :=
  nodup string_dec (task_models ++ urgency_models).

End LogisticsModelManager.

(* ================================================================== *)
(** ** agents/service_agents.py: the checklists attached to an answer *)
(* ================================================================== *)

Module Checklists.

(** [items.append(x)] guarded by [cond]. *)
Definition append_if (cond : bool) (x : string) (acc : list string)
  : list string :=
  if cond then acc ++ [x] else acc.

(** [GrabFoodAgent._extract_action_items] *)
Definition _extract_action_items (content : string) : list string :=
  let actions := [] in
  let actions :=
    append_if (Py.contains "contact restaurant" (Py.lower content))
              "restaurant_contact" actions in
  let actions :=
    append_if (Py.contains "alternative route" (Py.lower content))
              "route_optimization" actions in
  let actions :=
    append_if (Py.contains "customer notification" (Py.lower content))
              "customer_communication" actions in
  let actions :=
    append_if (Py.contains "refund" (Py.lower content)
               || Py.contains "compensation" (Py.lower content))
              "customer_compensation" actions in
  actions.

(** [GrabExpressAgent._assess_security_needs] *)
Definition _assess_security_needs (task : Agents.Task) : list string :=
  let security_measures := [] in
  let package_value := Py.get_or (Agents.package_value task) 0%Z in
  let security_measures :=
    append_if (10000 <? package_value)%Z "signature_required"
              security_measures in
  let security_measures :=
    append_if (Agents.get_eq (Agents.package_type task) "documents")
              "document_verification" security_measures in
  let security_measures :=
    append_if (Py.get_or (Agents.fragile task) false)
              "fragile_handling" security_measures in
  let security_measures :=
    append_if (50000 <? package_value)%Z "insurance_verification"
              security_measures in
  security_measures.

(** The keys of the customer-service task that only
    [_needs_follow_up] reads; [history] is [str(task['history'])]. *)
Record CustomerKeys := {
  customer_tier : option string;
  issue_complexity : option string;
  history : option string
}.

(** [CustomerServiceAgent._needs_follow_up] *)
Definition _needs_follow_up (task : Agents.Task) (keys : CustomerKeys) : bool :=
  let high_value_customer := Agents.get_eq (customer_tier keys) "premium" in
  let complex_issue := Py.get_or (issue_complexity keys) "low" =? "high" in
  let negative_sentiment :=
    Py.mem (Agents._analyze_sentiment task) ["angry"; "frustrated"] in
  let repeated_issue :=
    match history keys with
    | Some h => (10 <? Py.len h)%nat
    | None => false
    end in
  high_value_customer || complex_issue || negative_sentiment || repeated_issue.

(** The dictionary [_suggest_compensation] returns. *)
Record Compensation := {
  c_type : option string;
  amount : Z;
  reason : option string
}.

(** [CustomerServiceAgent._suggest_compensation] *)
Definition _suggest_compensation (task : Agents.Task) (sentiment : string)
  : Compensation :=
  let compensation := {| c_type := None; amount := 0; reason := None |} in
  let service_type := Py.get_or (Agents.service_type task) "general" in
  if Py.mem sentiment ["angry"; "frustrated"] then
    if service_type =? "grabfood" then
      {| c_type := Some "credit"; amount := 100;
         reason := Some "Food delivery disruption compensation" |}
    else if service_type =? "grabexpress" then
      {| c_type := Some "discount"; amount := 50;
         reason := Some "Express delivery delay compensation" |}
    else compensation
  else compensation.

(** The compensation that [process_task] puts in its message. *)
Definition suggested_compensation (task : Agents.Task) : Compensation :=
  _suggest_compensation task (Agents._analyze_sentiment task).

End Checklists.

(* ================================================================== *)
(** ** orchestrator/crew_integration.py and main.py *)
(* ================================================================== *)

Module Main.

(** The [disruption_data] dictionary, as far as [handle_disruption]
    and what it calls read it beyond the prompt texts. *)
Record DisruptionData := {
  description : option string;
  urgency : option string;
  severity : option string;
  affected_areas : option (list string)
}.

(** The same dictionary as the scheduler reads it. *)
Definition problem_context (d : DisruptionData) : ModelCapability.ProblemContext := {|
  ModelCapability.description := description d;
  ModelCapability.urgency := urgency d
|}.

(** What [CrewAIIntegration.execute_crew_task] returns. *)
Record CrewResult := {
  crew_type : string;
  analysis : string;
  confidence : float;
  provider : string
}.

(** [CrewAIIntegration.execute_crew_task]; the integration holds the
    gateway client of [LogisticsAI]. *)
Definition execute_crew_task (gateway : LLM.Gateway) (crew_type : string)
           (disruption_data : DisruptionData)
  : St.M LLM.LMStudioManager CrewResult :=
  (response <- LLM.generate_response_for_agent gateway ("crew_" ++ crew_type)
                 (Py.get_or (urgency disruption_data) "medium") ;;
   St.ret {| crew_type := crew_type;
             analysis := LLM.content response;
             confidence := LLM.confidence response;
             provider := "lm_studio_local" |})%st.

(** [complexity_indicators] of [_requires_crew_approach], for a
    description that is present. *)
Definition complexity_indicators (text : string) (disruption : DisruptionData)
  : list bool :=
  [ Py.contains "multiple" (Py.lower text);
    Py.contains "citywide" (Py.lower text);
    Agents.get_eq (severity disruption) "high";
    (3 <? List.length (Py.get_or (affected_areas disruption) []))%nat ].

(** [LogisticsAI._requires_crew_approach] *)
Definition _requires_crew_approach (disruption : DisruptionData)
  : Workflow.Exn + bool :=
  match description disruption with
  | None => inl (Workflow.KeyError "description")
  | Some text =>
      inr (2 <=? Py.sum_bool (complexity_indicators text disruption))%nat
  end.

(** [LogisticsAI._determine_crew_type] *)
Definition _determine_crew_type (disruption : DisruptionData)
  : Workflow.Exn + string :=
  match description disruption with
  | None => inl (Workflow.KeyError "description")
  | Some text =>
      inr (if Py.contains "traffic" (Py.lower text) then "traffic_crisis"
           else if Py.contains "restaurant" (Py.lower text)
           then "merchant_coordination"
           else if Py.contains "customer" (Py.lower text)
           then "customer_retention"
           else "traffic_crisis")
  end.

(** [LogisticsAI.enhanced_multi_model_processing] *)
Definition enhanced_multi_model_processing (gateway : LLM.Gateway)
           (disruption_data : DisruptionData)
  : St.M MultiModel.MultiModelOrchestrator MultiModel.Analysis :=
  MultiModel.execute_multi_model_analysis gateway (problem_context disruption_data).

(** The dictionary [handle_disruption] returns: the analysis and,
    when a crew was deployed, the key ["crew_analysis"]. *)
Record Handled := {
  multi_model_result : MultiModel.Analysis;
  crew_analysis : option CrewResult
}.

(** [LogisticsAI.handle_disruption]. The state is the scheduler, whose
    gateway client is the one the crew integration calls. *)
Definition handle_disruption (gateway : LLM.Gateway)
           (disruption_data : DisruptionData)
  : St.M MultiModel.MultiModelOrchestrator (Workflow.Exn + Handled) :=
  match description disruption_data with
  | None => St.ret (inl (Workflow.KeyError "description"))
  | Some _ =>
      (multi_model_result <- enhanced_multi_model_processing gateway
                               disruption_data ;;
       match _requires_crew_approach disruption_data with
       | inl e => St.ret (inl e)
       | inr false =>
           St.ret (inr {| multi_model_result := multi_model_result;
                          crew_analysis := None |})
       | inr true =>
           match _determine_crew_type disruption_data with
           | inl e => St.ret (inl e)
           | inr crew_type =>
               crew_result <- St.zoom MultiModel.lm_manager
                                MultiModel.set_lm_manager
                                (execute_crew_task gateway crew_type
                                                   disruption_data) ;;
               St.ret (inr {| multi_model_result := multi_model_result;
                              crew_analysis := Some crew_result |})
           end
       end)%st
  end.

(** The crew types that have a prompt of their own. *)
Definition crew_types : list string :=
  ["traffic_crisis"; "merchant_coordination"; "customer_retention"].

(** A crew is called for: at least two complexity indicators. *)
Definition crew_needed (d : DisruptionData) : bool :=
  match description d with
  | Some text => (2 <=? Py.sum_bool (complexity_indicators text d))%nat
  | None => false
  end.

End Main.

(* ================================================================== *)
(** ** core/multi_instance_lm_manager.py *)
(* ================================================================== *)

Module MultiInstance.



(** What [call_model] returns: the answer of the instance, or the
    error dictionary of its [except] branch. *)
Inductive Result :=
| Answer (task model : string) (response : option string)
         (endpoint : string) (confidence : float)
| Error (task error : string).








End MultiInstance.

(* ================================================================== *)
(** * The vocabulary of the specification

    The notions in which the properties below are stated: the orderings
    and signs of binary64 numbers, the quantities the specification
    names (adjacent backend changes, weighted mean, diversity bonus,
    urgent keywords, retry band), and the concrete scenarios. *)
(* ================================================================== *)

(** ** Signs of binary64 numbers

    A number is "not negative" when it is a zero, a positive number,
    plus infinity or a NaN. *)

Definition sf_not_negative (x : spec_float) : bool :=
  match x with
  | S754_nan | S754_zero _ => true
  | S754_infinity s | S754_finite s _ _ => negb s
  end.

Definition sf_has_sign (sx : bool) (x : spec_float) : bool :=
  match x with
  | S754_nan => true
  | S754_zero s | S754_infinity s | S754_finite s _ _ => Bool.eqb s sx
  end.

Definition not_negative (x : float) : Prop := sf_not_negative (Prim2SF x) = true.

(** ** The specialist confidence score *)

(** The score as the specification words it: start at 0.8; +0.05 for a
    text longer than 100, -0.1 for one shorter than 50; +0.1 when a
    quality keyword of the agent occurs; -0.15 when a hedging keyword
    occurs; clamp to [0.1, 0.95]. *)
Definition spec_confidence (len : nat) (quality hedging : bool) : float :=
  let start := 0.8%float in
  let by_length :=
    if (100 <? len)%nat then (start + 0.05)%float
    else if (len <? 50)%nat then (start - 0.1)%float
    else start in
  let by_quality := if quality then (by_length + 0.1)%float else by_length in
  let by_hedging := if hedging then (by_quality - 0.15)%float else by_quality in
  Py.max 0.1 (Py.min 0.95 by_hedging).

(** ** The validation guard *)

(** A state in which the last specialist answer had confidence [c]. *)
Definition scored (c : float) : Workflow.LogisticsState := {|
  Workflow.disruption := {|
    Workflow.id := None; Workflow.description := None;
    Workflow.service_type := None; Workflow.urgency := None;
    Workflow.severity := None; Workflow.affected_orders := None;
    Workflow.package_value := None; Workflow.package_type := None;
    Workflow.fragile := None; Workflow.customer_sentiment := None;
    Workflow.task_id := None; Workflow.disruption_key := None;
    Workflow.customer_issue := None; Workflow.sentiment := None;
    Workflow.analysis := None; Workflow.specialist_briefing := None |};
  Workflow.current_agent := "customer_service";
  Workflow.agent_responses := [];
  Workflow.final_solution := Workflow.empty_solution;
  Workflow.escalation_needed := false;
  Workflow.confidence_score := c;
  Workflow.conversation_history := []
|}.

(** The node that follows [validate_solution] under the default
    thresholds. *)
Definition after_validation (state : Workflow.LogisticsState)
  : option Workflow.NodeName :=
  Workflow.successor Settings.config Workflow.N_validate_solution state.

(** ** The gateway client and the scheduler *)

(** The request that a call issues. *)
Definition request_of (agent_type urgency : string) (lm : LLM.LMStudioManager)
  : LLM.Request := {|
  LLM.req_model := LLM.current_active_model lm;
  LLM.req_agent_type := agent_type;
  LLM.req_urgency := urgency;
  LLM.req_temperature := LLM._get_temperature_for_agent agent_type;
  LLM.req_max_tokens := LLM._get_max_tokens_for_agent agent_type
|}.

(** What a state of the client has issued beyond an earlier state, all
    of it on the model [active]. *)
Definition extends (active : string) (n : nat)
           (lm lm' : LLM.LMStudioManager) : Prop :=
  LLM.current_active_model lm' = LLM.current_active_model lm
  /\ exists issued,
       LLM.gateway_calls lm' = LLM.gateway_calls lm ++ issued
       /\ List.length issued = n
       /\ Forall (fun r => LLM.req_model r = active) issued.

(** The switch bookkeeping of one loop iteration. *)
Definition switched (new_model : string) (self : MultiModel.MultiModelOrchestrator)
  : MultiModel.MultiModelOrchestrator :=
  snd (MultiModel._switch_model new_model self).

(** The number of switches the loop performs on the backends [models]
    when [loaded] is the backend in place. *)
Fixpoint switches (loaded : option string) (models : list string) : nat :=
  match models with
  | [] => 0
  | m :: rest =>
      (if MultiModel.differs m loaded then 1 else 0) + switches (Some m) rest
  end.

(** The number of adjacent pairs of [models] whose names differ. *)
Fixpoint adjacent_changes (models : list string) : nat :=
  match models with
  | a :: (b :: _) as rest =>
      (if a =? b then 0 else 1) + adjacent_changes rest
  | _ => 0
  end.

(** A task bound to the backend [name]. *)
Definition on_backend (name : string) : ModelCapability.TaskInfo := {|
  ModelCapability.task := ModelCapability.STRATEGIC_PLANNING;
  ModelCapability.model := name;
  ModelCapability.priority := "high"
|}.

Definition AABA : list ModelCapability.TaskInfo :=
  [on_backend "A"; on_backend "A"; on_backend "B"; on_backend "A"].

(** The switch count that one execution from a fresh orchestrator
    leaves behind. *)
Definition switch_count_after (gateway : LLM.Gateway)
           (problem_context : ModelCapability.ProblemContext)
           (tasks : list ModelCapability.TaskInfo) (lm : LLM.LMStudioManager)
  : nat :=
  MultiModel.model_switch_count
    (snd (MultiModel.execute_tasks gateway problem_context tasks
            (MultiModel.init lm))).

(** ** The router *)

Module RouterSpec.

Import ModelCapability.

(** The lower-cased description and the urgency the router reads. *)
Definition text (problem_context : ProblemContext) : string :=
  Py.lower (Py.get_or (description problem_context) "").

Definition urgency_of (problem_context : ProblemContext) : string :=
  Py.get_or (urgency problem_context) "medium".

Definition routing_signal (c : ProblemContext) : bool :=
  Py.any_in ["traffic"; "route"; "location"; "delivery"] (text c).

Definition communication_signal (c : ProblemContext) : bool :=
  Py.any_in ["customer"; "notification"; "communication"] (text c).

Definition sentiment_signal (c : ProblemContext) : bool :=
  Py.any_in ["angry"; "frustrated"; "complaint"] (text c).

(** When the specification says a task of kind [k] is emitted. *)
Definition fires (c : ProblemContext) (k : TaskType) : bool :=
  match k with
  | ROUTE_OPTIMIZATION => routing_signal c
  | CUSTOMER_COMMUNICATION => communication_signal c
  | SENTIMENT_ANALYSIS => sentiment_signal c
  | STRATEGIC_PLANNING =>
      (1 <? Py.sum_bool [routing_signal c; communication_signal c;
                         sentiment_signal c])%nat
      || (urgency_of c =? "high") || (urgency_of c =? "complex")
  | EMERGENCY_RESPONSE =>
      (urgency_of c =? "high") || Py.contains "emergency" (text c)
  end.

(** The rules in their insertion order, each with its priority. *)
Definition rules : list (TaskType * string) :=
  [ (ROUTE_OPTIMIZATION, "high");
    (CUSTOMER_COMMUNICATION, "high");
    (SENTIMENT_ANALYSIS, "medium");
    (STRATEGIC_PLANNING, "high");
    (EMERGENCY_RESPONSE, "critical") ].

(** What the router emitted, as (kind, priority) pairs in order. *)
Definition emitted (c : ProblemContext) : list (TaskType * string) :=
  map (fun t => (task t, priority t)) (recommended_tasks c).

(** The end-to-end scenario of the demo driver. *)
Definition scenario : ProblemContext := {|
  description := Some "Heavy traffic jam on Highway 101 affecting 25 food deliveries, multiple angry customers calling, restaurant coordination needed urgently";
  urgency := Some "high"
|}.

End RouterSpec.

(** ** The urgency classifiers *)

Module UrgencySpec.

Import Agents.

(** The "urgent" signals of an agent that are keyword tests on the
    description. *)
Definition urgent_keywords (a : Agent) : list string :=
  match a with
  | GrabFoodAgent => ["food poisoning"; "temperature"; "contamination"; "expired"]
  | GrabExpressAgent => ["emergency"; "time-sensitive"]
  | CustomerServiceAgent => []
  end.

(** How many of them the description contains. *)
Definition keyword_hits (a : Agent) (task : Task) : nat :=
  Py.sum_bool (map (fun k => in_disruption k task) (urgent_keywords a)).

Definition urgent_signals (a : Agent) (task : Task) : nat :=
  Py.sum_bool (urgent_factors a task).

Definition complex_signals (a : Agent) (task : Task) : nat :=
  Py.sum_bool (complex_factors a task).

(** The three-tier threshold rule on the signal counts. *)
Definition threshold_rule (a : Agent) (task : Task) : Prop :=
  (2 <= urgent_signals a task -> _determine_urgency a task = "urgent")
  /\ (urgent_signals a task <= 1 ->
      _determine_urgency a task <> "urgent"
      /\ _determine_urgency a task
         = if (2 <=? complex_signals a task)%nat then "complex" else "medium")
  /\ keyword_hits a task <= urgent_signals a task.

(** Twenty-five late orders flagged high, no urgent keyword in the
    description. *)
Definition late_orders : Task := {|
  task_id := Some "task";
  disruption := Some "Rider stuck in traffic, orders are late";
  service_type := Some "grabfood";
  urgency := Some "high";
  severity := None;
  affected_orders := Some 25%Z;
  package_value := None;
  package_type := None;
  fragile := None;
  customer_issue := None;
  sentiment := None
|}.

(** A spoiled delivery: two urgent keywords in the description. *)
Definition spoiled_food : Task := {|
  task_id := Some "task";
  disruption := Some "Food poisoning complaint, cold chain temperature breach";
  service_type := Some "grabfood";
  urgency := None;
  severity := None;
  affected_orders := Some 1%Z;
  package_value := None;
  package_type := None;
  fragile := None;
  customer_issue := None;
  sentiment := None
|}.

(** A fragile, valuable parcel sent to the wrong address. *)
Definition fragile_parcel : Task := {|
  task_id := Some "task";
  disruption := Some "Package delivered to wrong address";
  service_type := Some "grabexpress";
  urgency := None;
  severity := None;
  affected_orders := None;
  package_value := Some 20000%Z;
  package_type := Some "electronics";
  fragile := Some true;
  customer_issue := None;
  sentiment := None
|}.

End UrgencySpec.

(** ** The aggregated confidence *)

Module ConfidenceSpec.

Import MultiModel.

(** A left-to-right sum, as a loop with [+=] from 0 computes it. *)
Definition fsum (xs : list float) : float := fold_left PrimFloat.add xs 0%float.

Definition weight_of (r : TaskResult) : float := priority_weights (priority r).

Definition total_weight (results : list TaskResult) : float :=
  fsum (map weight_of results).

(** The mean of the confidences weighted by tier (0.0 should the total
    weight not be positive). *)
Definition weighted_mean (results : list TaskResult) : float :=
  if PrimFloat.ltb 0 (total_weight results)
  then (fsum (map (fun r => confidence r * weight_of r) results)
        / total_weight results)%float
  else 0.0%float.

(** min(0.15, 0.03 x number of distinct backends) *)
Definition diversity_bonus (results : list TaskResult) : float :=
  Py.min 0.15 (Py.float_of_nat (Py.distinct (map model results)) * 0.03)%float.

Definition result (tier : string) (c : float) (backend : string) : TaskResult := {|
  task := "task"; model := backend; priority := tier;
  response := "text"; confidence := c; specialized := true
|}.

(** Three results, one per tier, on two distinct backends. *)
Definition three_results : list TaskResult :=
  [ result "critical" 0.9 "qwen/qwen3-1.7b";
    result "high" 0.8 "deepseek/deepseek-r1-0528-qwen3-8b";
    result "medium" 0.7 "qwen/qwen3-1.7b" ].

(** A backend that always answers with the same short plan. *)
Definition short_plan : LLM.Gateway :=
  fun _ => LLM.Completion (Some "Reroute the riders.").

End ConfidenceSpec.

(** ** The workflow *)

Module WorkflowSpec.

Import Workflow.

(** The confidence that a reply of the backend yields for an agent
    type: the text score of a completion, 0.2 for a fallback. *)
Definition reply_confidence (agent_type : string) (reply : LLM.Reply) : float :=
  match reply with
  | LLM.Completion (Some content) => LLM._calculate_confidence content agent_type
  | _ => 0.2%float
  end.

(** The retry band of the validation guard. *)
Definition in_retry_band (config : Settings.Config) (c : float) : Prop :=
  PrimFloat.leb (Settings.HUMAN_ESCALATION_THRESHOLD config) c = true
  /\ PrimFloat.ltb c (Settings.CONFIDENCE_THRESHOLD config) = true.

(** The state can run its specialist: the agent is registered and the
    two mandatory keys of the disruption are present. *)
Definition ready (a : Agents.Agent) (d st : string) (s : LogisticsState) : Prop :=
  agents (current_agent s) = Some a
  /\ description (disruption s) = Some d
  /\ service_type (disruption s) = Some st.

Definition is_specialist (agent_type : string) : bool :=
  match agents agent_type with
  | Some _ => true
  | None => false
  end.

(** The number of gateway calls made by specialists. *)
Definition specialist_calls (lm : LLM.LMStudioManager) : nat :=
  List.length (filter (fun r => is_specialist (LLM.req_agent_type r))
                      (LLM.gateway_calls lm)).

(** The caller gets a solution or an escalation context. *)
Definition well_formed (r : Result) : Prop :=
  solution (result_final_solution r) <> None
  \/ escalation_context (result_final_solution r) <> None.

(** What must hold on entering a node for the run to end with a
    solution on record: the nodes after validation find one. *)
Definition solution_on_entry (n : NodeName) (s : LogisticsState) : Prop :=
  match n with
  | N_customer_communication | N_escalate_to_human | N_finalize_solution =>
      solution (final_solution s) <> None
  | _ => True
  end.

End WorkflowSpec.

Module Scenarios.

Import Workflow.

(** The first sample disruption of the demo driver. *)
Definition traffic_jam : Disruption := {|
  id := Some "MM_DISR_001";
  description := Some "Heavy traffic jam on Highway 101 affecting 25 food deliveries, multiple angry customers calling, restaurant coordination needed urgently";
  service_type := Some "grabfood";
  urgency := Some "high";
  severity := Some "high";
  affected_orders := Some 25%Z;
  package_value := None;
  package_type := None;
  fragile := None;
  customer_sentiment := None;
  task_id := None;
  disruption_key := None;
  customer_issue := None;
  sentiment := None;
  analysis := None;
  specialist_briefing := None
|}.

(** A report that lacks the mandatory description. *)
Definition no_description : Disruption := {|
  id := Some "MM_DISR_404";
  description := None;
  service_type := Some "grabfood";
  urgency := None;
  severity := None;
  affected_orders := None;
  package_value := None;
  package_type := None;
  fragile := None;
  customer_sentiment := None;
  task_id := None;
  disruption_key := None;
  customer_issue := None;
  sentiment := None;
  analysis := None;
  specialist_briefing := None
|}.

(** A backend that is down. *)
Definition offline : LLM.Gateway := fun _ => LLM.Failure "Connection error.".

(** A backend whose every answer is the empty text (score 0.7). *)
Definition terse : LLM.Gateway := fun _ => LLM.Completion (Some "").

(** Two texts outside ASCII, by the bytes of their UTF-8 encoding:
    thirty times the letter U+00E9, and the word "package" spelt with
    the Kelvin sign U+212A in the place of its k. *)
Fixpoint times (n : nat) (s : string) : string :=
  match n with
  | O => EmptyString
  | S n' => s ++ times n' s
  end.

Definition thirty_e_acute : string :=
  times 30 (String "195" (String "169" EmptyString)).

Definition kelvin_package : string :=
  "pac" ++ String "226" (String "132" (String "170" EmptyString)) ++ "age".

End Scenarios.

(* ================================================================== *)
(** ** The workflow: what a run leaves behind *)
(* ================================================================== *)

Module RunSpec.

Import Workflow.

(** The client after one more call for [agent_type] at [urgency]. *)
Definition called (agent_type urgency : string) (lm : LLM.LMStudioManager)
  : LLM.LMStudioManager := {|
  LLM.current_active_model := LLM.current_active_model lm;
  LLM.gateway_calls := LLM.gateway_calls lm ++ [request_of agent_type urgency lm]
|}.

(** The number of requests issued so far. *)
Definition calls (lm : LLM.LMStudioManager) : nat :=
  List.length (LLM.gateway_calls lm).

(** What a node that returns has done to the state and to the client. *)
Definition node_effect (gateway : LLM.Gateway) (n : NodeName)
           (s : LogisticsState) (lm : LLM.LMStudioManager)
           (s' : LogisticsState) (lm' : LLM.LMStudioManager) : Prop :=
  match n with
  | N_disruption_analysis =>
      exists resp,
        resp = fst (LLM.generate_response gateway ModelCapability.REASONING lm)
        /\ s' = set_disruption (set_analysis resp (disruption s))
                  (log_history {| step := "disruption_analysis"; output := resp |} s)
        /\ lm' = called "orchestrator" "medium" lm
  | N_route_to_specialist =>
      exists a resp,
        analysis (disruption s) = Some a
        /\ s' = set_disruption (set_specialist_briefing resp (disruption s))
                  (set_current_agent
                     (choose_specialist (LLM.content a)
                        (Py.get_or (service_type (disruption s)) "")) s)
        /\ lm' = called "orchestrator" "medium" lm
  | N_execute_specialist_task =>
      exists agent d st msg,
        WorkflowSpec.ready agent d st s
        /\ s' = record_response
                  {| agent := current_agent s; response := to_dict msg |}
                  (Agents.confidence msg) s
        /\ Agents.confidence msg
           = WorkflowSpec.reply_confidence (Agents.gateway_name agent)
               (gateway (calls lm))
        /\ lm' = called (Agents.gateway_name agent)
                   (Agents._determine_urgency agent
                      (specialist_task (disruption s) d st)) lm
  | N_validate_solution =>
      (agent_responses s = []
       /\ s' = set_final_solution
                 {| solution := Some (Text "No solution generated");
                    validation := Some {| v_content := "No validation possible";
                                          v_confidence := 0.1 |};
                    fs_confidence := Some 0.1%float;
                    customer_communication := None;
                    escalation_context := None |} s
       /\ lm' = lm)
      \/ (exists earlier latest v,
            agent_responses s = earlier ++ [latest]
            /\ description (disruption s) <> None
            /\ s' = set_final_solution
                      {| solution := Some (extract_solution (content (response latest)));
                         validation := Some v;
                         fs_confidence := Some (confidence (response latest));
                         customer_communication := None;
                         escalation_context := None |} s
            /\ lm' = called "orchestrator" "medium" lm)
  | N_customer_communication =>
      exists d st msg,
        description (disruption s) = Some d
        /\ service_type (disruption s) = Some st
        /\ solution (final_solution s) <> None
        /\ s' = set_final_solution
                  (set_customer_communication (to_dict msg) (final_solution s)) s
        /\ lm' = called "customer_service"
                   (Agents._determine_urgency Agents.CustomerServiceAgent
                      (communication_task (disruption s) d st)) lm
  | N_escalate_to_human =>
      s' = set_final_solution
             (set_escalation_context
                {| ec_disruption := disruption s;
                   attempted_solutions := agent_responses s;
                   confidence_scores :=
                     map (fun resp => confidence (response resp)) (agent_responses s);
                   escalation_reason := "Low confidence score or complex scenario";
                   recommended_actions :=
                     Py.get_or (solution (final_solution s)) (Text "None generated") |}
                (final_solution s))
             (set_escalation_needed true s)
      /\ lm' = lm
  | N_finalize_solution => s' = s /\ lm' = lm
  end.

(** Why a node raised: the absent key, at the node that subscripts it. *)
Definition node_fault (n : NodeName) (s : LogisticsState) (e : Exn) : Prop :=
  match n with
  | N_route_to_specialist =>
      analysis (disruption s) = None /\ e = KeyError "analysis"
  | N_execute_specialist_task =>
      (agents (current_agent s) = None /\ e = KeyError (current_agent s))
      \/ (agents (current_agent s) <> None
          /\ description (disruption s) = None /\ e = KeyError "description")
      \/ (agents (current_agent s) <> None
          /\ description (disruption s) <> None
          /\ service_type (disruption s) = None /\ e = KeyError "service_type")
  | N_validate_solution =>
      agent_responses s <> []
      /\ description (disruption s) = None /\ e = KeyError "description"
  | N_customer_communication =>
      (description (disruption s) = None /\ e = KeyError "description")
      \/ (description (disruption s) <> None
          /\ solution (final_solution s) = None /\ e = KeyError "solution")
      \/ (description (disruption s) <> None
          /\ solution (final_solution s) <> None
          /\ service_type (disruption s) = None /\ e = KeyError "service_type")
  | _ => False
  end.

(** On entering a node the keys that it or a later node subscripts are
    present. *)
Definition keys_present (n : NodeName) (s : LogisticsState)
           (lm : LLM.LMStudioManager) : Prop :=
  description (disruption s) <> None
  /\ service_type (disruption s) <> None
  /\ match n with
     | N_disruption_analysis => True
     | N_route_to_specialist => analysis (disruption s) <> None
     | _ => analysis (disruption s) <> None
            /\ agents (current_agent s) <> None
     end
  /\ WorkflowSpec.solution_on_entry n s.

(** The report as the first two nodes leave it: the analysis, the
    first answer of the run, and the briefing, the second, attached. *)
Definition annexed (gateway : LLM.Gateway) (report : Disruption)
           (lm : LLM.LMStudioManager) : Disruption :=
  let analysis := LLM.generate_response gateway ModelCapability.REASONING lm in
  let briefing :=
    LLM.generate_response gateway ModelCapability.REASONING (snd analysis) in
  set_specialist_briefing (fst briefing) (set_analysis (fst analysis) report).

(** On entering a node that follows routing the report is [d]. *)
Definition report_is (d : Disruption) (n : NodeName) (s : LogisticsState)
           (lm : LLM.LMStudioManager) : Prop :=
  match n with
  | N_disruption_analysis | N_route_to_specialist => False
  | _ => disruption s = d
  end.

End RunSpec.

(* ================================================================== *)
(** ** The workflow: the state a completed run returns *)
(* ================================================================== *)

Module OutcomeSpec.

Import Workflow.

(** The two ways a run can end normally. *)
Definition escalated (config : Settings.Config) (s : LogisticsState) : Prop :=
  escalation_needed s = true
  /\ PrimFloat.ltb (confidence_score s)
                   (Settings.HUMAN_ESCALATION_THRESHOLD config) = true
  /\ escalation_context (final_solution s) <> None
  /\ customer_communication (final_solution s) = None.

Definition communicated (config : Settings.Config) (s : LogisticsState) : Prop :=
  escalation_needed s = false
  /\ PrimFloat.ltb (confidence_score s)
                   (Settings.HUMAN_ESCALATION_THRESHOLD config) = false
  /\ PrimFloat.ltb (confidence_score s)
                   (Settings.CONFIDENCE_THRESHOLD config) = false
  /\ escalation_context (final_solution s) = None
  /\ customer_communication (final_solution s) <> None.

(** What holds of the flag, the score and the two attachments on
    entering a node. *)
Definition outcome_pending (config : Settings.Config) (n : NodeName)
           (s : LogisticsState) (lm : LLM.LMStudioManager) : Prop :=
  escalation_needed s = false
  /\ match n with
     | N_escalate_to_human =>
         PrimFloat.ltb (confidence_score s)
                       (Settings.HUMAN_ESCALATION_THRESHOLD config) = true
         /\ customer_communication (final_solution s) = None
     | N_customer_communication =>
         PrimFloat.ltb (confidence_score s)
                       (Settings.HUMAN_ESCALATION_THRESHOLD config) = false
         /\ PrimFloat.ltb (confidence_score s)
                          (Settings.CONFIDENCE_THRESHOLD config) = false
         /\ escalation_context (final_solution s) = None
     | N_finalize_solution => communicated config s
     | _ => True
     end.

(** The specialist is the one that routing picks from the analysis
    annex and the service type. *)
Definition routed (s : LogisticsState) : Prop :=
  exists a,
    analysis (disruption s) = Some a
    /\ current_agent s
       = choose_specialist (LLM.content a)
           (Py.get_or (service_type (disruption s)) "").

(** The latest attempt is the one the score comes from. *)
Definition latest_scored (s : LogisticsState) : Prop :=
  exists earlier latest,
    agent_responses s = earlier ++ [latest]
    /\ confidence (response latest) = confidence_score s.

(** ... and the one the solution on record is taken from. *)
Definition latest_validated (s : LogisticsState) : Prop :=
  exists earlier latest,
    agent_responses s = earlier ++ [latest]
    /\ confidence (response latest) = confidence_score s
    /\ fs_confidence (final_solution s) = Some (confidence_score s)
    /\ solution (final_solution s)
       = Some (extract_solution (content (response latest))).

Definition by_current_agent (s : LogisticsState) : Prop :=
  Forall (fun r => agent r = current_agent s) (agent_responses s).

(** The escalation context, when there is one, lists every attempt. *)
Definition context_lists_attempts (s : LogisticsState) : Prop :=
  forall ec,
    escalation_context (final_solution s) = Some ec ->
    attempted_solutions ec = agent_responses s
    /\ confidence_scores ec
       = map (fun r => confidence (response r)) (agent_responses s)
    /\ recommended_actions ec
       = Py.get_or (solution (final_solution s)) (Text "None generated").

Definition attempts_pending (n : NodeName) (s : LogisticsState)
           (lm : LLM.LMStudioManager) : Prop :=
  escalation_context (final_solution s) = None
  /\ match n with
     | N_disruption_analysis | N_route_to_specialist => agent_responses s = []
     | N_execute_specialist_task => routed s /\ by_current_agent s
     | N_validate_solution => routed s /\ by_current_agent s /\ latest_scored s
     | _ => routed s /\ by_current_agent s /\ latest_validated s
     end.

Definition attempts_on_record (s : LogisticsState) (lm : LLM.LMStudioManager)
  : Prop :=
  routed s /\ by_current_agent s /\ latest_validated s
  /\ context_lists_attempts s.

(** The requests issued since the client state [lm0], by node. *)
Definition calls_pending (lm0 : LLM.LMStudioManager) (n : NodeName)
           (s : LogisticsState) (lm : LLM.LMStudioManager) : Prop :=
  let attempts := List.length (agent_responses s) in
  escalation_needed s = false
  /\ match n with
     | N_disruption_analysis =>
         attempts = 0 /\ RunSpec.calls lm = RunSpec.calls lm0
     | N_route_to_specialist =>
         attempts = 0 /\ RunSpec.calls lm = RunSpec.calls lm0 + 1
     | N_execute_specialist_task =>
         RunSpec.calls lm = RunSpec.calls lm0 + 2 + 2 * attempts
     | N_validate_solution =>
         0 < attempts /\ RunSpec.calls lm = RunSpec.calls lm0 + 1 + 2 * attempts
     | N_customer_communication | N_escalate_to_human =>
         0 < attempts /\ RunSpec.calls lm = RunSpec.calls lm0 + 2 + 2 * attempts
     | N_finalize_solution =>
         0 < attempts /\ RunSpec.calls lm = RunSpec.calls lm0 + 3 + 2 * attempts
     end.

Definition calls_on_record (lm0 : LLM.LMStudioManager)
           (s : LogisticsState) (lm : LLM.LMStudioManager) : Prop :=
  let attempts := List.length (agent_responses s) in
  0 < attempts
  /\ RunSpec.calls lm
     = RunSpec.calls lm0 + 2 + 2 * attempts
       + (if escalation_needed s then 0 else 1).

(** The conversation log once the analysis has run. *)
Definition analysis_logged (s : LogisticsState) : Prop :=
  exists resp,
    conversation_history s
    = [{| step := "disruption_analysis"; output := resp |}]
    /\ analysis (disruption s) = Some resp.

Definition log_pending (n : NodeName) (s : LogisticsState)
           (lm : LLM.LMStudioManager) : Prop :=
  match n with
  | N_disruption_analysis => conversation_history s = []
  | _ => analysis_logged s
  end.

(** The state of a result that is a final state. *)
Definition final_state (r : Result) (otherwise : LogisticsState)
  : LogisticsState :=
  match r with
  | FinalState s => s
  | ErrorResult _ => otherwise
  end.

End OutcomeSpec.

Module Runs.

(** A backend that always answers with the same useful sentence. *)
Definition helpful : LLM.Gateway :=
  fun _ => LLM.Completion
             (Some "We will coordinate the delivery with the restaurant and manage it.").

(** The completed run with the backend down, and with the helpful one. *)
Definition escalated_run : Workflow.Result :=
  fst (Workflow.process_disruption Settings.config Scenarios.offline
         Scenarios.traffic_jam LLM.init).

Definition communicated_run : Workflow.Result :=
  fst (Workflow.process_disruption Settings.config helpful
         Scenarios.traffic_jam LLM.init).

Definition state_of (r : Workflow.Result) : Workflow.LogisticsState :=
  OutcomeSpec.final_state r (Workflow.initial_state Scenarios.traffic_jam).

End Runs.

(* ================================================================== *)
(** ** The workflow: from the specialist's text to the outcome *)
(* ================================================================== *)

Module DecisionSpec.

Import Workflow.

(** The features of an answer that the text score looks at. *)
Definition long (content : string) : bool :=
  (100 <? Py.len content)%nat.

Definition short (content : string) : bool :=
  (Py.len content <? 50)%nat.

Definition on_topic (content agent_type : string) : bool :=
  Py.any_in (LLM.quality_indicators agent_type) (Py.lower content).

Definition hedged (content : string) : bool :=
  Py.any_in LLM.uncertainty_words (Py.lower content).

(** The branch that the default thresholds select for an answer. *)
Definition text_decision (content agent_type : string) : Decision :=
  if hedged content
  then if on_topic content agent_type
       then if long content then communicate else retry
       else if short content then escalate else retry
  else if on_topic content agent_type || negb (short content)
       then communicate else retry.

(** The specialist that the first answer of the backend selects. *)
Definition first_specialist (gateway : LLM.Gateway) (report : Disruption)
           (lm : LLM.LMStudioManager) : string :=
  choose_specialist
    (LLM.content (fst (LLM.generate_response gateway
                         ModelCapability.REASONING lm)))
    (Py.get_or (service_type report) "").

(** The score of that specialist's first attempt: the third request
    of the run. *)
Definition first_score (gateway : LLM.Gateway) (report : Disruption)
           (lm : LLM.LMStudioManager) : float :=
  WorkflowSpec.reply_confidence (first_specialist gateway report lm)
    (gateway (RunSpec.calls lm + 2)).

(** The score on which the validation of round [k] (from 0) decides:
    that of the specialist's answer in that round, the request after
    the two of analysis and routing and the two of every earlier
    round. *)
Definition validated_score (gateway : LLM.Gateway) (report : Disruption)
           (lm : LLM.LMStudioManager) (k : nat) : float :=
  WorkflowSpec.reply_confidence (first_specialist gateway report lm)
    (gateway (RunSpec.calls lm + 2 + 2 * k)).

(** A score outside the retry band. *)
Definition settles (config : Settings.Config) (c : float) : Prop :=
  PrimFloat.ltb c (Settings.HUMAN_ESCALATION_THRESHOLD config) = true
  \/ PrimFloat.ltb c (Settings.CONFIDENCE_THRESHOLD config) = false.

(** The report with its two annexes, and the specialist in charge. *)
Definition report_on_record (gateway : LLM.Gateway) (report : Disruption)
           (lm0 : LLM.LMStudioManager) (s : LogisticsState)
           (lm : LLM.LMStudioManager) : Prop :=
  let a := fst (LLM.generate_response gateway ModelCapability.REASONING lm0) in
  (exists b, disruption s = set_specialist_briefing b (set_analysis a report))
  /\ current_agent s = first_specialist gateway report lm0.

Definition report_pending (gateway : LLM.Gateway) (report : Disruption)
           (lm0 : LLM.LMStudioManager) (n : NodeName) (s : LogisticsState)
           (lm : LLM.LMStudioManager) : Prop :=
  let a := fst (LLM.generate_response gateway ModelCapability.REASONING lm0) in
  match n with
  | N_disruption_analysis => lm = lm0 /\ disruption s = report
  | N_route_to_specialist => disruption s = set_analysis a report
  | _ => report_on_record gateway report lm0 s lm
  end.

(** The specialist named by the service type, customer service when
    the type names none. *)
Definition by_service_type (st : string) : string :=
  if WorkflowSpec.is_specialist st then st else "customer_service".

End DecisionSpec.

(* ================================================================== *)
(** ** The router and the scheduler, end to end *)
(* ================================================================== *)

Module SchedulerSpec.

(** The labels of a task result: kind, backend and tier. *)
Definition labels (r : MultiModel.TaskResult) : string * string * string :=
  (MultiModel.task r, MultiModel.model r, MultiModel.priority r).

(** The labels the scheduler gives to the result of a routed task. *)
Definition labels_of (t : ModelCapability.TaskInfo) : string * string * string :=
  (ModelCapability.value (ModelCapability.task t),
   ModelCapability.model t, ModelCapability.priority t).

(** The backend in place once the loop has run over [models]. *)
Definition loaded_after (loaded : option string) (models : list string)
  : option string :=
  match models with
  | [] => loaded
  | _ => Some (last models "")
  end.

(** A confidence within the range of a text score that gets no
    quality bonus, or of a fallback: from 0.2 to the binary64 sum
    0.8 + 0.05. *)
Definition modest (c : float) : Prop :=
  PrimFloat.leb 0.2 c = true /\ PrimFloat.leb c (0.8 + 0.05) = true.

(** The requests issued between two states of the client. *)
Definition issued_between (lm lm' : LLM.LMStudioManager) (issued : list LLM.Request)
  : Prop :=
  LLM.gateway_calls lm' = LLM.gateway_calls lm ++ issued.

(** A context on which no rule of the router fires. *)
Definition quiet : ModelCapability.ProblemContext := {|
  ModelCapability.description := Some "Parcel left with the neighbour";
  ModelCapability.urgency := None
|}.

End SchedulerSpec.

(* ================================================================== *)
(** ** The specialists' own escalation flags *)
(* ================================================================== *)

Module FlagSpec.

Import Workflow.

(** The escalation flag that an agent puts in its own answer:
    ["requires_escalation"] for the food and express agents,
    ["escalation_needed"] for the customer-service agent. *)
Definition own_flag (c : Agents.Content) : bool :=
  match c with
  | Agents.Solution _ _ _ _ _ requires_escalation => requires_escalation
  | Agents.CustomerMessage _ _ _ _ _ escalation_needed => escalation_needed
  end.

(** The flag is the agent's threshold test on the answer's confidence. *)
Definition flagged (r : ResponseDict) : Prop :=
  match content r with
  | Agents.Solution _ _ _ _ _ flag => flag = PrimFloat.ltb (confidence r) 0.6
  | Agents.CustomerMessage _ _ _ _ _ flag =>
      flag = PrimFloat.ltb (confidence r) 0.7
  end.

Definition all_flagged (s : LogisticsState) : Prop :=
  Forall (fun r => flagged (response r)) (agent_responses s).

End FlagSpec.

(* ================================================================== *)
(** * Properties *)
(* ================================================================== *)

(** ** Binary64 facts: order and sign

    The comparisons and the arithmetic of [float] are specified by the
    standard library through [Prim2SF]; the facts below are read off
    that specification. A number is "not negative" when it is a zero,
    a positive number, plus infinity or a NaN. *)

Module FloatFacts.

Local Open Scope float_scope.

Lemma SFcompare_swap x y :
  SFcompare y x = option_map CompOpp (SFcompare x y).
Proof.
  destruct x as [sx|sx| |sx mx ex], y as [sy|sy| |sy my ey]; simpl;
    try destruct sx; try destruct sy; try reflexivity;
    rewrite (Z.compare_antisym ey ex);
    destruct (ey ?= ex)%Z; simpl; try reflexivity;
    change (PosDef.Pos.compare_cont Eq mx my) with (Pos.compare_cont Eq mx my);
    rewrite (Pos.compare_cont_antisym mx my Eq); reflexivity.
Qed.

Lemma leb_not_ltb (x y : float) : PrimFloat.leb x y = true -> PrimFloat.ltb y x = false.
Proof.
  rewrite leb_spec, ltb_spec. unfold SFleb, SFltb.
  rewrite (SFcompare_swap (Prim2SF x) (Prim2SF y)).
  destruct (SFcompare (Prim2SF x) (Prim2SF y)) as [[| |]|]; simpl; congruence.
Qed.

Lemma ltb_leb (x y : float) : PrimFloat.ltb x y = true -> PrimFloat.leb x y = true.
Proof.
  rewrite leb_spec, ltb_spec. unfold SFleb, SFltb.
  destruct (SFcompare (Prim2SF x) (Prim2SF y)) as [[| |]|]; simpl; congruence.
Qed.

Lemma round_aux_sign sx m e l :
  sf_has_sign sx (binary_round_aux prec emax sx m e l) = true.
Proof.
  unfold binary_round_aux.
  destruct (shr_fexp prec emax m e l) as [mrs e'].
  destruct (shr_fexp prec emax _ e' loc_Exact) as [mrs' e''].
  destruct (shr_m mrs'); simpl; auto using eqb_reflx.
  destruct (_ <=? _)%Z; simpl; auto using eqb_reflx.
Qed.

Lemma round_sign sx m e :
  sf_has_sign sx (binary_round prec emax sx m e) = true.
Proof.
  unfold binary_round. destruct (shl_align _ _ _). apply round_aux_sign.
Qed.

Lemma has_sign_not_negative x : sf_has_sign false x = true -> sf_not_negative x = true.
Proof. destruct x as [s|s| |s m e]; simpl; try destruct s; auto. Qed.

Lemma SFadd_not_negative x y :
  sf_not_negative x = true -> sf_not_negative y = true ->
  sf_not_negative (SF64add x y) = true.
Proof.
  destruct x as [sx|sx| |sx mx ex], y as [sy|sy| |sy my ey]; simpl;
    try destruct sx; try destruct sy; simpl; try congruence; intros _ _.
  apply has_sign_not_negative. apply round_sign.
Qed.

Lemma SFmul_not_negative x y :
  sf_not_negative x = true -> sf_not_negative y = true ->
  sf_not_negative (SF64mul x y) = true.
Proof.
  destruct x as [sx|sx| |sx mx ex], y as [sy|sy| |sy my ey]; simpl;
    try destruct sx; try destruct sy; simpl; try congruence; intros _ _.
  apply has_sign_not_negative. apply round_aux_sign.
Qed.

Lemma SFdiv_not_negative x y :
  sf_not_negative x = true -> SFltb (S754_zero false) y = true ->
  sf_not_negative (SF64div x y) = true.
Proof.
  unfold SF64div, SFdiv, SFltb, SFcompare.
  destruct x as [sx|sx| |sx mx ex], y as [sy|sy| |sy my ey];
    try (simpl; try destruct sx; try destruct sy; simpl; congruence).
  destruct (SFdiv_core_binary prec emax (Z.pos mx) ex (Z.pos my) ey) as [[mz ez] lz].
  simpl. destruct sx, sy; simpl; try congruence; intros _ _.
  apply has_sign_not_negative. apply round_aux_sign.
Qed.

Lemma add_not_negative x y : not_negative x -> not_negative y -> not_negative (x + y).
Proof. unfold not_negative. rewrite add_spec. apply SFadd_not_negative. Qed.
Lemma mul_not_negative x y : not_negative x -> not_negative y -> not_negative (x * y).
Proof. unfold not_negative. rewrite mul_spec. apply SFmul_not_negative. Qed.
Lemma div_not_negative x y :
  not_negative x -> PrimFloat.ltb 0 y = true -> not_negative (x / y).
Proof.
  unfold not_negative. rewrite div_spec, ltb_spec.
  change (Prim2SF 0) with (S754_zero false). apply SFdiv_not_negative.
Qed.

Lemma of_nat_not_negative n : not_negative (Py.float_of_nat n).
Proof.
  unfold not_negative, Py.float_of_nat. rewrite of_uint63_spec.
  pose proof (Uint63.to_Z_bounded (Uint63.of_Z (Z.of_nat n))) as [H _].
  destruct (Uint63.to_Z _); simpl; try reflexivity.
  - apply has_sign_not_negative, round_sign.
  - lia.
Qed.

Lemma leb_zero_not_negative x : PrimFloat.leb 0 x = true -> not_negative x.
Proof.
  unfold not_negative. rewrite leb_spec.
  change (Prim2SF 0) with (S754_zero false). unfold SFleb, SFcompare.
  destruct (Prim2SF x) as [s|s| |s m e]; simpl; try destruct s; simpl; congruence.
Qed.

Lemma not_negative_leb_zero x y :
  not_negative x -> PrimFloat.ltb x y = true -> PrimFloat.leb 0 x = true.
Proof.
  unfold not_negative. rewrite leb_spec, ltb_spec.
  change (Prim2SF 0) with (S754_zero false). unfold SFleb, SFltb, SFcompare.
  destruct (Prim2SF x) as [s|s| |s m e]; simpl; try destruct s; simpl; try congruence.
Qed.

Lemma SFleb_trans x y z : SFleb x y = true -> SFleb y z = true -> SFleb x z = true.
Proof.
  unfold SFleb, SFcompare.
  destruct x as [sx|sx| |sx mx ex], y as [sy|sy| |sy my ey], z as [sz|sz| |sz mz ez];
    try destruct sx; try destruct sy; try destruct sz; simpl; try congruence;
    change (PosDef.Pos.compare_cont Eq) with Pos.compare;
    destruct (Z.compare_spec ex ey), (Z.compare_spec ey ez), (Z.compare_spec ex ez);
    subst; simpl; try congruence; try lia;
    destruct (Pos.compare_spec mx my), (Pos.compare_spec my mz), (Pos.compare_spec mx mz);
    subst; simpl; try congruence; try lia.
Qed.
Lemma leb_trans (x y z : float) :
  PrimFloat.leb x y = true -> PrimFloat.leb y z = true -> PrimFloat.leb x z = true.
Proof. rewrite !leb_spec. apply SFleb_trans. Qed.

End FloatFacts.

(* ================================================================== *)
(** ** The specialist confidence score ([_calculate_confidence]) *)
(* ================================================================== *)

(** The twelve combinations of the three adjustments all land in the
    clamp interval. *)
Lemma spec_confidence_range (len : nat) (quality hedging : bool) :
  PrimFloat.leb 0.1 (spec_confidence len quality hedging) = true /\
  PrimFloat.leb (spec_confidence len quality hedging) 0.95 = true.
Proof.
  unfold spec_confidence.
  destruct (100 <? len)%nat, (len <? 50)%nat, quality, hedging;
    vm_compute; split; reflexivity.
Qed.

(** C5. For every generated text and every agent type the specialist
    confidence is the specified score of the text's length (its number
    of code points), of whether a quality keyword of the agent occurs
    in the lower-cased text and of whether a hedging keyword occurs in
    it; hence it lies in [0.1, 0.95]. *)
Theorem calculate_confidence_spec (content agent_type : string) :
  let c := LLM._calculate_confidence content agent_type in
  c = spec_confidence
        (Py.len content)
        (Py.any_in (LLM.quality_indicators agent_type) (Py.lower content))
        (Py.any_in ["uncertain"; "maybe"; "possibly"; "might"; "unclear"]
                   (Py.lower content))
  /\ PrimFloat.leb 0.1 c = true
  /\ PrimFloat.leb c 0.95 = true.
Proof.
  intro c.
  assert (E : c = spec_confidence
        (Py.len content)
        (Py.any_in (LLM.quality_indicators agent_type) (Py.lower content))
        (Py.any_in LLM.uncertainty_words (Py.lower content))).
  { subst c. unfold LLM._calculate_confidence, spec_confidence,
      LLM.length_step, LLM.quality_step, LLM.uncertainty_step.
    reflexivity. }
  split; [exact E|]. rewrite E. apply spec_confidence_range.
Qed.

(** A long answer of the food specialist that names the restaurant
    scores 0.95; a short hedged answer of an unknown agent scores 0.55. *)
Example calculate_confidence_examples :
  LLM._calculate_confidence
    "We will contact the restaurant now and send a second rider with insulated bags so that every order arrives hot."
    "grabfood" = 0.95%float
  /\ LLM._calculate_confidence "Maybe." "crew_traffic_crisis" = 0.55%float.
Proof. split; vm_compute; reflexivity. Qed.

(** The length is counted in code points, not in bytes, and the
    lower case of the Kelvin sign is the letter k: thirty letters
    U+00E9 (sixty bytes) are a short text, and "package" spelt with
    the Kelvin sign is a quality keyword of the express specialist. *)
Example calculate_confidence_outside_ascii :
  Py.len Scenarios.thirty_e_acute = 30
  /\ String.length Scenarios.thirty_e_acute = 60
  /\ LLM._calculate_confidence Scenarios.thirty_e_acute "grabfood"
     = (0.8 - 0.1)%float
  /\ Py.contains "package" (Py.lower Scenarios.kelvin_package) = true
  /\ LLM._calculate_confidence Scenarios.kelvin_package "grabexpress"
     = (0.8 - 0.1 + 0.1)%float.
Proof. repeat split; vm_compute; reflexivity. Qed.

(* ================================================================== *)
(** ** The transition out of [validate_solution] *)
(* ================================================================== *)

(** C1, as stated, fails at the boundaries: a score of exactly 0.6 does
    not take the lower-confidence branch (escalation) and a score of
    exactly 0.8 does not take the lower-confidence branch (retry). *)
Lemma boundary_not_lower_branch :
  Workflow._should_escalate Settings.config (scored 0.6) = Workflow.retry
  /\ Workflow._should_escalate Settings.config (scored 0.8) = Workflow.communicate
  /\ after_validation (scored 0.6) <> Some Workflow.N_escalate_to_human
  /\ after_validation (scored 0.8) <> Some Workflow.N_execute_specialist_task.
Proof. repeat split; vm_compute; discriminate. Qed.

(** C1, amended. With the default thresholds 0.6 and 0.8 and [c] the
    latest confidence score: [c < 0.6] leads to [escalate_to_human];
    [0.6 <= c < 0.8] leads back to [execute_specialist_task]; [c >= 0.8]
    leads to [customer_communication], which is always followed by
    [finalize_solution], which ends the run. 0.55 escalates, 0.75
    retries, 0.85 communicates; and the boundary values take the
    higher band: 0.6 retries and 0.8 communicates. *)
Theorem validate_transition (state : Workflow.LogisticsState) :
  let c := Workflow.confidence_score state in
  (PrimFloat.ltb c 0.6 = true ->
     after_validation state = Some Workflow.N_escalate_to_human)
  /\ (PrimFloat.leb 0.6 c = true -> PrimFloat.ltb c 0.8 = true ->
     after_validation state = Some Workflow.N_execute_specialist_task)
  /\ (PrimFloat.leb 0.8 c = true ->
     after_validation state = Some Workflow.N_customer_communication)
  /\ (forall config state',
        Workflow.successor config Workflow.N_customer_communication state'
          = Some Workflow.N_finalize_solution
        /\ Workflow.successor config Workflow.N_finalize_solution state' = None
        /\ Workflow.successor config Workflow.N_escalate_to_human state' = None)
  /\ (forall gateway,
        Workflow.node gateway Workflow.N_execute_specialist_task
          = Workflow.execute_specialist_task gateway)
  /\ after_validation (scored 0.55) = Some Workflow.N_escalate_to_human
  /\ after_validation (scored 0.75) = Some Workflow.N_execute_specialist_task
  /\ after_validation (scored 0.85) = Some Workflow.N_customer_communication
  /\ after_validation (scored 0.6) = Some Workflow.N_execute_specialist_task
  /\ after_validation (scored 0.8) = Some Workflow.N_customer_communication.
Proof.
  intro c.
  assert (below : forall t, PrimFloat.leb t c = true -> PrimFloat.ltb c t = false)
    by (intros t; apply FloatFacts.leb_not_ltb).
  assert (H68 : PrimFloat.leb 0.8 c = true -> PrimFloat.leb 0.6 c = true)
    by (apply FloatFacts.leb_trans; reflexivity).
  unfold after_validation, Workflow.successor, Workflow._should_escalate.
  fold c. cbn [Settings.config Settings.HUMAN_ESCALATION_THRESHOLD
               Settings.CONFIDENCE_THRESHOLD].
  split; [intros H; rewrite H; reflexivity|].
  split; [intros H1 H2; rewrite (below _ H1), H2; reflexivity|].
  split; [intros H; rewrite (below _ (H68 H)), (below _ H); reflexivity|].
  split; [intros config state'; repeat split|].
  split; [intros gateway; reflexivity|].
  repeat split; vm_compute; reflexivity.
Qed.

(** The three bands are inhabited: 0.55, 0.75 and 0.85. *)
Lemma validate_transition_witness :
  after_validation (scored 0.55) = Some Workflow.N_escalate_to_human
  /\ after_validation (scored 0.75) = Some Workflow.N_execute_specialist_task
  /\ after_validation (scored 0.85) = Some Workflow.N_customer_communication.
Proof.
  split; [|split].
  - apply (proj1 (validate_transition (scored 0.55))). reflexivity.
  - apply (proj1 (proj2 (validate_transition (scored 0.75)))); reflexivity.
  - apply (proj1 (proj2 (proj2 (validate_transition (scored 0.85))))); reflexivity.
Defined.

(* ================================================================== *)
(** ** The gateway client: one request per call, on the active model *)
(* ================================================================== *)

Section GatewayCalls.

Variable gateway : LLM.Gateway.

Lemma generate_state (agent_type urgency : string) (lm : LLM.LMStudioManager) :
  snd (LLM.generate_response_for_agent gateway agent_type urgency lm)
  = {| LLM.current_active_model := LLM.current_active_model lm;
       LLM.gateway_calls :=
         LLM.gateway_calls lm ++ [request_of agent_type urgency lm] |}.
Proof. reflexivity. Qed.

Lemma generate_response_value (agent_type urgency : string) (lm : LLM.LMStudioManager) :
  fst (LLM.generate_response_for_agent gateway agent_type urgency lm)
  = LLM.on_reply lm agent_type urgency
      (LLM.get_optimal_model_for_agent agent_type urgency)
      (gateway (List.length (LLM.gateway_calls lm))).
Proof. reflexivity. Qed.

Lemma extends_refl active lm : extends active 0 lm lm.
Proof.
  split; [reflexivity|]. exists []. rewrite app_nil_r. repeat split. constructor.
Qed.

Lemma extends_trans active n m lm1 lm2 lm3 :
  extends active n lm1 lm2 -> extends active m lm2 lm3 ->
  extends active (n + m) lm1 lm3.
Proof.
  intros (A1 & i1 & C1 & L1 & F1) (A2 & i2 & C2 & L2 & F2).
  split; [congruence|]. exists (i1 ++ i2).
  rewrite C2, C1, <- app_assoc, length_app, L1, L2.
  repeat split. apply Forall_app; auto.
Qed.

Lemma generate_extends (agent_type urgency : string) (lm : LLM.LMStudioManager) :
  extends (LLM.current_active_model lm) 1 lm
    (snd (LLM.generate_response_for_agent gateway agent_type urgency lm)).
Proof.
  rewrite generate_state. split; [reflexivity|].
  exists [request_of agent_type urgency lm]. repeat split.
  constructor; [reflexivity|constructor].
Qed.

End GatewayCalls.

(* ================================================================== *)
(** ** The scheduler *)
(* ================================================================== *)

Section Scheduler.

Variable gateway : LLM.Gateway.
Variable problem_context : ModelCapability.ProblemContext.

Lemma switched_fields new_model self :
  MultiModel.lm_manager (switched new_model self) = MultiModel.lm_manager self
  /\ MultiModel.current_loaded_model (switched new_model self) = Some new_model
  /\ MultiModel.model_switch_count (switched new_model self)
     = MultiModel.model_switch_count self
       + (if MultiModel.differs new_model (MultiModel.current_loaded_model self)
          then 1 else 0).
Proof.
  unfold switched, MultiModel._switch_model.
  destruct (MultiModel.differs new_model (MultiModel.current_loaded_model self)) eqn:D;
    simpl; repeat split; try lia.
  unfold MultiModel.differs in D.
  destruct (MultiModel.current_loaded_model self) as [m|]; [|discriminate].
  apply negb_false_iff, String.eqb_eq in D. congruence.
Qed.

(** Running one task touches the orchestrator only through its client. *)
Lemma execute_specialized_frame task_name model_name priority self :
  snd (MultiModel._execute_specialized_task gateway task_name model_name
         priority problem_context self)
  = MultiModel.set_lm_manager
      (snd (LLM.generate_response_for_agent gateway ("specialist_" ++ task_name)
              (Py.get_or (ModelCapability.urgency problem_context) "medium")
              (MultiModel.lm_manager self)))
      self.
Proof. reflexivity. Qed.

(** The loop, one iteration unrolled. *)
Lemma execute_tasks_cons task_info rest self :
  MultiModel.execute_tasks gateway problem_context (task_info :: rest) self
  = let self1 := switched (ModelCapability.model task_info) self in
    let step := MultiModel._execute_specialized_task gateway
                  (ModelCapability.value (ModelCapability.task task_info))
                  (ModelCapability.model task_info)
                  (ModelCapability.priority task_info) problem_context self1 in
    let tail := MultiModel.execute_tasks gateway problem_context rest (snd step) in
    (fst step :: fst tail, snd tail).
Proof.
  cbn [MultiModel.execute_tasks]. unfold St.bind, St.get, St.ret, switched.
  unfold MultiModel._switch_model at 1.
  destruct (MultiModel.differs _ _) eqn:D.
  - unfold MultiModel._switch_model. rewrite D.
    destruct (MultiModel._execute_specialized_task _ _ _ _ _ _) as [r s1].
    destruct (MultiModel.execute_tasks _ _ _ _) as [rs s2]. reflexivity.
  - unfold MultiModel._switch_model. rewrite D.
    destruct (MultiModel._execute_specialized_task _ _ _ _ _ _) as [r s1].
    destruct (MultiModel.execute_tasks _ _ _ _) as [rs s2]. reflexivity.
Qed.

Lemma execute_tasks_count tasks : forall self,
  let self' := snd (MultiModel.execute_tasks gateway problem_context tasks self) in
  MultiModel.model_switch_count self'
  = MultiModel.model_switch_count self
    + switches (MultiModel.current_loaded_model self)
               (map ModelCapability.model tasks).
Proof.
  induction tasks as [|t rest IH]; intros self; cbn zeta.
  - simpl. lia.
  - rewrite execute_tasks_cons. cbn zeta. cbn [snd].
    rewrite IH. rewrite execute_specialized_frame.
    destruct (switched_fields (ModelCapability.model t) self) as (_ & L & C).
    cbn [MultiModel.set_lm_manager MultiModel.model_switch_count
         MultiModel.current_loaded_model map switches].
    rewrite L, C. lia.
Qed.

Lemma execute_tasks_length tasks : forall self,
  List.length (fst (MultiModel.execute_tasks gateway problem_context tasks self))
  = List.length tasks.
Proof.
  induction tasks as [|t rest IH]; intros self.
  - reflexivity.
  - rewrite execute_tasks_cons. cbn zeta. cbn [fst List.length]. now rewrite IH.
Qed.

Lemma execute_tasks_extends tasks : forall self,
  extends (LLM.current_active_model (MultiModel.lm_manager self))
    (List.length tasks)
    (MultiModel.lm_manager self)
    (MultiModel.lm_manager
       (snd (MultiModel.execute_tasks gateway problem_context tasks self))).
Proof.
  induction tasks as [|t rest IH]; intros self.
  - apply extends_refl.
  - rewrite execute_tasks_cons. cbn zeta. cbn [snd].
    destruct (switched_fields (ModelCapability.model t) self) as (LM & _ & _).
    set (self1 := switched (ModelCapability.model t) self) in *.
    set (step := MultiModel._execute_specialized_task _ _ _ _ _ self1).
    change (List.length (t :: rest)) with (1 + List.length rest).
    apply extends_trans with (lm2 := MultiModel.lm_manager (snd step)).
    + rewrite <- LM. unfold step. rewrite execute_specialized_frame.
      cbn [MultiModel.set_lm_manager MultiModel.lm_manager].
      apply generate_extends.
    + specialize (IH (snd step)).
      replace (LLM.current_active_model (MultiModel.lm_manager (snd step)))
        with (LLM.current_active_model (MultiModel.lm_manager self)) in IH.
      * exact IH.
      * unfold step. rewrite execute_specialized_frame.
        cbn [MultiModel.set_lm_manager MultiModel.lm_manager].
        rewrite generate_state. cbn. now rewrite LM.
Qed.

End Scheduler.

Lemma switches_adjacent (m : string) (rest : list string) :
  switches (Some m) rest = adjacent_changes (m :: rest).
Proof.
  revert m. induction rest as [|b rest IH]; intros m.
  - reflexivity.
  - cbn [switches adjacent_changes]. rewrite IH.
    unfold MultiModel.differs. rewrite (String.eqb_sym b m).
    destruct (m =? b); reflexivity.
Qed.

(** Synthesis adds one call and leaves the switch bookkeeping alone. *)
Lemma synthesize_frame gateway task_results self :
  snd (MultiModel._synthesize_multi_model_results gateway task_results self)
  = MultiModel.set_lm_manager
      (snd (LLM.generate_response_for_agent gateway "master_synthesizer" "complex"
              (MultiModel.lm_manager self)))
      self.
Proof. reflexivity. Qed.

(** The run of [execute_and_synthesize], taken apart. *)
Lemma execute_and_synthesize_unfold gateway problem_context task_analysis self :
  let loop := MultiModel.execute_tasks gateway problem_context
                (ModelCapability.ta_recommended_tasks task_analysis) self in
  let synth := MultiModel._synthesize_multi_model_results gateway (fst loop)
                 (snd loop) in
  MultiModel.execute_and_synthesize gateway problem_context task_analysis self
  = ({| MultiModel.problem_analysis := task_analysis;
        MultiModel.task_results := fst loop;
        MultiModel.final_solution := fst synth;
        MultiModel.models_used := ModelCapability.models_needed task_analysis;
        MultiModel.model_switches := MultiModel.model_switch_count (snd synth);
        MultiModel.overall_confidence :=
          MultiModel._calculate_multi_model_confidence (fst loop) |},
     snd synth).
Proof.
  cbn zeta. unfold MultiModel.execute_and_synthesize, St.bind, St.get, St.ret.
  destruct (MultiModel.execute_tasks _ _ _ _) as [rs s1]. cbn [fst snd].
  destruct (MultiModel._synthesize_multi_model_results _ _ _) as [f s2].
  reflexivity.
Qed.

(** C2, as stated, fails: on the task list [A, A, B, A] the switch count
    is 3 while only 2 adjacent pairs differ (the load of the first
    backend into the empty slot is counted as a switch). *)
Lemma switch_count_exceeds_adjacent_changes :
  let problem_context :=
    {| ModelCapability.description := None; ModelCapability.urgency := None |} in
  let count := switch_count_after (fun _ => LLM.Completion (Some "ok"))
                 problem_context AABA LLM.init in
  count = 3
  /\ adjacent_changes (map ModelCapability.model AABA) = 2
  /\ count <> adjacent_changes (map ModelCapability.model AABA).
Proof. vm_compute. repeat split. discriminate. Qed.

(** C2, amended. From a fresh orchestrator (no backend loaded, count 0)
    each task switches, and adds one to the count, exactly when its
    backend differs from the loaded one, and leaves its backend loaded.
    Hence after one execution the count is 0 for no task and otherwise
    one (the first load) plus the number of adjacent pairs whose
    backends differ; [A, A, B, A] gives 3; two consecutive tasks on one
    backend cost no switch; and the count is what the analysis reports
    as [model_switches]. *)
Theorem switch_count_after_execution
        (gateway : LLM.Gateway)
        (problem_context : ModelCapability.ProblemContext)
        (tasks : list ModelCapability.TaskInfo) (lm : LLM.LMStudioManager) :
  let run := fun ts self =>
    snd (MultiModel.execute_tasks gateway problem_context ts self) in
  MultiModel.current_loaded_model (MultiModel.init lm) = None
  /\ MultiModel.model_switch_count (MultiModel.init lm) = 0
  /\ (forall self t,
        MultiModel.model_switch_count (run [t] self)
        = MultiModel.model_switch_count self
          + (if MultiModel.differs (ModelCapability.model t)
                                   (MultiModel.current_loaded_model self)
             then 1 else 0)
        /\ MultiModel.current_loaded_model (run [t] self)
           = Some (ModelCapability.model t))
  /\ switch_count_after gateway problem_context tasks lm
     = match tasks with
       | [] => 0
       | _ :: _ => 1 + adjacent_changes (map ModelCapability.model tasks)
       end
  /\ switch_count_after gateway problem_context AABA lm = 3
  /\ (forall self t1 t2,
        ModelCapability.model t1 = ModelCapability.model t2 ->
        MultiModel.model_switch_count (run [t1; t2] self)
        = MultiModel.model_switch_count (run [t1] self))
  /\ (forall task_analysis,
        ModelCapability.ta_recommended_tasks task_analysis = tasks ->
        MultiModel.model_switches
          (fst (MultiModel.execute_and_synthesize gateway problem_context
                  task_analysis (MultiModel.init lm)))
        = switch_count_after gateway problem_context tasks lm).
Proof.
  intro run.
  assert (count : forall ts self,
    MultiModel.model_switch_count (run ts self)
    = MultiModel.model_switch_count self
      + switches (MultiModel.current_loaded_model self)
                 (map ModelCapability.model ts)).
  { intros ts self. apply execute_tasks_count. }
  assert (fresh : forall ts,
    switch_count_after gateway problem_context ts lm
    = match ts with
      | [] => 0
      | _ :: _ => 1 + adjacent_changes (map ModelCapability.model ts)
      end).
  { intros ts. unfold switch_count_after. fold (run ts (MultiModel.init lm)).
    rewrite count. destruct ts as [|t rest]; [reflexivity|].
    cbn [MultiModel.init MultiModel.model_switch_count
         MultiModel.current_loaded_model map switches MultiModel.differs].
    now rewrite switches_adjacent. }
  split; [reflexivity|]. split; [reflexivity|].
  split.
  { intros self t. split.
    - rewrite count. cbn [map switches]. lia.
    - unfold run. rewrite execute_tasks_cons. cbn zeta. cbn [snd].
      rewrite execute_specialized_frame.
      cbn [MultiModel.execute_tasks St.ret snd MultiModel.set_lm_manager
           MultiModel.current_loaded_model].
      apply switched_fields. }
  split; [apply fresh|].
  split; [rewrite fresh; reflexivity|].
  split.
  { intros self t1 t2 E. rewrite !count. cbn [map switches].
    unfold MultiModel.differs at 2. rewrite E, String.eqb_refl. simpl. lia. }
  intros task_analysis E.
  rewrite execute_and_synthesize_unfold. cbn zeta. cbn [fst MultiModel.model_switches].
  rewrite synthesize_frame. cbn [MultiModel.set_lm_manager MultiModel.model_switch_count].
  rewrite E. reflexivity.
Qed.

(** Two consecutive tasks on backend A cost the same as one. *)
Lemma switch_count_after_execution_witness :
  let problem_context :=
    {| ModelCapability.description := None; ModelCapability.urgency := None |} in
  let run := fun ts =>
    snd (MultiModel.execute_tasks Scenarios.offline problem_context ts
           (MultiModel.init LLM.init)) in
  MultiModel.model_switch_count (run [on_backend "A"; on_backend "A"])
  = MultiModel.model_switch_count (run [on_backend "A"]).
Proof.
  cbv zeta.
  apply (proj1 (proj2 (proj2 (proj2 (proj2 (proj2
           (switch_count_after_execution Scenarios.offline
              {| ModelCapability.description := None;
                 ModelCapability.urgency := None |} [] LLM.init))))))).
  reflexivity.
Defined.

(* ================================================================== *)
(** ** The model name that reaches the gateway *)
(* ================================================================== *)

(** C10. A backend switch leaves the gateway client, and with it
    [current_active_model], untouched; every call of
    [generate_response_for_agent] issues one request whose model is
    [current_active_model], whatever the agent type and the urgency, and
    reports the computed optimal model only in the answer; so all the
    requests of a scheduler run, whatever its task list and its
    switches, carry the same model name, which is still the active
    model afterwards. *)
Theorem gateway_model_is_constant
        (gateway : LLM.Gateway)
        (problem_context : ModelCapability.ProblemContext)
        (task_analysis : ModelCapability.TaskAnalysis)
        (self : MultiModel.MultiModelOrchestrator) :
  let active := LLM.current_active_model (MultiModel.lm_manager self) in
  (forall new_model,
     MultiModel.lm_manager (snd (MultiModel._switch_model new_model self))
     = MultiModel.lm_manager self)
  /\ (forall agent_type urgency lm,
        let call := LLM.generate_response_for_agent gateway agent_type urgency lm in
        LLM.gateway_calls (snd call)
        = LLM.gateway_calls lm ++ [request_of agent_type urgency lm]
        /\ LLM.req_model (request_of agent_type urgency lm)
           = LLM.current_active_model lm
        /\ LLM.current_active_model (snd call) = LLM.current_active_model lm
        /\ (LLM.error (fst call) = None ->
            LLM.optimal_model (fst call)
            = Some (LLM.get_optimal_model_for_agent agent_type urgency)))
  /\ (let self' := snd (MultiModel.execute_and_synthesize gateway
                          problem_context task_analysis self) in
      LLM.current_active_model (MultiModel.lm_manager self') = active
      /\ exists issued,
           LLM.gateway_calls (MultiModel.lm_manager self')
           = LLM.gateway_calls (MultiModel.lm_manager self) ++ issued
           /\ List.length issued
              = List.length (ModelCapability.ta_recommended_tasks task_analysis) + 1
           /\ Forall (fun request => LLM.req_model request = active) issued).
Proof.
  intro active. split; [|split].
  - intros new_model. apply (switched_fields new_model self).
  - intros agent_type urgency lm call. subst call.
    rewrite generate_state. cbn [LLM.gateway_calls LLM.current_active_model].
    repeat split.
    rewrite generate_response_value. unfold LLM.on_reply.
    destruct (gateway _) as [[c|]|e]; cbn; congruence.
  - cbn zeta. rewrite execute_and_synthesize_unfold. cbn zeta. cbn [snd].
    rewrite synthesize_frame. cbn [MultiModel.set_lm_manager MultiModel.lm_manager].
    pose proof (execute_tasks_extends gateway problem_context
                  (ModelCapability.ta_recommended_tasks task_analysis) self) as Loop.
    set (self1 := snd (MultiModel.execute_tasks _ _ _ self)) in *.
    pose proof (generate_extends gateway "master_synthesizer" "complex"
                  (MultiModel.lm_manager self1)) as Synth.
    replace (LLM.current_active_model (MultiModel.lm_manager self1))
      with active in Synth by (symmetry; apply Loop).
    exact (extends_trans _ _ _ _ _ _ Loop Synth).
Qed.

(** An urgent call for the food specialist: the fastest model is
    computed as optimal and reported, the request goes to the default
    model. *)
Lemma gateway_model_is_constant_witness :
  let call := LLM.generate_response_for_agent Scenarios.terse
                "grabfood" "urgent" LLM.init in
  LLM.optimal_model (fst call) = Some "qwen/qwen3-1.7b"
  /\ LLM.req_model (request_of "grabfood" "urgent" LLM.init) = "qwen/qwen3-4b".
Proof.
  cbv zeta.
  destruct (proj1 (proj2 (gateway_model_is_constant Scenarios.terse
              {| ModelCapability.description := None;
                 ModelCapability.urgency := None |}
              (ModelCapability.analyze_problem_requirements
                 {| ModelCapability.description := None;
                    ModelCapability.urgency := None |})
              (MultiModel.init LLM.init)))
             "grabfood" "urgent" LLM.init) as (_ & Model & _ & Optimal).
  split; [apply Optimal; reflexivity|exact Model].
Defined.

(* ================================================================== *)
(** ** The router ([analyze_problem_requirements]) *)
(* ================================================================== *)

(** The router's list, with the five guards named. *)
Lemma recommended_tasks_guards (c : ModelCapability.ProblemContext) :
  ModelCapability.recommended_tasks c
  = let r := RouterSpec.routing_signal c in
    let m := RouterSpec.communication_signal c in
    let s := RouterSpec.sentiment_signal c in
    let acc := ModelCapability.append_if r
                 (ModelCapability.recommend ModelCapability.ROUTE_OPTIMIZATION "high") [] in
    let acc := ModelCapability.append_if m
                 (ModelCapability.recommend ModelCapability.CUSTOMER_COMMUNICATION "high") acc in
    let acc := ModelCapability.append_if s
                 (ModelCapability.recommend ModelCapability.SENTIMENT_ANALYSIS "medium") acc in
    let acc := ModelCapability.append_if
                 ((1 <? List.length acc)%nat
                  || Py.mem (RouterSpec.urgency_of c) ["high"; "complex"])
                 (ModelCapability.recommend ModelCapability.STRATEGIC_PLANNING "high") acc in
    ModelCapability.append_if
      ((RouterSpec.urgency_of c =? "high")
       || Py.contains "emergency" (RouterSpec.text c))
      (ModelCapability.recommend ModelCapability.EMERGENCY_RESPONSE "critical") acc.
Proof. reflexivity. Qed.

(** C3. For every disruption context the router emits exactly the task
    kinds whose rule fires, each once, with the rule's priority, in the
    insertion order route-optimization (high), customer-communication
    (high), sentiment-analysis (medium), strategic-planning (high),
    emergency-response (critical); strategic planning fires when more
    than one of the three earlier tasks was emitted or the urgency is
    high or complex, emergency response when the urgency is high or the
    description has the emergency marker. On the end-to-end scenario it
    emits all five, in that order. *)
Theorem router_emits_by_rule (c : ModelCapability.ProblemContext) :
  RouterSpec.emitted c
  = filter (fun rule => RouterSpec.fires c (fst rule)) RouterSpec.rules
  /\ (forall k p,
        In (k, p) (RouterSpec.emitted c)
        <-> RouterSpec.fires c k = true /\ In (k, p) RouterSpec.rules)
  /\ NoDup (map ModelCapability.task (ModelCapability.recommended_tasks c))
  /\ (forall t, In t (ModelCapability.recommended_tasks c) ->
        ModelCapability.model t
        = ModelCapability.get_model_for_task (ModelCapability.task t))
  /\ RouterSpec.emitted RouterSpec.scenario = RouterSpec.rules.
Proof.
  assert (E : RouterSpec.emitted c
    = filter (fun rule => RouterSpec.fires c (fst rule)) RouterSpec.rules
    /\ (forall t, In t (ModelCapability.recommended_tasks c) ->
          ModelCapability.model t
          = ModelCapability.get_model_for_task (ModelCapability.task t))).
  { unfold RouterSpec.emitted. rewrite recommended_tasks_guards.
    unfold RouterSpec.rules, RouterSpec.fires, Py.mem. cbn [filter fst existsb].
    rewrite (String.eqb_sym (RouterSpec.urgency_of c) "high"),
            (String.eqb_sym (RouterSpec.urgency_of c) "complex").
    destruct (RouterSpec.routing_signal c), (RouterSpec.communication_signal c),
             (RouterSpec.sentiment_signal c),
             ("high" =? RouterSpec.urgency_of c), ("complex" =? RouterSpec.urgency_of c),
             (Py.contains "emergency" (RouterSpec.text c));
      (split; [reflexivity|]);
      cbn; intros t H; repeat (destruct H as [<-|H]; [reflexivity|]);
      contradiction. }
  destruct E as [E M].
  split; [exact E|]. split; [|split; [|split; [exact M|]]].
  - intros k p. rewrite E, filter_In. cbn [fst]. tauto.
  - replace (map ModelCapability.task (ModelCapability.recommended_tasks c))
      with (map fst (RouterSpec.emitted c))
      by (unfold RouterSpec.emitted; rewrite map_map; reflexivity).
    rewrite E. unfold RouterSpec.rules. cbn [filter fst].
    destruct (RouterSpec.fires c ModelCapability.ROUTE_OPTIMIZATION),
             (RouterSpec.fires c ModelCapability.CUSTOMER_COMMUNICATION),
             (RouterSpec.fires c ModelCapability.SENTIMENT_ANALYSIS),
             (RouterSpec.fires c ModelCapability.STRATEGIC_PLANNING),
             (RouterSpec.fires c ModelCapability.EMERGENCY_RESPONSE);
      cbn [map fst];
      repeat (constructor; [cbn [In]; intuition discriminate|]);
      constructor.
  - vm_compute. reflexivity.
Qed.

(** On the end-to-end scenario the emergency rule fires (the urgency is
    high), so the critical emergency task is among the emitted ones. *)
Lemma router_emits_by_rule_witness :
  In (ModelCapability.EMERGENCY_RESPONSE, "critical")
     (RouterSpec.emitted RouterSpec.scenario).
Proof.
  apply (proj2 (proj1 (proj2 (router_emits_by_rule RouterSpec.scenario))
                  ModelCapability.EMERGENCY_RESPONSE "critical")).
  split; [reflexivity|].
  unfold RouterSpec.rules. cbn [In]. do 4 right. left. reflexivity.
Defined.

(* ================================================================== *)
(** ** The urgency classifiers of the food and express specialists *)
(* ================================================================== *)

(** C6, as stated, fails: a food task whose description contains none of
    the urgent keywords is still classified urgent, because the urgency
    flag and the order count are urgent signals too. *)
Lemma urgent_without_keywords :
  UrgencySpec.keyword_hits Agents.GrabFoodAgent UrgencySpec.late_orders = 0
  /\ Agents._determine_urgency Agents.GrabFoodAgent UrgencySpec.late_orders
     = "urgent".
Proof. split; vm_compute; reflexivity. Qed.

Lemma sum_bool_cons (b : bool) (bs : list bool) :
  Py.sum_bool (b :: bs) = (if b then 1 else 0) + Py.sum_bool bs.
Proof. unfold Py.sum_bool. destruct b; reflexivity. Qed.

(** C6, amended. For the food and the express specialist: when two or
    more of the agent's urgent signals fire the classification is
    urgent; when at most one fires it is not urgent, and it is complex
    if two or more complex signals fire and medium otherwise. The
    keyword tests on the description are some of the urgent signals,
    the others being field tests (urgency flag, order count, package
    value, package type). *)
Theorem urgency_threshold_rule (task : Agents.Task) :
  UrgencySpec.threshold_rule Agents.GrabFoodAgent task
  /\ UrgencySpec.threshold_rule Agents.GrabExpressAgent task.
Proof.
  assert (rule : forall a, a <> Agents.CustomerServiceAgent ->
            UrgencySpec.keyword_hits a task <= UrgencySpec.urgent_signals a task ->
            UrgencySpec.threshold_rule a task).
  { intros a Ha Hk. unfold UrgencySpec.threshold_rule,
      UrgencySpec.urgent_signals, UrgencySpec.complex_signals in *.
    assert (E : Agents._determine_urgency a task
      = if (2 <=? Py.sum_bool (Agents.urgent_factors a task))%nat then "urgent"
        else if (2 <=? Py.sum_bool (Agents.complex_factors a task))%nat
             then "complex" else "medium")
      by (destruct a; [reflexivity|reflexivity|congruence]).
    rewrite E. split; [|split; [|exact Hk]].
    - intros H. now rewrite (proj2 (Nat.leb_le _ _) H).
    - intros H.
      assert (F : (2 <=? Py.sum_bool (Agents.urgent_factors a task))%nat = false)
        by (apply Nat.leb_gt; lia).
      rewrite F. split; [|reflexivity].
      destruct (2 <=? Py.sum_bool (Agents.complex_factors a task))%nat;
        discriminate. }
  split; apply rule; try discriminate;
    unfold UrgencySpec.keyword_hits, UrgencySpec.urgent_signals,
           UrgencySpec.urgent_keywords, Agents.urgent_factors;
    cbn [map]; rewrite !sum_bool_cons; lia.
Qed.

(** The rule at three concrete tasks: two keywords make a food task
    urgent; a parcel with no urgent signal and three complex ones is
    complex. *)
Lemma urgency_threshold_rule_witness :
  Agents._determine_urgency Agents.GrabFoodAgent UrgencySpec.spoiled_food
    = "urgent"
  /\ Agents._determine_urgency Agents.GrabExpressAgent UrgencySpec.fragile_parcel
     = "complex".
Proof.
  split.
  - apply (proj1 (proj1 (urgency_threshold_rule UrgencySpec.spoiled_food))).
    vm_compute. lia.
  - destruct (proj1 (proj2 (proj2 (urgency_threshold_rule UrgencySpec.fragile_parcel))))
      as [_ E]; [vm_compute; lia|exact E].
Defined.

(* ================================================================== *)
(** ** The aggregated confidence of the scheduler's results *)
(* ================================================================== *)

Lemma accumulate_sums (results : list MultiModel.TaskResult) :
  forall weighted_sum total_weight,
    MultiModel.accumulate results weighted_sum total_weight
    = (fold_left PrimFloat.add
         (map (fun r => (MultiModel.confidence r * ConfidenceSpec.weight_of r)%float)
              results) weighted_sum,
       fold_left PrimFloat.add (map ConfidenceSpec.weight_of results) total_weight).
Proof.
  induction results as [|r rest IH]; intros ws tw; [reflexivity|].
  cbn [MultiModel.accumulate map fold_left]. apply IH.
Qed.

Lemma calculate_formula (results : list MultiModel.TaskResult) :
  results <> [] ->
  MultiModel._calculate_multi_model_confidence results
  = Py.min 0.95 (ConfidenceSpec.weighted_mean results
                 + ConfidenceSpec.diversity_bonus results)%float.
Proof.
  intros NE. destruct results as [|r rest]; [congruence|].
  unfold MultiModel._calculate_multi_model_confidence.
  rewrite accumulate_sums. reflexivity.
Qed.

Lemma weight_not_negative (p : string) :
  not_negative (MultiModel.priority_weights p).
Proof.
  unfold MultiModel.priority_weights, not_negative.
  destruct (p =? "critical"), (p =? "high"), (p =? "medium"); vm_compute; reflexivity.
Qed.

Lemma fold_add_not_negative (xs : list float) : forall acc,
  not_negative acc -> Forall not_negative xs ->
  not_negative (fold_left PrimFloat.add xs acc).
Proof.
  induction xs as [|x xs IH]; intros acc A F; [exact A|].
  inversion F; subst. cbn [fold_left]. apply IH; [|assumption].
  now apply FloatFacts.add_not_negative.
Qed.

Lemma min_not_negative (a x : float) :
  not_negative a -> not_negative x ->
  not_negative (Py.min a x).
Proof. intros A X. unfold Py.min. destruct (PrimFloat.ltb x a); assumption. Qed.

(** Capping at 0.95 a number that is not negative lands in [0, 0.95]. *)
Lemma cap_range (x : float) :
  not_negative x ->
  PrimFloat.leb 0 (Py.min 0.95 x) = true
  /\ PrimFloat.leb (Py.min 0.95 x) 0.95 = true.
Proof.
  intros X. unfold Py.min. destruct (PrimFloat.ltb x 0.95) eqn:L.
  - split; [eapply FloatFacts.not_negative_leb_zero; eauto
           |now apply FloatFacts.ltb_leb].
  - split; reflexivity.
Qed.

Lemma calculate_range (results : list MultiModel.TaskResult) :
  Forall (fun r => PrimFloat.leb 0 (MultiModel.confidence r) = true) results ->
  PrimFloat.leb 0 (MultiModel._calculate_multi_model_confidence results) = true
  /\ PrimFloat.leb (MultiModel._calculate_multi_model_confidence results) 0.95 = true.
Proof.
  intros F. destruct results as [|r rest] eqn:R; [split; reflexivity|].
  rewrite <- R in *. rewrite calculate_formula by (rewrite R; discriminate).
  apply cap_range. apply FloatFacts.add_not_negative.
  - unfold ConfidenceSpec.weighted_mean.
    destruct (PrimFloat.ltb 0 (ConfidenceSpec.total_weight results)) eqn:P;
      [|reflexivity].
    apply FloatFacts.div_not_negative; [|exact P].
    apply fold_add_not_negative; [reflexivity|].
    apply Forall_map. eapply Forall_impl; [|exact F]. cbn beta.
    intros a Ha. apply FloatFacts.mul_not_negative.
    + now apply FloatFacts.leb_zero_not_negative.
    + apply weight_not_negative.
  - apply min_not_negative; [reflexivity|].
    apply FloatFacts.mul_not_negative; [apply FloatFacts.of_nat_not_negative|reflexivity].
Qed.

(** C4, as stated, fails: the value reported as [synthesis_confidence]
    is the text-based score of the final synthesis call, not the
    weighted aggregate. On the three results of the specification and a
    backend that answers with a short plan it is 0.7 while the weighted
    formula gives 0.8766... *)
Lemma synthesis_confidence_is_not_the_weighted_mean :
  let synthesis :=
    fst (MultiModel._synthesize_multi_model_results ConfidenceSpec.short_plan
           ConfidenceSpec.three_results (MultiModel.init LLM.init)) in
  let weighted :=
    Py.min 0.95 (ConfidenceSpec.weighted_mean ConfidenceSpec.three_results
                 + ConfidenceSpec.diversity_bonus ConfidenceSpec.three_results)%float in
  PrimFloat.ltb (MultiModel.synthesis_confidence synthesis) 0.71 = true
  /\ PrimFloat.ltb 0.87 weighted = true
  /\ MultiModel.synthesis_confidence synthesis <> weighted.
Proof.
  cbv zeta. split; [vm_compute; reflexivity|]. split; [vm_compute; reflexivity|].
  intros E. apply (f_equal (fun v => PrimFloat.ltb v 0.71)) in E.
  vm_compute in E. discriminate.
Qed.

(** C4, amended. Over a non-empty list of task results the scheduler's
    [overall_confidence] (computed by
    [_calculate_multi_model_confidence]) equals
    min(0.95, weighted_mean + diversity_bonus), with the mean weighted
    by the tier weights critical 1.0, high 0.8, medium 0.6 and the
    bonus min(0.15, 0.03 x distinct backends); it lies in [0, 0.95]
    when no confidence is negative; for (critical, 0.9), (high, 0.8),
    (medium, 0.7) on two backends it is
    min(0.95, (0.9*1.0 + 0.8*0.8 + 0.7*0.6)/2.4 + 0.06). The field
    [synthesis_confidence] is the confidence of the synthesis call. *)
Theorem overall_confidence_formula (results : list MultiModel.TaskResult) :
  results <> [] ->
  MultiModel._calculate_multi_model_confidence results
  = Py.min 0.95 (ConfidenceSpec.weighted_mean results
                 + ConfidenceSpec.diversity_bonus results)%float
  /\ (MultiModel.priority_weights "critical" = 1.0%float
      /\ MultiModel.priority_weights "high" = 0.8%float
      /\ MultiModel.priority_weights "medium" = 0.6%float)
  /\ (Forall (fun r => PrimFloat.leb 0 (MultiModel.confidence r) = true) results ->
      PrimFloat.leb 0 (MultiModel._calculate_multi_model_confidence results) = true
      /\ PrimFloat.leb (MultiModel._calculate_multi_model_confidence results) 0.95
         = true)
  /\ MultiModel._calculate_multi_model_confidence ConfidenceSpec.three_results
     = Py.min 0.95 ((0.9 * 1.0 + 0.8 * 0.8 + 0.7 * 0.6) / 2.4 + 0.06)%float
  /\ (forall gateway problem_context task_analysis self,
        let analysis :=
          fst (MultiModel.execute_and_synthesize gateway problem_context
                 task_analysis self) in
        MultiModel.overall_confidence analysis
        = MultiModel._calculate_multi_model_confidence
            (MultiModel.task_results analysis)
        /\ MultiModel.synthesis_confidence (MultiModel.final_solution analysis)
           = LLM.confidence
               (fst (LLM.generate_response_for_agent gateway
                       "master_synthesizer" "complex"
                       (MultiModel.lm_manager
                          (snd (MultiModel.execute_tasks gateway problem_context
                                  (ModelCapability.ta_recommended_tasks task_analysis)
                                  self)))))).
Proof.
  intros NE.
  split; [now apply calculate_formula|].
  split; [repeat split|].
  split; [apply calculate_range|].
  split; [vm_compute; reflexivity|].
  intros gateway problem_context task_analysis self analysis. subst analysis.
  rewrite execute_and_synthesize_unfold. cbn zeta.
  cbn [fst MultiModel.overall_confidence MultiModel.task_results
       MultiModel.final_solution].
  split; [reflexivity|].
  unfold MultiModel._synthesize_multi_model_results, St.bind, St.zoom, St.ret.
  destruct (LLM.generate_response_for_agent _ _ _ _) as [resp lm'].
  reflexivity.
Qed.

(** The specification's three results satisfy the formula and the
    range. *)
Lemma overall_confidence_formula_witness :
  PrimFloat.leb 0 (MultiModel._calculate_multi_model_confidence
                     ConfidenceSpec.three_results) = true
  /\ PrimFloat.leb (MultiModel._calculate_multi_model_confidence
                      ConfidenceSpec.three_results) 0.95 = true.
Proof.
  assert (NE : ConfidenceSpec.three_results <> []) by discriminate.
  apply (proj1 (proj2 (proj2 (overall_confidence_formula
                                ConfidenceSpec.three_results NE)))).
  repeat constructor.
Defined.

(* ================================================================== *)
(** ** The workflow: how each node acts *)
(* ================================================================== *)

Section WorkflowFacts.

Import Workflow WorkflowSpec.

Variable config : Settings.Config.
Variable gateway : LLM.Gateway.

Lemma on_reply_confidence lm agent_type urgency optimal_model reply :
  LLM.confidence (LLM.on_reply lm agent_type urgency optimal_model reply)
  = reply_confidence agent_type reply.
Proof. destruct reply as [[c|]|e]; reflexivity. Qed.

Lemma process_task_confidence a task lm :
  Agents.confidence (fst (Agents.process_task gateway a task lm))
  = reply_confidence (Agents.gateway_name a)
      (gateway (List.length (LLM.gateway_calls lm))).
Proof.
  unfold Agents.process_task, St.bind, St.ret.
  destruct (LLM.generate_response_for_agent _ _ _ _) as [resp lm'] eqn:G.
  assert (R : resp = fst (LLM.generate_response_for_agent gateway
                (Agents.gateway_name a) (Agents._determine_urgency a task) lm))
    by now rewrite G.
  rewrite generate_response_value in R.
  destruct a; cbn [fst Agents.confidence]; rewrite R; apply on_reply_confidence.
Qed.

Lemma process_task_state a task lm :
  snd (Agents.process_task gateway a task lm)
  = snd (LLM.generate_response_for_agent gateway (Agents.gateway_name a)
           (Agents._determine_urgency a task) lm).
Proof.
  unfold Agents.process_task, St.bind, St.ret.
  destruct (LLM.generate_response_for_agent _ _ _ _) as [resp lm']. reflexivity.
Qed.

Lemma specialist_calls_snoc lm request :
  specialist_calls {| LLM.current_active_model := LLM.current_active_model lm;
                      LLM.gateway_calls := LLM.gateway_calls lm ++ [request] |}
  = specialist_calls lm
    + (if is_specialist (LLM.req_agent_type request) then 1 else 0).
Proof.
  unfold specialist_calls. cbn [LLM.gateway_calls].
  rewrite filter_app, length_app. cbn [filter].
  destruct (is_specialist _); reflexivity.
Qed.

Lemma calls_after_generate agent_type urgency lm :
  let lm' := snd (LLM.generate_response_for_agent gateway agent_type urgency lm) in
  specialist_calls lm'
  = specialist_calls lm + (if is_specialist agent_type then 1 else 0)
  /\ List.length (LLM.gateway_calls lm') = List.length (LLM.gateway_calls lm) + 1.
Proof.
  cbn zeta. rewrite generate_state. rewrite specialist_calls_snoc.
  cbn [LLM.gateway_calls request_of LLM.req_agent_type].
  rewrite length_app. split; reflexivity.
Qed.

Lemma gateway_name_is_specialist a : is_specialist (Agents.gateway_name a) = true.
Proof. destruct a; reflexivity. Qed.

Lemma agents_gateway_name name a :
  agents name = Some a -> Agents.gateway_name a = name.
Proof.
  unfold agents.
  destruct (name =? "grabfood") eqn:F;
    [apply String.eqb_eq in F; intros [= <-]; now subst|].
  destruct (name =? "grabexpress") eqn:E;
    [apply String.eqb_eq in E; intros [= <-]; now subst|].
  destruct (name =? "customer_service") eqn:C;
    [apply String.eqb_eq in C; intros [= <-]; now subst|].
  discriminate.
Qed.

Lemma choose_specialist_registered analysis service_type :
  exists a, agents (choose_specialist analysis service_type) = Some a.
Proof.
  unfold choose_specialist.
  destruct (_ || _ || _); [eexists; reflexivity|].
  destruct (_ || _ || _); eexists; reflexivity.
Qed.

(** *** The nodes, one equation each *)

Lemma analyze_disruption_eq s lm :
  analyze_disruption gateway s lm
  = let call := LLM.generate_response gateway ModelCapability.REASONING lm in
    (inr (set_disruption
            (set_analysis (fst call) (disruption s))
            (log_history {| step := "disruption_analysis"; output := fst call |} s)),
     snd call).
Proof.
  unfold analyze_disruption, St.bind, St.ret. cbn zeta.
  destruct (LLM.generate_response _ _ _). reflexivity.
Qed.

Lemma route_to_specialist_eq s lm a :
  analysis (disruption s) = Some a ->
  route_to_specialist gateway s lm
  = let call := LLM.generate_response gateway ModelCapability.REASONING lm in
    let specialist :=
      choose_specialist (LLM.content a)
                        (Py.get_or (service_type (disruption s)) "") in
    (inr (set_disruption
            (set_specialist_briefing (fst call) (disruption s))
            (set_current_agent specialist s)),
     snd call).
Proof.
  intros A. unfold route_to_specialist, St.bind, St.ret. rewrite A. cbn zeta.
  destruct (LLM.generate_response _ _ _). reflexivity.
Qed.

Lemma execute_specialist_task_eq s lm a d st :
  ready a d st s ->
  execute_specialist_task gateway s lm
  = let call := Agents.process_task gateway a
                  (specialist_task (disruption s) d st) lm in
    (inr (record_response
            {| agent := current_agent s; response := to_dict (fst call) |}
            (Agents.confidence (fst call)) s),
     snd call).
Proof.
  intros (A & D & S). unfold execute_specialist_task, St.bind, St.ret.
  rewrite A, D, S. cbn zeta.
  destruct (Agents.process_task _ _ _ _). reflexivity.
Qed.

Lemma validate_solution_eq s lm d earlier latest :
  description (disruption s) = Some d ->
  agent_responses s = earlier ++ [latest] ->
  validate_solution gateway s lm
  = let call := LLM.generate_response gateway ModelCapability.REASONING lm in
    (inr (set_final_solution
            {| solution := Some (extract_solution (content (response latest)));
               validation := Some {| v_content := LLM.content (fst call);
                                     v_confidence := LLM.confidence (fst call) |};
               fs_confidence := Some (confidence (response latest));
               customer_communication := None;
               escalation_context := None |} s),
     snd call).
Proof.
  intros D R. unfold validate_solution, St.bind, St.ret.
  rewrite R, rev_unit, D. cbn zeta.
  destruct (LLM.generate_response _ _ _). reflexivity.
Qed.

(** The run loop, one step unrolled. *)
Lemma run_step recursion_limit steps n s lm :
  run config gateway recursion_limit (S steps) n s lm
  = match node gateway n s lm with
    | (inl e, lm') => (inl (e, disruption s), lm')
    | (inr s', lm') =>
        match successor config n s' with
        | None => (inr s', lm')
        | Some n' => run config gateway recursion_limit steps n' s' lm'
        end
    end.
Proof.
  cbn [run]. unfold St.bind, St.ret.
  destruct (node gateway n s lm) as [[e|s'] lm']; [reflexivity|].
  destruct (successor config n s'); reflexivity.
Qed.

(** *** A run that ends normally has a solution on record *)

Lemma node_keeps_solution n s lm s' lm' :
  solution_on_entry n s ->
  node gateway n s lm = (inr s', lm') ->
  match successor config n s' with
  | Some n' => solution_on_entry n' s'
  | None => solution (final_solution s') <> None
  end.
Proof.
  intros Inv Run. destruct n; cbn [node successor solution_on_entry] in *.
  - exact I.
  - exact I.
  - exact I.
  - assert (Sol : solution (final_solution s') <> None).
    { unfold validate_solution in Run.
      destruct (rev (agent_responses s)) as [|latest rest].
      - injection Run as <- _. discriminate.
      - destruct (description (disruption s)); [|discriminate].
        unfold St.bind, St.ret in Run.
        destruct (LLM.generate_response _ _ _) in Run.
        injection Run as <- _. discriminate. }
    destruct (_should_escalate config s'); first [exact Sol | exact I].
  - unfold handle_customer_communication in Run.
    destruct (description (disruption s)); [|discriminate].
    destruct (solution (final_solution s)) eqn:S; [|discriminate].
    destruct (service_type (disruption s)); [|discriminate].
    unfold St.bind, St.ret in Run.
    destruct (Agents.process_task _ _ _ _) in Run.
    injection Run as <- _. cbn. rewrite S. discriminate.
  - unfold escalate_to_human, St.ret in Run. injection Run as <- _. exact Inv.
  - unfold finalize_solution, St.ret in Run. injection Run as <- _. exact Inv.
Qed.

Lemma run_ends_with_solution recursion_limit steps : forall n s lm s' lm',
  solution_on_entry n s ->
  run config gateway recursion_limit steps n s lm = (inr s', lm') ->
  solution (final_solution s') <> None.
Proof.
  induction steps as [|steps IH]; intros n s lm s' lm' Inv Run.
  - discriminate.
  - cbn [run] in Run. unfold St.bind in Run.
    destruct (node gateway n s lm) as [[e|s1] lm1] eqn:N; [discriminate|].
    pose proof (node_keeps_solution n s lm s1 lm1 Inv N) as Next.
    destruct (successor config n s1) as [n'|].
    + eapply IH; eassumption.
    + injection Run as <- _. exact Next.
Qed.

End WorkflowFacts.

(* ================================================================== *)
(** ** The retry loop *)
(* ================================================================== *)

Section RetryLoop.

Import Workflow WorkflowSpec.

Variable config : Settings.Config.
Variable gateway : LLM.Gateway.

Lemma band_retries s :
  in_retry_band config (confidence_score s) ->
  successor config N_validate_solution s = Some N_execute_specialist_task.
Proof.
  intros [Lo Hi]. cbn [successor]. unfold _should_escalate.
  rewrite (FloatFacts.leb_not_ltb _ _ Lo), Hi. reflexivity.
Qed.

(** One round of the loop: the specialist is called once, validation
    follows, and when the specialist's answer scores in the retry band
    the guard sends the run back to the specialist. *)
Lemma retry_round recursion_limit steps a d st s lm :
  ready a d st s ->
  in_retry_band config
    (reply_confidence (Agents.gateway_name a)
       (gateway (List.length (LLM.gateway_calls lm)))) ->
  exists s' lm',
    run config gateway recursion_limit (S (S steps)) N_execute_specialist_task s lm
    = run config gateway recursion_limit steps N_execute_specialist_task s' lm'
    /\ ready a d st s'
    /\ disruption s' = disruption s
    /\ specialist_calls lm' = specialist_calls lm + 1
    /\ List.length (LLM.gateway_calls lm') = List.length (LLM.gateway_calls lm) + 2.
Proof.
  intros R Band.
  pose proof (execute_specialist_task_eq gateway s lm a d st R) as E.
  cbn zeta in E.
  set (call := Agents.process_task gateway a (specialist_task (disruption s) d st) lm) in *.
  set (s1 := record_response _ _ s) in E.
  assert (R1 : ready a d st s1) by exact R.
  assert (C1 : in_retry_band config (confidence_score s1)).
  { unfold s1, call. cbn [record_response confidence_score].
    rewrite process_task_confidence. exact Band. }
  pose proof (validate_solution_eq gateway s1 (snd call) d (agent_responses s) _
                (proj1 (proj2 R1)) eq_refl) as V.
  cbn zeta in V.
  set (vcall := LLM.generate_response gateway ModelCapability.REASONING (snd call)) in *.
  set (s2 := set_final_solution _ s1) in V.
  exists s2, (snd vcall).
  split; [|split; [exact R1|split; [reflexivity|]]].
  - rewrite run_step. cbn [node]. rewrite E.
    cbn [successor].
    rewrite run_step. cbn [node]. rewrite V.
    rewrite (band_retries s2 C1). reflexivity.
  - unfold vcall, LLM.generate_response.
    destruct (calls_after_generate gateway "orchestrator" "medium" (snd call))
      as [S2 L2].
    rewrite S2, L2. unfold call. rewrite process_task_state.
    destruct (calls_after_generate gateway (Agents.gateway_name a)
                (Agents._determine_urgency a (specialist_task (disruption s) d st)) lm)
      as [S1 L1].
    rewrite S1, L1, gateway_name_is_specialist. cbn. lia.
Qed.

(** [rounds] rounds in the band use up [2 * rounds] steps, after which
    the run is out of steps. *)
Lemma retry_rounds recursion_limit rounds : forall a d st s lm,
  ready a d st s ->
  (forall k, k < rounds ->
     in_retry_band config
       (reply_confidence (Agents.gateway_name a)
          (gateway (List.length (LLM.gateway_calls lm) + 2 * k)))) ->
  let out := run config gateway recursion_limit (2 * rounds)
               N_execute_specialist_task s lm in
  fst out = inl (GraphRecursionError recursion_limit, disruption s)
  /\ specialist_calls (snd out) = specialist_calls lm + rounds
  /\ List.length (LLM.gateway_calls (snd out))
     = List.length (LLM.gateway_calls lm) + 2 * rounds.
Proof.
  induction rounds as [|rounds IH]; intros a d st s lm R Band; cbn zeta.
  - cbn. repeat split; lia.
  - replace (2 * S rounds) with (S (S (2 * rounds))) by lia.
    destruct (retry_round recursion_limit (2 * rounds) a d st s lm R)
      as (s' & lm' & Run & R' & D' & S' & L').
    { specialize (Band 0 (Nat.lt_0_succ _)).
      rewrite Nat.mul_0_r, Nat.add_0_r in Band. exact Band. }
    rewrite Run. destruct (IH a d st s' lm' R') as (E & Sc & Lc).
    { intros k Hk. rewrite L'.
      replace (List.length (LLM.gateway_calls lm) + 2 + 2 * k)
        with (List.length (LLM.gateway_calls lm) + 2 * S k) by lia.
      apply Band. lia. }
    rewrite E, Sc, Lc, S', L', D'. repeat split; lia.
Qed.

(** The two nodes before the loop, from the initial state. *)
Lemma run_reaches_loop recursion_limit steps report lm d st :
  description report = Some d ->
  service_type report = Some st ->
  exists a s lm',
    run config gateway recursion_limit (S (S steps)) N_disruption_analysis
        (initial_state report) lm
    = run config gateway recursion_limit steps N_execute_specialist_task s lm'
    /\ ready a d st s
    /\ specialist_calls lm' = specialist_calls lm
    /\ List.length (LLM.gateway_calls lm') = List.length (LLM.gateway_calls lm) + 2.
Proof.
  intros D S.
  pose proof (analyze_disruption_eq gateway (initial_state report) lm) as A.
  cbn zeta in A.
  set (acall := LLM.generate_response gateway ModelCapability.REASONING lm) in *.
  set (s1 := set_disruption _ _) in A.
  pose proof (route_to_specialist_eq gateway s1 (snd acall) (fst acall) eq_refl) as Ro.
  cbn zeta in Ro.
  set (rcall := LLM.generate_response gateway ModelCapability.REASONING (snd acall)) in *.
  set (s2 := set_disruption _ _) in Ro.
  destruct (choose_specialist_registered (LLM.content (fst acall))
              (Py.get_or (service_type (disruption s1)) "")) as [a Ha].
  exists a, s2, (snd rcall).
  split; [|split; [|split]].
  - rewrite run_step. cbn [node]. rewrite A.
    cbn [successor].
    rewrite run_step. cbn [node]. rewrite Ro. reflexivity.
  - repeat split; [exact Ha|exact D|exact S].
  - unfold rcall, acall, LLM.generate_response.
    rewrite (proj1 (calls_after_generate gateway "orchestrator" "medium" _)).
    rewrite (proj1 (calls_after_generate gateway "orchestrator" "medium" _)).
    cbn. lia.
  - unfold rcall, acall, LLM.generate_response.
    rewrite (proj2 (calls_after_generate gateway "orchestrator" "medium" _)).
    rewrite (proj2 (calls_after_generate gateway "orchestrator" "medium" _)).
    lia.
Qed.

End RetryLoop.


(** C9, as stated, fails: with the default configuration
    ([MAX_ITERATIONS] = 10) and a backend whose answers always score in
    the retry band, the specialist is invoked 24 times, more than the
    configured maximum, before the run stops. *)
Lemma retries_exceed_max_iterations :
  let out := Workflow.process_disruption Settings.config Scenarios.terse
               Scenarios.traffic_jam LLM.init in
  WorkflowSpec.specialist_calls (snd out) = 24
  /\ Settings.MAX_ITERATIONS Settings.config = 10%Z
  /\ (Settings.MAX_ITERATIONS Settings.config
      < Z.of_nat (WorkflowSpec.specialist_calls (snd out)))%Z.
Proof. vm_compute. repeat split. Qed.

(* ================================================================== *)
(** ** A failing backend call is absorbed where it is made *)
(* ================================================================== *)

Section Escalation.

Import Workflow WorkflowSpec.

Variable config : Settings.Config.
Variable gateway : LLM.Gateway.

(** When the specialist's answer scores below the escalation
    threshold, three steps end the run in [escalate_to_human]. *)
Lemma escalating_round recursion_limit steps a d st s lm :
  ready a d st s ->
  PrimFloat.ltb
    (reply_confidence (Agents.gateway_name a)
       (gateway (List.length (LLM.gateway_calls lm))))
    (Settings.HUMAN_ESCALATION_THRESHOLD config) = true ->
  exists s' lm',
    run config gateway recursion_limit (S (S (S steps)))
        N_execute_specialist_task s lm = (inr s', lm')
    /\ escalation_needed s' = true
    /\ confidence_score s'
       = reply_confidence (Agents.gateway_name a)
           (gateway (List.length (LLM.gateway_calls lm)))
    /\ escalation_context (final_solution s') <> None.
Proof.
  intros R Low.
  pose proof (execute_specialist_task_eq gateway s lm a d st R) as E.
  cbn zeta in E.
  set (call := Agents.process_task gateway a (specialist_task (disruption s) d st) lm) in *.
  set (s1 := record_response _ _ s) in E.
  assert (R1 : ready a d st s1) by exact R.
  assert (C1 : confidence_score s1
               = reply_confidence (Agents.gateway_name a)
                   (gateway (List.length (LLM.gateway_calls lm)))).
  { unfold s1, call. cbn [record_response confidence_score].
    apply process_task_confidence. }
  pose proof (validate_solution_eq gateway s1 (snd call) d (agent_responses s) _
                (proj1 (proj2 R1)) eq_refl) as V.
  cbn zeta in V.
  set (vcall := LLM.generate_response gateway ModelCapability.REASONING (snd call)) in *.
  set (s2 := set_final_solution _ s1) in V.
  assert (Next : successor config N_validate_solution s2 = Some N_escalate_to_human).
  { cbn [successor]. unfold _should_escalate.
    change (confidence_score s2) with (confidence_score s1).
    rewrite C1, Low. reflexivity. }
  eexists. eexists. split.
  - rewrite run_step. cbn [node]. rewrite E. cbn [successor].
    rewrite run_step. cbn [node]. rewrite V. rewrite Next.
    rewrite run_step. cbn [node]. unfold escalate_to_human, St.ret.
    cbn [successor]. reflexivity.
  - cbn. split; [reflexivity|]. split; [exact C1|discriminate].
Qed.

End Escalation.

(** C8. A call of [generate_response_for_agent] on which the backend
    fails returns the fallback answer: the fixed message of the agent
    type, confidence 0.2, the error text attached; so does a call whose
    completion carries no text. Nothing is raised:
    the scheduler loop yields one result per task whatever the backend
    does, a failed task call giving a result with confidence 0.2; and
    with a backend that fails on every call the workflow still runs to
    its end, in [escalate_to_human]. *)
Theorem backend_failure_is_absorbed
        (gateway : LLM.Gateway) (agent_type urgency : string)
        (lm : LLM.LMStudioManager) (e : string) :
  gateway (List.length (LLM.gateway_calls lm)) = LLM.Failure e ->
  let r := fst (LLM.generate_response_for_agent gateway agent_type urgency lm) in
  (LLM.content r = LLM.fallback_responses agent_type
   /\ LLM.confidence r = 0.2%float
   /\ LLM.error r = Some e
   /\ LLM.provider r = "lm_studio_fallback")
  /\ (forall lm',
        gateway (List.length (LLM.gateway_calls lm')) = LLM.Completion None ->
        let r' := fst (LLM.generate_response_for_agent gateway agent_type urgency lm') in
        LLM.content r' = LLM.fallback_responses agent_type
        /\ LLM.confidence r' = 0.2%float
        /\ LLM.error r' = Some LLM.len_of_None)
  /\ (forall problem_context tasks self,
        List.length (fst (MultiModel.execute_tasks gateway problem_context tasks self))
        = List.length tasks)
  /\ (forall task_name model_name priority problem_context self,
        MultiModel.lm_manager self = lm ->
        let result := fst (MultiModel._execute_specialized_task gateway task_name
                             model_name priority problem_context self) in
        MultiModel.confidence result = 0.2%float
        /\ MultiModel.response result = "System temporarily unavailable.")
  /\ ((forall n, exists e', gateway n = LLM.Failure e') ->
      forall report d st lm0,
        Workflow.description report = Some d ->
        Workflow.service_type report = Some st ->
        exists final_state,
          fst (Workflow.process_disruption Settings.config gateway report lm0)
          = Workflow.FinalState final_state
          /\ Workflow.escalation_needed final_state = true
          /\ Workflow.confidence_score final_state = 0.2%float).
Proof.
  intros F. cbn zeta. rewrite generate_response_value, F. cbn [LLM.on_reply].
  split; [repeat split|].
  split.
  { intros lm' N. rewrite generate_response_value, N. repeat split. }
  split; [intros; apply execute_tasks_length|].
  split.
  - intros task_name model_name priority problem_context self <-.
    unfold MultiModel._execute_specialized_task, St.bind, St.zoom, St.ret.
    destruct (LLM.generate_response_for_agent _ _ _ _) as [resp lm'] eqn:G.
    assert (R : resp = fst (LLM.generate_response_for_agent gateway
                  ("specialist_" ++ task_name)
                  (Py.get_or (ModelCapability.urgency problem_context) "medium")
                  (MultiModel.lm_manager self))) by now rewrite G.
    rewrite generate_response_value, F in R. subst resp.
    cbn [fst MultiModel.confidence MultiModel.response LLM.on_reply].
    split; reflexivity.
  - intros Down report d st lm0 D S.
    unfold Workflow.process_disruption, Workflow.ainvoke, St.bind, St.ret,
           Workflow.entry_point.
    destruct (run_reaches_loop Settings.config gateway 50 48 report lm0 d st D S)
      as (a & s & lm1 & Run & R & _ & _).
    rewrite Run.
    assert (C : WorkflowSpec.reply_confidence (Agents.gateway_name a)
                  (gateway (List.length (LLM.gateway_calls lm1))) = 0.2%float).
    { destruct (Down (List.length (LLM.gateway_calls lm1))) as [e' ->]. reflexivity. }
    destruct (escalating_round Settings.config gateway 50 45 a d st s lm1 R)
      as (s' & lm' & Run' & Esc & Conf & _).
    { rewrite C. reflexivity. }
    rewrite Run'. exists s'. cbn [fst]. repeat split; [exact Esc|].
    now rewrite Conf.
Qed.

(** With the backend down, a call for the food specialist returns its
    fixed fallback message. *)
Lemma backend_failure_is_absorbed_witness :
  let r := fst (LLM.generate_response_for_agent Scenarios.offline
                  "grabfood" "urgent" LLM.init) in
  LLM.content r
  = "Food delivery analysis temporarily unavailable. Escalating to human food delivery coordinator."
  /\ LLM.confidence r = 0.2%float
  /\ LLM.error r = Some "Connection error."
  /\ LLM.provider r = "lm_studio_fallback".
Proof.
  exact (proj1 (backend_failure_is_absorbed Scenarios.offline "grabfood" "urgent"
                  LLM.init "Connection error." eq_refl)).
Defined.

Section RunFacts.

Import Workflow WorkflowSpec RunSpec.

Variable config : Settings.Config.
Variable gateway : LLM.Gateway.

Lemma generate_called agent_type urgency lm :
  snd (LLM.generate_response_for_agent gateway agent_type urgency lm)
  = called agent_type urgency lm.
Proof. reflexivity. Qed.

Lemma rev_cons_split {A : Type} (l : list A) (x : A) (rest : list A) :
  rev l = x :: rest -> l = rev rest ++ [x].
Proof.
  intros H. rewrite <- (rev_involutive l), H. reflexivity.
Qed.

(** Every node that returns has the effect listed for it. *)
Lemma node_returns n s lm s' lm' :
  node gateway n s lm = (inr s', lm') -> node_effect gateway n s lm s' lm'.
Proof.
  intros Run. destruct n; cbn [node node_effect] in *.
  - rewrite analyze_disruption_eq in Run. cbn zeta in Run.
    injection Run as <- <-. eexists. split; [reflexivity|]. split; reflexivity.
  - destruct (analysis (disruption s)) as [a|] eqn:A.
    + rewrite (route_to_specialist_eq gateway s lm a A) in Run. cbn zeta in Run.
      injection Run as <- <-. exists a. eexists. repeat split.
    + unfold route_to_specialist in Run. rewrite A in Run. discriminate.
  - unfold execute_specialist_task in Run.
    destruct (agents (current_agent s)) as [agent|] eqn:A; [|discriminate].
    destruct (description (disruption s)) as [d|] eqn:D; [|discriminate].
    destruct (service_type (disruption s)) as [st|] eqn:S; [|discriminate].
    unfold St.bind, St.ret in Run.
    destruct (Agents.process_task gateway agent
                (specialist_task (disruption s) d st) lm) as [msg lm1] eqn:P.
    injection Run as <- <-.
    exists agent, d, st, msg. split; [repeat split; assumption|].
    split; [reflexivity|]. split.
    + replace msg with (fst (Agents.process_task gateway agent
                               (specialist_task (disruption s) d st) lm))
        by now rewrite P.
      apply process_task_confidence.
    + replace lm1 with (snd (Agents.process_task gateway agent
                               (specialist_task (disruption s) d st) lm))
        by now rewrite P.
      rewrite process_task_state. apply generate_called.
  - unfold validate_solution in Run.
    destruct (rev (agent_responses s)) as [|latest rest] eqn:R.
    + left. injection Run as <- <-.
      split; [|split; reflexivity].
      apply (f_equal (@rev _)) in R. now rewrite rev_involutive in R.
    + right. apply rev_cons_split in R.
      destruct (description (disruption s)) as [d|] eqn:D; [|discriminate].
      unfold St.bind, St.ret in Run.
      destruct (LLM.generate_response gateway ModelCapability.REASONING lm)
        as [v lm1] eqn:G.
      injection Run as <- <-.
      exists (rev rest), latest. eexists. split; [exact R|].
      split; [discriminate|]. split; [reflexivity|].
      replace lm1 with (snd (LLM.generate_response gateway
                               ModelCapability.REASONING lm)) by now rewrite G.
      reflexivity.
  - unfold handle_customer_communication in Run.
    destruct (description (disruption s)) as [d|] eqn:D; [|discriminate].
    destruct (solution (final_solution s)) as [sol|] eqn:So; [|discriminate].
    destruct (service_type (disruption s)) as [st|] eqn:S; [|discriminate].
    unfold St.bind, St.ret in Run.
    destruct (Agents.process_task gateway Agents.CustomerServiceAgent
                (communication_task (disruption s) d st) lm) as [msg lm1] eqn:P.
    injection Run as <- <-.
    exists d, st, msg. repeat split; try discriminate.
    replace lm1 with (snd (Agents.process_task gateway Agents.CustomerServiceAgent
                             (communication_task (disruption s) d st) lm))
      by now rewrite P.
    rewrite process_task_state. apply generate_called.
  - unfold escalate_to_human, St.ret in Run. injection Run as <- <-.
    split; reflexivity.
  - unfold finalize_solution, St.ret in Run. injection Run as <- <-.
    split; reflexivity.
Qed.

(** A node that raises has called nothing, and raised for an absent key. *)
Lemma node_raises n s lm e lm' :
  node gateway n s lm = (inl e, lm') -> lm' = lm /\ node_fault n s e.
Proof.
  intros Run. destruct n; cbn [node node_fault] in *.
  - rewrite analyze_disruption_eq in Run. discriminate.
  - unfold route_to_specialist in Run.
    destruct (analysis (disruption s)) as [a|] eqn:A.
    + unfold St.bind, St.ret in Run.
      destruct (LLM.generate_response _ _ _) in Run. discriminate.
    + injection Run as <- <-. repeat split.
  - unfold execute_specialist_task in Run.
    destruct (agents (current_agent s)) as [agent|] eqn:A.
    2:{ injection Run as <- <-. split; [reflexivity|]. left. split; reflexivity. }
    destruct (description (disruption s)) as [d|] eqn:D.
    2:{ injection Run as <- <-. split; [reflexivity|]. right. left.
        repeat split; discriminate. }
    destruct (service_type (disruption s)) as [st|] eqn:S.
    2:{ injection Run as <- <-. split; [reflexivity|]. right. right.
        repeat split; discriminate. }
    unfold St.bind, St.ret in Run.
    destruct (Agents.process_task _ _ _ _) in Run. discriminate.
  - unfold validate_solution in Run.
    destruct (rev (agent_responses s)) as [|latest rest] eqn:R; [discriminate|].
    apply rev_cons_split in R.
    destruct (description (disruption s)) as [d|] eqn:D.
    + unfold St.bind, St.ret in Run.
      destruct (LLM.generate_response _ _ _) in Run. discriminate.
    + injection Run as <- <-. repeat split.
      rewrite R. destruct (rev rest); discriminate.
  - unfold handle_customer_communication in Run.
    destruct (description (disruption s)) as [d|] eqn:D.
    2:{ injection Run as <- <-. split; [reflexivity|]. left. split; reflexivity. }
    destruct (solution (final_solution s)) as [sol|] eqn:So.
    2:{ injection Run as <- <-. split; [reflexivity|]. right. left.
        repeat split; discriminate. }
    destruct (service_type (disruption s)) as [st|] eqn:S.
    2:{ injection Run as <- <-. split; [reflexivity|]. right. right.
        repeat split; discriminate. }
    unfold St.bind, St.ret in Run.
    destruct (Agents.process_task _ _ _ _) in Run. discriminate.
  - unfold escalate_to_human, St.ret in Run. discriminate.
  - unfold finalize_solution, St.ret in Run. discriminate.
Qed.

(** *** Invariants of a run

    [P n s lm] holds on entering node [n]; if every returning node
    hands it on to its successor, or establishes [Q] at [END], then a
    run that ends normally ends in [Q]. *)

Section Invariant.

Variable P : NodeName -> LogisticsState -> LLM.LMStudioManager -> Prop.
Variable Q : LogisticsState -> LLM.LMStudioManager -> Prop.

Hypothesis step : forall n s lm s' lm',
  P n s lm ->
  node_effect gateway n s lm s' lm' ->
  match successor config n s' with
  | Some n' => P n' s' lm'
  | None => Q s' lm'
  end.

Lemma run_invariant recursion_limit steps : forall n s lm s' lm',
  P n s lm ->
  run config gateway recursion_limit steps n s lm = (inr s', lm') ->
  Q s' lm'.
Proof.
  induction steps as [|steps IH]; intros n s lm s' lm' Inv Run; [discriminate|].
  rewrite run_step in Run.
  destruct (node gateway n s lm) as [[e|s1] lm1] eqn:N; [discriminate|].
  pose proof (step n s lm s1 lm1 Inv (node_returns _ _ _ _ _ N)) as Next.
  destruct (successor config n s1) as [n'|].
  - eapply IH; eassumption.
  - injection Run as <- <-. exact Next.
Qed.

(** The same for a run that raises: the exception is the recursion
    error or the fault of a node, raised in a state that was entered
    under [P], whose report is the one handed back. *)
Lemma run_fault recursion_limit steps : forall n s lm e d lm',
  P n s lm ->
  run config gateway recursion_limit steps n s lm = (inl (e, d), lm') ->
  exists n' s' lm1,
    P n' s' lm1
    /\ d = disruption s'
    /\ (e = GraphRecursionError recursion_limit \/ node_fault n' s' e).
Proof.
  induction steps as [|steps IH]; intros n s lm e d lm' Inv Run.
  - injection Run as <- <- _. exists n, s, lm. repeat split; auto.
  - rewrite run_step in Run.
    destruct (node gateway n s lm) as [[e1|s1] lm1] eqn:N.
    + injection Run as <- <- _. exists n, s, lm.
      split; [exact Inv|]. split; [reflexivity|]. right.
      eapply node_raises; exact N.
    + pose proof (step n s lm s1 lm1 Inv (node_returns _ _ _ _ _ N)) as Next.
      destruct (successor config n s1) as [n'|]; [|discriminate].
      eapply IH; eassumption.
Qed.

End Invariant.

End RunFacts.

(* ================================================================== *)
(** ** The workflow: faults and gateway traffic of a run *)
(* ================================================================== *)

Section RunFaults.

Import Workflow WorkflowSpec RunSpec.

Variable config : Settings.Config.
Variable gateway : LLM.Gateway.

Lemma keys_present_step n s lm s' lm' :
  keys_present n s lm ->
  node_effect gateway n s lm s' lm' ->
  match successor config n s' with
  | Some n' => keys_present n' s' lm'
  | None => True
  end.
Proof.
  intros (D & S & A & Sol) Eff.
  destruct n; cbn [node_effect successor] in *.
  - destruct Eff as (resp & _ & -> & _). repeat split; try assumption. discriminate.
  - destruct Eff as (a & resp & Ha & -> & _).
    repeat split; try assumption.
    cbn. destruct (choose_specialist_registered (LLM.content a)
                     (Py.get_or (service_type (disruption s)) "")) as [ag ->].
    discriminate.
  - destruct Eff as (agent & d & st & msg & _ & -> & _).
    repeat split; try assumption; apply A.
  - destruct Eff as [(_ & -> & _)|(earlier & latest & v & _ & _ & -> & _)];
      destruct (_should_escalate config _); cbn;
      repeat split; try assumption; try apply A; discriminate.
  - destruct Eff as (d & st & msg & _ & _ & So & -> & _).
    repeat split; try assumption; try apply A;
      try (cbn; destruct (solution (final_solution s)); [discriminate|contradiction]).
  - exact I.
  - exact I.
Qed.

Lemma keys_present_no_fault n s lm e :
  keys_present n s lm -> node_fault n s e -> False.
Proof.
  intros (D & S & A & Sol) F.
  destruct n; cbn [node_fault solution_on_entry] in *; try contradiction.
  - destruct F as [N _]. contradiction.
  - destruct A as [_ Ag].
    destruct F as [[N _]|[(_ & N & _)|(_ & _ & N & _)]]; contradiction.
  - destruct F as (_ & N & _). contradiction.
  - destruct F as [[N _]|[(_ & N & _)|(_ & _ & N & _)]]; contradiction.
Qed.

(** The first two nodes always return; they make one call each and
    leave the report's own keys as they were. *)
Lemma first_two_nodes recursion_limit steps report lm :
  exists s a,
    run config gateway recursion_limit (S (S steps)) N_disruption_analysis
        (initial_state report) lm
    = run config gateway recursion_limit steps N_execute_specialist_task s
          (called "orchestrator" "medium" (called "orchestrator" "medium" lm))
    /\ agents (current_agent s) = Some a
    /\ description (disruption s) = description report
    /\ service_type (disruption s) = service_type report
    /\ current_agent s
       = choose_specialist
           (LLM.content (fst (LLM.generate_response gateway
                                ModelCapability.REASONING lm)))
           (Py.get_or (service_type report) "")
    /\ agent_responses s = []
    /\ escalation_needed s = false
    /\ disruption s = annexed gateway report lm.
Proof.
  pose proof (analyze_disruption_eq gateway (initial_state report) lm) as A.
  cbn zeta in A.
  set (acall := LLM.generate_response gateway ModelCapability.REASONING lm) in *.
  set (s1 := set_disruption _ _) in A.
  pose proof (route_to_specialist_eq gateway s1 (snd acall) (fst acall) eq_refl) as Ro.
  cbn zeta in Ro.
  set (rcall := LLM.generate_response gateway ModelCapability.REASONING (snd acall)) in *.
  set (s2 := set_disruption _ _) in Ro.
  destruct (choose_specialist_registered (LLM.content (fst acall))
              (Py.get_or (service_type (disruption s1)) "")) as [a Ha].
  exists s2, a. split; [|repeat split; exact Ha].
  rewrite run_step. cbn [node]. rewrite A. cbn [successor].
  rewrite run_step. cbn [node]. rewrite Ro. reflexivity.
Qed.

(** After routing no node writes to the report. *)
Lemma report_is_step d n s lm s' lm' :
  report_is d n s lm ->
  node_effect gateway n s lm s' lm' ->
  match successor config n s' with
  | Some n' => report_is d n' s' lm'
  | None => True
  end.
Proof.
  intros R Eff.
  destruct n; cbn [report_is node_effect successor] in *; try contradiction.
  - destruct Eff as (? & ? & ? & ? & _ & -> & _). exact R.
  - destruct Eff as [(_ & -> & _)|(? & ? & ? & _ & _ & -> & _)];
      destruct (_should_escalate config _); exact R.
  - destruct Eff as (? & ? & ? & _ & _ & _ & -> & _). exact R.
  - exact I.
  - exact I.
Qed.

(** A run that raises after routing hands back the report it was
    entered with. *)
Lemma run_fault_report d recursion_limit steps n s lm e d' lm' :
  report_is d n s lm ->
  run config gateway recursion_limit steps n s lm = (inl (e, d'), lm') ->
  d' = d.
Proof.
  intros R Run.
  destruct (run_fault config gateway (report_is d) (fun _ _ => True)
              (report_is_step d) recursion_limit steps _ _ _ _ _ _ R Run)
    as (n' & s' & lm1 & R' & -> & _).
  destruct n'; cbn [report_is] in R'; first [contradiction | exact R'].
Qed.

(** ... and, when no key is missing, raises nothing but the recursion
    error. *)
Lemma run_fault_with_keys d recursion_limit steps n s lm e d' lm' :
  keys_present n s lm ->
  report_is d n s lm ->
  run config gateway recursion_limit steps n s lm = (inl (e, d'), lm') ->
  e = GraphRecursionError recursion_limit /\ d' = d.
Proof.
  intros K R Run.
  assert (Step : forall n0 s0 lm0 s1 lm1,
             keys_present n0 s0 lm0 /\ report_is d n0 s0 lm0 ->
             node_effect gateway n0 s0 lm0 s1 lm1 ->
             match successor config n0 s1 with
             | Some n1 => keys_present n1 s1 lm1 /\ report_is d n1 s1 lm1
             | None => True
             end).
  { intros n0 s0 lm0 s1 lm1 (K0 & R0) Eff.
    pose proof (keys_present_step n0 s0 lm0 s1 lm1 K0 Eff) as K1.
    pose proof (report_is_step d n0 s0 lm0 s1 lm1 R0 Eff) as R1.
    destruct (successor config n0 s1); [split; assumption|exact I]. }
  destruct (run_fault config gateway
              (fun n s lm => keys_present n s lm /\ report_is d n s lm)
              (fun _ _ => True) Step recursion_limit steps _ _ _ _ _ _
              (conj K R) Run)
    as (n' & s' & lm1 & (K' & R') & -> & F).
  split.
  - destruct F as [F|F]; [exact F|].
    destruct (keys_present_no_fault n' s' lm1 e K' F).
  - destruct n'; cbn [report_is] in R'; first [contradiction | exact R'].
Qed.

(** Each node issues at most one request, on the active model. *)
Lemma node_extends n s lm r lm' :
  node gateway n s lm = (r, lm') ->
  exists k, k <= 1 /\ extends (LLM.current_active_model lm) k lm lm'.
Proof.
  intros Run. destruct r as [e|s'].
  - apply node_raises in Run. destruct Run as [-> _].
    exists 0. split; [lia|apply extends_refl].
  - apply node_returns in Run.
    assert (One : forall agent_type level,
              exists k, k <= 1
                /\ extends (LLM.current_active_model lm) k lm
                     (called agent_type level lm)).
    { intros agent_type level. exists 1. split; [lia|].
      apply (generate_extends gateway agent_type level lm). }
    assert (Zero : exists k, k <= 1
                /\ extends (LLM.current_active_model lm) k lm lm).
    { exists 0. split; [lia|apply extends_refl]. }
    destruct n; cbn [node_effect] in Run.
    + destruct Run as (? & _ & _ & ->). apply One.
    + destruct Run as (? & ? & _ & _ & ->). apply One.
    + destruct Run as (? & ? & ? & ? & _ & _ & _ & ->). apply One.
    + destruct Run as [(_ & _ & ->)|(? & ? & ? & _ & _ & _ & ->)];
        [apply Zero|apply One].
    + destruct Run as (? & ? & ? & _ & _ & _ & _ & ->). apply One.
    + destruct Run as (_ & ->). apply Zero.
    + destruct Run as (_ & ->). apply Zero.
Qed.

Lemma run_extends recursion_limit steps : forall n s lm,
  exists k, k <= steps
    /\ extends (LLM.current_active_model lm) k lm
         (snd (run config gateway recursion_limit steps n s lm)).
Proof.
  induction steps as [|steps IH]; intros n s lm.
  - exists 0. split; [lia|apply extends_refl].
  - rewrite run_step.
    destruct (node gateway n s lm) as [[e|s1] lm1] eqn:N;
      destruct (node_extends _ _ _ _ _ N) as (k1 & K1 & E1).
    + exists k1. split; [lia|exact E1].
    + destruct (successor config n s1) as [n'|].
      * destruct (IH n' s1 lm1) as (k2 & K2 & E2).
        replace (LLM.current_active_model lm1)
          with (LLM.current_active_model lm) in E2 by (symmetry; apply E1).
        exists (k1 + k2). split; [lia|].
        eapply extends_trans; eassumption.
      * exists k1. split; [lia|exact E1].
Qed.

(** A run's requests, counted. *)
Lemma run_issues_bound report lm :
  exists k, k <= 50
    /\ calls (snd (process_disruption config gateway report lm)) = calls lm + k.
Proof.
  unfold process_disruption, ainvoke, St.bind, St.ret.
  destruct (run_extends 50 50 entry_point (initial_state report) lm)
    as (k & K & _ & issued & C & L & _).
  destruct (run config gateway 50 50 entry_point (initial_state report) lm)
    as [r lm'].
  cbn [snd] in *. exists k. split; [exact K|].
  unfold calls. rewrite C, length_app, L. reflexivity.
Qed.

End RunFaults.

(** X1. [process_disruption] ends in a [KeyError] exactly for a report
    that lacks ["description"] or ["service_type"]: the error is raised
    by [execute_specialist_task], after the two calls of analysis and
    routing, and names the first absent key. With both keys present no
    subscript fails, and the only fault left is the recursion limit.
    The error record carries the caller's report as the two nodes
    have left it, the analysis and the briefing attached. *)
Theorem key_errors_are_missing_keys
        (config : Settings.Config) (gateway : LLM.Gateway)
        (report : Workflow.Disruption) (lm : LLM.LMStudioManager) :
  let out := Workflow.process_disruption config gateway report lm in
  let left := RunSpec.annexed gateway report lm in
  (Workflow.description report = None ->
     fst out = Workflow.ErrorResult
                 (Workflow.error_state left (Workflow.KeyError "description"))
     /\ RunSpec.calls (snd out) = RunSpec.calls lm + 2)
  /\ (Workflow.description report <> None ->
      Workflow.service_type report = None ->
      fst out = Workflow.ErrorResult
                  (Workflow.error_state left (Workflow.KeyError "service_type"))
      /\ RunSpec.calls (snd out) = RunSpec.calls lm + 2)
  /\ (Workflow.description report <> None ->
      Workflow.service_type report <> None ->
      (exists final_state, fst out = Workflow.FinalState final_state)
      \/ fst out = Workflow.ErrorResult
                     (Workflow.error_state left
                        (Workflow.GraphRecursionError 50))).
Proof.
  cbn zeta.
  unfold Workflow.process_disruption, Workflow.ainvoke, St.bind, St.ret,
         Workflow.entry_point.
  destruct (first_two_nodes config gateway 50 48 report lm)
    as (s & a & Run & Ag & D & S & _ & _ & _ & Rep).
  assert (Two : RunSpec.calls
                  (RunSpec.called "orchestrator" "medium"
                     (RunSpec.called "orchestrator" "medium" lm))
                = RunSpec.calls lm + 2).
  { unfold RunSpec.calls, RunSpec.called. cbn [LLM.gateway_calls].
    rewrite !length_app. cbn. lia. }
  rewrite Run.
  split; [|split].
  - intros N. rewrite run_step. cbn [Workflow.node].
    unfold Workflow.execute_specialist_task. rewrite Ag, D, N.
    cbn [St.ret fst snd]. rewrite Rep. split; [reflexivity|exact Two].
  - intros Y N. rewrite run_step. cbn [Workflow.node].
    unfold Workflow.execute_specialist_task. rewrite Ag, D, S, N.
    destruct (Workflow.description report); [|contradiction].
    cbn [St.ret fst snd]. rewrite Rep. split; [reflexivity|exact Two].
  - intros YD YS.
    destruct (Workflow.run config gateway 50 48
                Workflow.N_execute_specialist_task s _)
      as [[[e d]|final] lm'] eqn:R;
      cbn [fst]; [right|left; eexists; reflexivity].
    assert (K : RunSpec.keys_present Workflow.N_execute_specialist_task s
                  (RunSpec.called "orchestrator" "medium"
                     (RunSpec.called "orchestrator" "medium" lm))).
    { split; [rewrite D; exact YD|]. split; [rewrite S; exact YS|].
      split; [|exact I]. split; [rewrite Rep; discriminate|].
      rewrite Ag. discriminate. }
    destruct (run_fault_with_keys config gateway
                (RunSpec.annexed gateway report lm) 50 48 _ _ _ _ _ _ K Rep R)
      as (-> & ->).
    reflexivity.
Qed.

(** The report without description faults on that key, two calls in. *)
Lemma key_errors_are_missing_keys_witness :
  let out := Workflow.process_disruption Settings.config Scenarios.terse
               Scenarios.no_description LLM.init in
  fst out = Workflow.ErrorResult
              (Workflow.error_state
                 (RunSpec.annexed Scenarios.terse Scenarios.no_description
                    LLM.init)
                 (Workflow.KeyError "description"))
  /\ RunSpec.calls (snd out) = RunSpec.calls LLM.init + 2.
Proof.
  exact (proj1 (key_errors_are_missing_keys Settings.config Scenarios.terse
                  Scenarios.no_description LLM.init) eq_refl).
Defined.

(** X2. Whatever the backend answers and however the run ends, one
    call of [process_disruption] issues at most 50 gateway requests (one
    per node at most), every one of them on [current_active_model],
    which the run leaves unchanged; the requests made before the run
    stay in the history. *)
Theorem run_issues_at_most_fifty_requests
        (config : Settings.Config) (gateway : LLM.Gateway)
        (report : Workflow.Disruption) (lm : LLM.LMStudioManager) :
  let lm' := snd (Workflow.process_disruption config gateway report lm) in
  LLM.current_active_model lm' = LLM.current_active_model lm
  /\ exists issued,
       LLM.gateway_calls lm' = LLM.gateway_calls lm ++ issued
       /\ List.length issued <= 50
       /\ Forall (fun request =>
                    LLM.req_model request = LLM.current_active_model lm) issued.
Proof.
  cbn zeta.
  unfold Workflow.process_disruption, Workflow.ainvoke, St.bind, St.ret.
  destruct (run_extends config gateway 50 50 Workflow.entry_point
              (Workflow.initial_state report) lm) as (k & K & Same & issued & C & L & F).
  destruct (Workflow.run config gateway 50 50 Workflow.entry_point
              (Workflow.initial_state report) lm) as [r lm'].
  cbn [snd] in *. split; [exact Same|].
  exists issued. repeat split; [exact C|lia|exact F].
Qed.

Section Outcomes.

Import Workflow WorkflowSpec RunSpec OutcomeSpec.

Variable config : Settings.Config.
Variable gateway : LLM.Gateway.

Lemma process_final report lm s :
  fst (process_disruption config gateway report lm) = FinalState s ->
  run config gateway 50 50 N_disruption_analysis (initial_state report) lm
  = (inr s, snd (process_disruption config gateway report lm)).
Proof.
  unfold process_disruption, ainvoke, entry_point, St.bind, St.ret.
  destruct (run config gateway 50 50 N_disruption_analysis
              (initial_state report) lm) as [[[e d]|s'] lm']; cbn [fst snd].
  - discriminate.
  - now intros [= ->].
Qed.

Lemma outcome_step n s lm s' lm' :
  outcome_pending config n s lm ->
  node_effect gateway n s lm s' lm' ->
  match successor config n s' with
  | Some n' => outcome_pending config n' s' lm'
  | None => escalated config s' \/ communicated config s'
  end.
Proof.
  intros (E & Inv) Eff. destruct n; cbn [node_effect successor] in *.
  - destruct Eff as (? & _ & -> & _). split; [exact E|exact I].
  - destruct Eff as (? & ? & _ & -> & _). split; [exact E|exact I].
  - destruct Eff as (? & ? & ? & ? & _ & -> & _). split; [exact E|exact I].
  - assert (C : confidence_score s' = confidence_score s
                /\ escalation_needed s' = false
                /\ customer_communication (final_solution s') = None
                /\ escalation_context (final_solution s') = None).
    { destruct Eff as [(_ & -> & _)|(? & ? & ? & _ & _ & -> & _)];
        repeat split; assumption. }
    destruct C as (C & E' & NoMsg & NoCtx).
    unfold _should_escalate. rewrite C.
    destruct (PrimFloat.ltb (confidence_score s)
                (Settings.HUMAN_ESCALATION_THRESHOLD config)) eqn:Lo.
    + unfold outcome_pending. cbn [conditional_edges]. rewrite C.
      repeat split; assumption.
    + destruct (PrimFloat.ltb (confidence_score s)
                  (Settings.CONFIDENCE_THRESHOLD config)) eqn:Hi.
      * split; [exact E'|exact I].
      * unfold outcome_pending. cbn [conditional_edges]. rewrite C.
        repeat split; assumption.
  - destruct Inv as (Lo & Hi & NoCtx).
    destruct Eff as (? & ? & ? & _ & _ & _ & -> & _).
    split; [exact E|]. repeat split; try assumption. discriminate.
  - destruct Inv as (Lo & NoMsg). destruct Eff as (-> & _).
    left. repeat split; try assumption. discriminate.
  - destruct Eff as (-> & _). right. exact Inv.
Qed.

Lemma app_last_eq {A : Type} (l l' : list A) (x y : A) :
  l ++ [x] = l' ++ [y] -> x = y.
Proof. intros H. now apply app_inj_tail in H. Qed.

Lemma attempts_step n s lm s' lm' :
  attempts_pending n s lm ->
  node_effect gateway n s lm s' lm' ->
  match successor config n s' with
  | Some n' => attempts_pending n' s' lm'
  | None => attempts_on_record s' lm'
  end.
Proof.
  intros (NoCtx & Inv) Eff. destruct n; cbn [node_effect successor] in *.
  - destruct Eff as (? & _ & -> & _). split; assumption.
  - destruct Eff as (a & ? & A & -> & _). split; [exact NoCtx|].
    split.
    + exists a. split; [exact A|reflexivity].
    + unfold by_current_agent. cbn. rewrite Inv. constructor.
  - destruct Inv as (Ro & By).
    destruct Eff as (? & ? & ? & msg & _ & -> & _).
    split; [exact NoCtx|]. split; [exact Ro|]. split.
    + unfold by_current_agent in *. cbn.
      apply Forall_app. split; [exact By|]. repeat constructor.
    + eexists. eexists. split; reflexivity.
  - destruct Inv as (Ro & By & earlier & latest & L & C).
    assert (V : routed s' /\ by_current_agent s' /\ latest_validated s'
                /\ escalation_context (final_solution s') = None).
    { destruct Eff as [(N & _ & _)|(earlier' & latest' & v & L' & _ & -> & _)].
      - rewrite L in N. destruct earlier; discriminate.
      - rewrite L in L'. apply app_last_eq in L'. subst latest'.
        split; [exact Ro|]. split; [exact By|]. split; [|reflexivity].
        exists earlier, latest. cbn. rewrite C. repeat split; assumption. }
    destruct V as (Ro' & By' & V & NoCtx').
    destruct (_should_escalate config s'); cbn; repeat split; assumption.
  - destruct Inv as (Ro & By & V).
    destruct Eff as (? & ? & ? & _ & _ & _ & -> & _).
    split; [exact NoCtx|]. repeat split; assumption.
  - destruct Inv as (Ro & By & V). destruct Eff as (-> & _).
    split; [exact Ro|]. split; [exact By|]. split; [exact V|].
    intros ctx [= <-]. repeat split.
  - destruct Inv as (Ro & By & V). destruct Eff as (-> & _).
    split; [exact Ro|]. split; [exact By|]. split; [exact V|].
    intros ctx Ctx. rewrite NoCtx in Ctx. discriminate.
Qed.

Lemma calls_called agent_type level lm :
  calls (called agent_type level lm) = calls lm + 1.
Proof.
  unfold calls, called. cbn [LLM.gateway_calls]. rewrite length_app. reflexivity.
Qed.

Lemma calls_step lm0 n s lm s' lm' :
  calls_pending lm0 n s lm ->
  node_effect gateway n s lm s' lm' ->
  match successor config n s' with
  | Some n' => calls_pending lm0 n' s' lm'
  | None => calls_on_record lm0 s' lm'
  end.
Proof.
  unfold calls_pending, calls_on_record. cbn zeta.
  intros (E & Inv) Eff. destruct n; cbn [node_effect successor] in *.
  - destruct Eff as (? & _ & -> & ->). rewrite calls_called.
    split; [exact E|]. cbn. split; [apply Inv|]. destruct Inv as [_ ->]. lia.
  - destruct Eff as (? & ? & _ & -> & ->). rewrite calls_called.
    split; [exact E|]. cbn. destruct Inv as [-> ->]. lia.
  - destruct Eff as (? & ? & ? & ? & _ & -> & _ & ->). rewrite calls_called.
    split; [exact E|]. cbn. rewrite length_app. cbn. lia.
  - destruct Inv as (Pos & C).
    destruct Eff as [(N & _ & _)|(? & ? & ? & _ & _ & -> & ->)].
    + rewrite N in Pos. cbn in Pos. lia.
    + rewrite calls_called.
      destruct (_should_escalate config _); cbn; (split; [exact E|]); lia.
  - destruct Inv as (Pos & C).
    destruct Eff as (? & ? & ? & _ & _ & _ & -> & ->). rewrite calls_called.
    split; [exact E|]. cbn. lia.
  - destruct Inv as (Pos & C). destruct Eff as (-> & ->). cbn. lia.
  - destruct Inv as (Pos & C). destruct Eff as (-> & ->). rewrite E. lia.
Qed.

Lemma log_step n s lm s' lm' :
  log_pending n s lm ->
  node_effect gateway n s lm s' lm' ->
  match successor config n s' with
  | Some n' => log_pending n' s' lm'
  | None => analysis_logged s'
  end.
Proof.
  intros Inv Eff. destruct n; cbn [node_effect successor log_pending] in *.
  - destruct Eff as (resp & _ & -> & _). exists resp. cbn. rewrite Inv.
    split; reflexivity.
  - destruct Eff as (? & ? & _ & -> & _). exact Inv.
  - destruct Eff as (? & ? & ? & ? & _ & -> & _). exact Inv.
  - assert (L : analysis_logged s').
    { destruct Eff as [(_ & -> & _)|(? & ? & ? & _ & _ & -> & _)]; exact Inv. }
    destruct (_should_escalate config s'); exact L.
  - destruct Eff as (? & ? & ? & _ & _ & _ & -> & _). exact Inv.
  - destruct Eff as (-> & _). exact Inv.
  - destruct Eff as (-> & _). exact Inv.
Qed.

End Outcomes.

(** X3. A run that ends normally ended in one of two ways: escalated
    (flag set, escalation context attached, no customer message, last
    score below the escalation threshold) or communicated (flag clear,
    customer message attached, no escalation context, last score below
    neither threshold). *)
Theorem completed_run_escalated_or_communicated
        (config : Settings.Config) (gateway : LLM.Gateway)
        (report : Workflow.Disruption) (lm : LLM.LMStudioManager)
        (s : Workflow.LogisticsState) :
  fst (Workflow.process_disruption config gateway report lm)
    = Workflow.FinalState s ->
  OutcomeSpec.escalated config s \/ OutcomeSpec.communicated config s.
Proof.
  intros Fin. apply process_final in Fin.
  refine (run_invariant config gateway (OutcomeSpec.outcome_pending config)
            (fun s _ => OutcomeSpec.escalated config s
                        \/ OutcomeSpec.communicated config s)
            (outcome_step config gateway) 50 50 _ _ _ _ _ _ Fin).
  split; [reflexivity|exact I].
Qed.

Lemma completed_run_escalated_or_communicated_witness :
  OutcomeSpec.escalated Settings.config
    (Runs.state_of Runs.escalated_run)
  \/ OutcomeSpec.communicated Settings.config
       (Runs.state_of Runs.escalated_run).
Proof.
  apply (completed_run_escalated_or_communicated Settings.config
           Scenarios.offline Scenarios.traffic_jam LLM.init).
  vm_compute. reflexivity.
Defined.

(** X4. In the state of a run that ended normally there is at least
    one attempt; the latest one supplies [confidence_score], the
    confidence and the solution of [final_solution]; every attempt was
    made by [current_agent], the specialist that routing picks from the
    analysis annex and the service type; and an escalation context, if
    attached, lists all attempts, their scores and that solution. *)
Theorem completed_run_records_attempts
        (config : Settings.Config) (gateway : LLM.Gateway)
        (report : Workflow.Disruption) (lm : LLM.LMStudioManager)
        (s : Workflow.LogisticsState) :
  fst (Workflow.process_disruption config gateway report lm)
    = Workflow.FinalState s ->
  OutcomeSpec.routed s
  /\ OutcomeSpec.by_current_agent s
  /\ OutcomeSpec.latest_validated s
  /\ OutcomeSpec.context_lists_attempts s.
Proof.
  intros Fin. apply process_final in Fin.
  refine (run_invariant config gateway OutcomeSpec.attempts_pending
            OutcomeSpec.attempts_on_record
            (attempts_step config gateway) 50 50 _ _ _ _ _ _ Fin).
  split; reflexivity.
Qed.

Lemma completed_run_records_attempts_witness :
  OutcomeSpec.latest_validated (Runs.state_of Runs.communicated_run).
Proof.
  apply (completed_run_records_attempts Settings.config
           Runs.helpful Scenarios.traffic_jam LLM.init).
  vm_compute. reflexivity.
Defined.

(** X5. A run that ended normally after [k] attempts of the specialist
    has issued exactly 2 + 2k gateway requests if it escalated and
    3 + 2k if it communicated; [k] is at least 1 and at most 24. *)
Theorem completed_run_request_count
        (config : Settings.Config) (gateway : LLM.Gateway)
        (report : Workflow.Disruption) (lm : LLM.LMStudioManager)
        (s : Workflow.LogisticsState) :
  fst (Workflow.process_disruption config gateway report lm)
    = Workflow.FinalState s ->
  let attempts := List.length (Workflow.agent_responses s) in
  1 <= attempts <= 24
  /\ RunSpec.calls (snd (Workflow.process_disruption config gateway report lm))
     = RunSpec.calls lm + 2 + 2 * attempts
       + (if Workflow.escalation_needed s then 0 else 1).
Proof.
  intros Fin. cbn zeta.
  destruct (run_issues_bound config gateway report lm) as (k & K & E).
  apply process_final in Fin.
  assert (Start : OutcomeSpec.calls_pending lm Workflow.N_disruption_analysis
                    (Workflow.initial_state report) lm)
    by (split; [reflexivity|split; reflexivity]).
  pose proof (run_invariant config gateway (OutcomeSpec.calls_pending lm)
                (OutcomeSpec.calls_on_record lm)
                (calls_step config gateway lm) 50 50 _ _ _ _ _
                Start Fin) as (Pos & C).
  split; [|exact C].
  rewrite E in C. destruct (Workflow.escalation_needed s); lia.
Qed.

Lemma completed_run_request_count_witness :
  RunSpec.calls (snd (Workflow.process_disruption Settings.config
                        Runs.helpful Scenarios.traffic_jam LLM.init))
  = RunSpec.calls LLM.init + 2
    + 2 * List.length (Workflow.agent_responses
                         (Runs.state_of Runs.communicated_run))
    + (if Workflow.escalation_needed
            (Runs.state_of Runs.communicated_run)
       then 0 else 1).
Proof.
  assert (Fin : fst (Workflow.process_disruption Settings.config
                       Runs.helpful Scenarios.traffic_jam LLM.init)
                = Workflow.FinalState
                    (Runs.state_of Runs.communicated_run))
    by (vm_compute; reflexivity).
  exact (proj2 (completed_run_request_count Settings.config
                  Runs.helpful Scenarios.traffic_jam LLM.init _ Fin)).
Defined.

(** X6. The conversation log of a run that ended normally holds exactly
    one entry, written by the analysis step, whose output is the
    analysis annex of the disruption; no later node appends to it. *)
Theorem completed_run_logs_analysis_only
        (config : Settings.Config) (gateway : LLM.Gateway)
        (report : Workflow.Disruption) (lm : LLM.LMStudioManager)
        (s : Workflow.LogisticsState) :
  fst (Workflow.process_disruption config gateway report lm)
    = Workflow.FinalState s ->
  List.length (Workflow.conversation_history s) = 1
  /\ OutcomeSpec.analysis_logged s.
Proof.
  intros Fin. apply process_final in Fin.
  assert (L : OutcomeSpec.analysis_logged s).
  { refine (run_invariant config gateway OutcomeSpec.log_pending
              (fun s _ => OutcomeSpec.analysis_logged s)
              (log_step config gateway) 50 50 _ _ _ _ _ _ Fin).
    reflexivity. }
  split; [|exact L]. destruct L as (resp & -> & _). reflexivity.
Qed.

Lemma completed_run_logs_analysis_only_witness :
  List.length (Workflow.conversation_history
                 (Runs.state_of Runs.communicated_run)) = 1.
Proof.
  apply (completed_run_logs_analysis_only Settings.config
           Runs.helpful Scenarios.traffic_jam LLM.init).
  vm_compute. reflexivity.
Defined.

Section Settling.

Import Workflow WorkflowSpec RunSpec DecisionSpec.

Variable config : Settings.Config.
Variable gateway : LLM.Gateway.

Lemma handle_customer_communication_eq s lm d st sol :
  description (disruption s) = Some d ->
  service_type (disruption s) = Some st ->
  solution (final_solution s) = Some sol ->
  handle_customer_communication gateway s lm
  = let call := Agents.process_task gateway Agents.CustomerServiceAgent
                  (communication_task (disruption s) d st) lm in
    (inr (set_final_solution
            (set_customer_communication (to_dict (fst call)) (final_solution s))
            s),
     snd call).
Proof.
  intros D S So. unfold handle_customer_communication, St.bind, St.ret.
  rewrite D, S, So. cbn zeta.
  destruct (Agents.process_task _ _ _ _). reflexivity.
Qed.

Lemma process_task_calls a task lm :
  calls (snd (Agents.process_task gateway a task lm)) = calls lm + 1.
Proof.
  rewrite process_task_state, generate_state. unfold calls.
  cbn [LLM.gateway_calls]. rewrite length_app. reflexivity.
Qed.

Lemma generate_response_calls capability lm :
  calls (snd (LLM.generate_response gateway capability lm)) = calls lm + 1.
Proof.
  unfold LLM.generate_response. rewrite generate_state. unfold calls.
  cbn [LLM.gateway_calls]. rewrite length_app. reflexivity.
Qed.

(** One attempt whose score is outside the retry band ends the run. *)
Lemma settling_round recursion_limit steps a d st s lm :
  ready a d st s ->
  escalation_needed s = false ->
  let c := reply_confidence (Agents.gateway_name a) (gateway (calls lm)) in
  settles config c ->
  exists s' lm',
    run config gateway recursion_limit (S (S (S (S steps))))
        N_execute_specialist_task s lm = (inr s', lm')
    /\ List.length (agent_responses s') = S (List.length (agent_responses s))
    /\ confidence_score s' = c
    /\ escalation_needed s'
       = PrimFloat.ltb c (Settings.HUMAN_ESCALATION_THRESHOLD config)
    /\ calls lm'
       = calls lm
         + (if PrimFloat.ltb c (Settings.HUMAN_ESCALATION_THRESHOLD config)
            then 2 else 3)
    /\ (forall m,
          customer_communication (final_solution s') = Some m ->
          confidence m
          = reply_confidence "customer_service" (gateway (calls lm + 2))).
Proof.
  intros R Esc c Out.
  pose proof (execute_specialist_task_eq gateway s lm a d st R) as E.
  cbn zeta in E.
  set (call := Agents.process_task gateway a (specialist_task (disruption s) d st) lm) in *.
  set (s1 := record_response _ _ s) in E.
  assert (R1 : ready a d st s1) by exact R.
  assert (C1 : confidence_score s1 = c).
  { unfold s1, call. cbn [record_response confidence_score].
    apply process_task_confidence. }
  pose proof (validate_solution_eq gateway s1 (snd call) d (agent_responses s) _
                (proj1 (proj2 R1)) eq_refl) as V.
  cbn zeta in V.
  set (vcall := LLM.generate_response gateway ModelCapability.REASONING (snd call)) in *.
  set (s2 := set_final_solution _ s1) in V.
  assert (L2 : calls (snd vcall) = calls lm + 2).
  { unfold vcall, call. rewrite generate_response_calls, process_task_calls. lia. }
  destruct (PrimFloat.ltb c (Settings.HUMAN_ESCALATION_THRESHOLD config)) eqn:Low.
  - assert (Next : successor config N_validate_solution s2 = Some N_escalate_to_human).
    { cbn [successor]. unfold _should_escalate.
      change (confidence_score s2) with (confidence_score s1).
      rewrite C1, Low. reflexivity. }
    eexists. eexists. split.
    + rewrite run_step. cbn [node]. rewrite E. cbn [successor].
      rewrite run_step. cbn [node]. rewrite V. rewrite Next.
      rewrite run_step. cbn [node]. unfold escalate_to_human, St.ret.
      cbn [successor]. reflexivity.
    + cbn. rewrite length_app. cbn.
      split; [lia|]. split; [exact C1|]. split; [reflexivity|].
      split; [exact L2|]. discriminate.
  - destruct Out as [Out|High]; [rewrite Out in Low; discriminate|].
    assert (Next : successor config N_validate_solution s2
                   = Some N_customer_communication).
    { cbn [successor]. unfold _should_escalate.
      change (confidence_score s2) with (confidence_score s1).
      rewrite C1, Low, High. reflexivity. }
    pose proof (handle_customer_communication_eq s2 (snd vcall) d st _
                  (proj1 (proj2 R1)) (proj2 (proj2 R1)) eq_refl) as H.
    cbn zeta in H.
    set (ccall := Agents.process_task gateway Agents.CustomerServiceAgent _ _) in H.
    eexists. eexists. split.
    + rewrite run_step. cbn [node]. rewrite E. cbn [successor].
      rewrite run_step. cbn [node]. rewrite V. rewrite Next.
      rewrite run_step. cbn [node]. rewrite H. cbn [successor].
      rewrite run_step. cbn [node]. unfold finalize_solution, St.ret.
      cbn [successor]. reflexivity.
    + split; [cbn; rewrite length_app; cbn; lia|].
      split; [exact C1|]. split; [exact Esc|].
      split.
      * unfold ccall. rewrite process_task_calls, L2. lia.
      * assert (Cm : Agents.confidence (fst ccall)
                     = reply_confidence "customer_service"
                         (gateway (calls lm + 2))).
        { unfold ccall. rewrite process_task_confidence.
          change (List.length (LLM.gateway_calls (snd vcall)))
            with (calls (snd vcall)).
          rewrite L2. reflexivity. }
        intros m [= <-]. exact Cm.
Qed.

(** The report and the specialist in charge, node by node. *)
Lemma report_step report lm0 n s lm s' lm' :
  report_pending gateway report lm0 n s lm ->
  node_effect gateway n s lm s' lm' ->
  match successor config n s' with
  | Some n' => report_pending gateway report lm0 n' s' lm'
  | None => report_on_record gateway report lm0 s' lm'
  end.
Proof.
  unfold report_pending, report_on_record. cbn zeta.
  intros Inv Eff. destruct n; cbn [node_effect successor] in *.
  - destruct Inv as (-> & D). destruct Eff as (? & -> & -> & _).
    cbn. rewrite D. reflexivity.
  - destruct Eff as (a & b & A & -> & _). rewrite Inv in A.
    injection A as <-. cbn. rewrite Inv. cbn.
    split; [eexists; reflexivity|reflexivity].
  - destruct Eff as (? & ? & ? & ? & _ & -> & _). exact Inv.
  - destruct Eff as [(_ & -> & _)|(? & ? & ? & _ & _ & -> & _)];
      destruct (_should_escalate config _); exact Inv.
  - destruct Eff as (? & ? & ? & _ & _ & _ & -> & _). exact Inv.
  - destruct Eff as (-> & _). exact Inv.
  - destruct Eff as (-> & _). exact Inv.
Qed.

End Settling.

(** With the orchestrator's fallback text as the analysis, routing
    goes by the service type alone. *)
Lemma fallback_routes_by_service_type (st : string) :
  Workflow.choose_specialist (LLM.fallback_responses "orchestrator") st
  = DecisionSpec.by_service_type st.
Proof.
  unfold Workflow.choose_specialist, DecisionSpec.by_service_type,
         WorkflowSpec.is_specialist, Workflow.agents.
  replace (Py.contains "food" (Py.lower (LLM.fallback_responses "orchestrator")))
    with false by (vm_compute; reflexivity).
  replace (Py.contains "restaurant" (Py.lower (LLM.fallback_responses "orchestrator")))
    with false by (vm_compute; reflexivity).
  replace (Py.contains "package" (Py.lower (LLM.fallback_responses "orchestrator")))
    with false by (vm_compute; reflexivity).
  replace (Py.contains "express" (Py.lower (LLM.fallback_responses "orchestrator")))
    with false by (vm_compute; reflexivity).
  cbn [orb].
  destruct (st =? "grabfood") eqn:F; [apply String.eqb_eq in F; now subst|].
  destruct (st =? "grabexpress") eqn:E; [apply String.eqb_eq in E; now subst|].
  destruct (st =? "customer_service") eqn:C;
    [apply String.eqb_eq in C; now subst|reflexivity].
Qed.

(** X7. Under the default thresholds the branch taken after validation
    is read off three features of the specialist's answer: a hedged
    answer is accepted only if it is on topic and longer than 100
    characters, and is escalated if it is off topic and shorter than 50;
    an answer without hedging is accepted unless it is both off topic
    and shorter than 50; every other answer is retried. *)
Theorem validation_decision_from_text
        (s : Workflow.LogisticsState) (content agent_type : string) :
  Workflow.confidence_score s = LLM._calculate_confidence content agent_type ->
  Workflow._should_escalate Settings.config s
  = DecisionSpec.text_decision content agent_type.
Proof.
  intros C. unfold Workflow._should_escalate. cbn zeta. rewrite C.
  unfold LLM._calculate_confidence, LLM.length_step, LLM.quality_step,
         LLM.uncertainty_step, DecisionSpec.text_decision, DecisionSpec.long,
         DecisionSpec.short, DecisionSpec.on_topic, DecisionSpec.hedged.
  cbn zeta.
  destruct (100 <? Py.len content)%nat eqn:L;
    destruct (Py.len content <? 50)%nat eqn:Sh;
    try (apply Nat.ltb_lt in L; apply Nat.ltb_lt in Sh; lia);
    destruct (Py.any_in (LLM.quality_indicators agent_type) (Py.lower content));
    destruct (Py.any_in LLM.uncertainty_words (Py.lower content));
    vm_compute; reflexivity.
Qed.

Lemma validation_decision_from_text_witness :
  Workflow._should_escalate Settings.config
    (Runs.state_of Runs.communicated_run)
  = DecisionSpec.text_decision
      "We will coordinate the delivery with the restaurant and manage it."
      "grabfood".
Proof.
  apply validation_decision_from_text. vm_compute. reflexivity.
Defined.

(** X8. When the report has its description and service type and the
    first attempt of the routed specialist scores outside the retry
    band, the run ends normally after that one attempt: escalated after
    4 gateway requests if the score is below the escalation threshold,
    otherwise communicated after 5, the fifth being the customer-service
    call, whose own confidence is recorded but never checked. *)
Theorem first_answer_settles
        (config : Settings.Config) (gateway : LLM.Gateway)
        (report : Workflow.Disruption) (lm : LLM.LMStudioManager)
        (d st : string) :
  Workflow.description report = Some d ->
  Workflow.service_type report = Some st ->
  let c := DecisionSpec.first_score gateway report lm in
  let low := PrimFloat.ltb c (Settings.HUMAN_ESCALATION_THRESHOLD config) in
  DecisionSpec.settles config c ->
  exists s,
    Workflow.process_disruption config gateway report lm
    = (Workflow.FinalState s,
       snd (Workflow.process_disruption config gateway report lm))
    /\ List.length (Workflow.agent_responses s) = 1
    /\ Workflow.confidence_score s = c
    /\ Workflow.escalation_needed s = low
    /\ RunSpec.calls (snd (Workflow.process_disruption config gateway report lm))
       = RunSpec.calls lm + (if low then 4 else 5)
    /\ (forall m,
          Workflow.customer_communication (Workflow.final_solution s) = Some m ->
          Workflow.confidence m
          = WorkflowSpec.reply_confidence "customer_service"
              (gateway (RunSpec.calls lm + 4))).
Proof.
  intros D S c low Out.
  unfold Workflow.process_disruption, Workflow.ainvoke, St.bind, St.ret,
         Workflow.entry_point.
  destruct (first_two_nodes config gateway 50 48 report lm)
    as (s0 & a & Run & A & D0 & S0 & Ro & Em & E0 & _).
  rewrite Run.
  assert (R : WorkflowSpec.ready a d st s0)
    by (split; [exact A|split; congruence]).
  set (lm2 := RunSpec.called "orchestrator" "medium"
                (RunSpec.called "orchestrator" "medium" lm)) in *.
  assert (L2 : RunSpec.calls lm2 = RunSpec.calls lm + 2).
  { unfold lm2, RunSpec.calls, RunSpec.called. cbn [LLM.gateway_calls].
    rewrite !length_app. cbn. lia. }
  assert (Cc : WorkflowSpec.reply_confidence (Agents.gateway_name a)
                 (gateway (RunSpec.calls lm2)) = c).
  { rewrite L2. unfold c, DecisionSpec.first_score, DecisionSpec.first_specialist.
    rewrite <- Ro. rewrite (agents_gateway_name _ _ A). reflexivity. }
  destruct (settling_round config gateway 50 44 a d st s0 lm2 R E0)
    as (s' & lm' & Run' & Len & Conf & Esc & Calls & Msg).
  { cbn zeta. rewrite Cc. exact Out. }
  cbn zeta in *. rewrite Cc in *.
  rewrite Run'. cbn [fst snd]. exists s'.
  split; [reflexivity|]. split; [rewrite Len, Em; reflexivity|].
  split; [exact Conf|]. split; [exact Esc|]. split.
  - rewrite Calls, L2. fold low. destruct low; lia.
  - intros m Hm. rewrite (Msg m Hm), L2.
    replace (RunSpec.calls lm + 2 + 2) with (RunSpec.calls lm + 4) by lia.
    reflexivity.
Qed.

Lemma first_answer_settles_witness :
  exists s,
    Workflow.process_disruption Settings.config Runs.helpful
      Scenarios.traffic_jam LLM.init
    = (Workflow.FinalState s,
       snd (Workflow.process_disruption Settings.config Runs.helpful
              Scenarios.traffic_jam LLM.init))
    /\ List.length (Workflow.agent_responses s) = 1.
Proof.
  destruct (first_answer_settles Settings.config Runs.helpful
              Scenarios.traffic_jam LLM.init _ _ eq_refl eq_refl)
    as (s & Run & Len & _).
  - right. vm_compute. reflexivity.
  - exists s. split; [exact Run|exact Len].
Defined.

(** X9. The state of a run that ended normally carries the caller's
    report unchanged but for two annexes, the analysis (the first
    answer of the run) and the specialist briefing, and its specialist
    is the one chosen from that first answer and the service type; when
    the first call fails, the specialist is the one the service type
    names, customer service if it names none. *)
Theorem completed_run_report_and_routing
        (config : Settings.Config) (gateway : LLM.Gateway)
        (report : Workflow.Disruption) (lm : LLM.LMStudioManager)
        (s : Workflow.LogisticsState) :
  fst (Workflow.process_disruption config gateway report lm)
    = Workflow.FinalState s ->
  let a := fst (LLM.generate_response gateway ModelCapability.REASONING lm) in
  (exists b,
     Workflow.disruption s
     = Workflow.set_specialist_briefing b (Workflow.set_analysis a report))
  /\ Workflow.current_agent s = DecisionSpec.first_specialist gateway report lm
  /\ (forall e,
        gateway (RunSpec.calls lm) = LLM.Failure e ->
        Workflow.current_agent s
        = DecisionSpec.by_service_type
            (Py.get_or (Workflow.service_type report) "")).
Proof.
  intros Fin. cbn zeta. apply process_final in Fin.
  assert (Start : DecisionSpec.report_pending gateway report lm
                    Workflow.N_disruption_analysis
                    (Workflow.initial_state report) lm)
    by (split; reflexivity).
  pose proof (run_invariant config gateway
                (DecisionSpec.report_pending gateway report lm)
                (DecisionSpec.report_on_record gateway report lm)
                (report_step config gateway report lm) 50 50 _ _ _ _ _
                Start Fin) as (B & Ro).
  split; [exact B|]. split; [exact Ro|].
  intros e Down. rewrite Ro. unfold DecisionSpec.first_specialist.
  unfold LLM.generate_response. rewrite generate_response_value.
  change (List.length (LLM.gateway_calls lm)) with (RunSpec.calls lm).
  rewrite Down. apply fallback_routes_by_service_type.
Qed.

Lemma completed_run_report_and_routing_witness :
  Workflow.current_agent (Runs.state_of Runs.escalated_run)
  = DecisionSpec.by_service_type "grabfood".
Proof.
  assert (Fin : fst (Workflow.process_disruption Settings.config
                       Scenarios.offline Scenarios.traffic_jam LLM.init)
                = Workflow.FinalState
                    (Runs.state_of Runs.escalated_run))
    by (vm_compute; reflexivity).
  exact (proj2 (proj2 (completed_run_report_and_routing Settings.config
                         Scenarios.offline Scenarios.traffic_jam LLM.init _ Fin))
           "Connection error." eq_refl).
Defined.

Section RouterFacts.

Import ModelCapability.

(** The five rules bind five different backends, so a routed list
    never names a task kind or a backend twice. *)
Lemma recommended_tasks_shape (c : ProblemContext) :
  NoDup (map model (recommended_tasks c))
  /\ NoDup (map (fun t => value (task t)) (recommended_tasks c))
  /\ List.length (recommended_tasks c) <= 5
  /\ Forall (fun t => model t = get_model_for_task (task t))
            (recommended_tasks c).
Proof.
  rewrite recommended_tasks_guards. cbn zeta.
  set (r := RouterSpec.routing_signal c).
  set (m := RouterSpec.communication_signal c).
  set (s := RouterSpec.sentiment_signal c).
  set (u := Py.mem (RouterSpec.urgency_of c) ["high"; "complex"]).
  set (e := (RouterSpec.urgency_of c =? "high")
            || Py.contains "emergency" (RouterSpec.text c)).
  clearbody r m s u e.
  destruct r, m, s, u, e; cbn;
    (split; [repeat constructor; cbn; intuition discriminate|]);
    (split; [repeat constructor; cbn; intuition discriminate|]);
    (split; [lia|repeat constructor]).
Qed.

Lemma nodup_length_NoDup (l : list string) :
  NoDup l -> nodup string_dec l = l.
Proof. apply nodup_fixed_point. Qed.

End RouterFacts.

Section SchedulerFacts.

Import SchedulerSpec.

Variable gateway : LLM.Gateway.
Variable problem_context : ModelCapability.ProblemContext.

(** On backends that are all different and none of which is in
    place, every task switches. *)
Lemma switches_fresh (models : list string) : forall loaded,
  NoDup models ->
  (forall m, loaded = Some m -> ~ In m models) ->
  switches loaded models = List.length models.
Proof.
  induction models as [|a rest IH]; intros loaded N Out; [reflexivity|].
  cbn [switches List.length]. inversion N as [|? ? Na Nr]; subst.
  rewrite (IH (Some a) Nr) by (intros m [= <-]; exact Na).
  assert (D : MultiModel.differs a loaded = true).
  { destruct loaded as [m|]; [|reflexivity]. cbn.
    apply negb_true_iff, String.eqb_neq. intros ->.
    apply (Out m eq_refl). left. reflexivity. }
  rewrite D. reflexivity.
Qed.

(** ... and so does every task of a second pass over two or more
    different backends. *)
Lemma switches_reload (models : list string) :
  NoDup models -> 2 <= List.length models ->
  switches (Some (last models "")) models = List.length models.
Proof.
  intros N L. destruct models as [|a [|b rest]]; cbn in L; try lia.
  inversion N as [|? ? Na Nr]; subst.
  change (switches (Some (last (a :: b :: rest) "")) (a :: b :: rest))
    with ((if MultiModel.differs a (Some (last (a :: b :: rest) ""))
           then 1 else 0) + switches (Some a) (b :: rest)).
  rewrite (switches_fresh (b :: rest) (Some a) Nr) by (intros m [= <-]; exact Na).
  assert (D : MultiModel.differs a (Some (last (a :: b :: rest) "")) = true).
  { cbn [MultiModel.differs]. apply negb_true_iff, String.eqb_neq. intros E.
    apply Na. rewrite E. change (last (a :: b :: rest) "") with (last (b :: rest) "").
    clear. revert b. induction rest as [|x rest IH]; intros b.
    - left. reflexivity.
    - right. apply IH. }
  rewrite D. reflexivity.
Qed.

Lemma execute_tasks_loaded tasks : forall self,
  MultiModel.current_loaded_model
    (snd (MultiModel.execute_tasks gateway problem_context tasks self))
  = loaded_after (MultiModel.current_loaded_model self)
      (map ModelCapability.model tasks).
Proof.
  induction tasks as [|t rest IH]; intros self; [reflexivity|].
  rewrite execute_tasks_cons. cbn zeta. cbn [snd].
  rewrite IH, execute_specialized_frame.
  destruct (switched_fields (ModelCapability.model t) self) as (_ & L & _).
  cbn [MultiModel.set_lm_manager MultiModel.current_loaded_model].
  rewrite L. destruct rest; reflexivity.
Qed.

Lemma execute_tasks_labels tasks : forall self,
  map labels (fst (MultiModel.execute_tasks gateway problem_context tasks self))
  = map labels_of tasks.
Proof.
  induction tasks as [|t rest IH]; intros self; [reflexivity|].
  rewrite execute_tasks_cons. cbn zeta. cbn [fst map]. rewrite IH.
  reflexivity.
Qed.

Lemma execute_tasks_models tasks : forall self,
  map MultiModel.model
      (fst (MultiModel.execute_tasks gateway problem_context tasks self))
  = map ModelCapability.model tasks.
Proof.
  induction tasks as [|t rest IH]; intros self; [reflexivity|].
  rewrite execute_tasks_cons. cbn zeta. cbn [fst map]. rewrite IH.
  reflexivity.
Qed.

Lemma execute_tasks_results (P : MultiModel.TaskResult -> Prop) :
  (forall task_name model_name priority self,
     P (fst (MultiModel._execute_specialized_task gateway task_name model_name
               priority problem_context self))) ->
  forall tasks self,
    Forall P (fst (MultiModel.execute_tasks gateway problem_context tasks self)).
Proof.
  intros One. induction tasks as [|t rest IH]; intros self; [constructor|].
  rewrite execute_tasks_cons. cbn zeta. cbn [fst].
  constructor; [apply One|apply IH].
Qed.

End SchedulerFacts.

(** The whole analysis extends the request log by one request per
    task and one for the synthesis, all on the active model. *)
Lemma analysis_extends gateway problem_context task_analysis self :
  extends (LLM.current_active_model (MultiModel.lm_manager self))
    (List.length (ModelCapability.ta_recommended_tasks task_analysis) + 1)
    (MultiModel.lm_manager self)
    (MultiModel.lm_manager
       (snd (MultiModel.execute_and_synthesize gateway problem_context
               task_analysis self))).
Proof.
  rewrite execute_and_synthesize_unfold. cbn zeta. cbn [snd].
  rewrite synthesize_frame. cbn [MultiModel.set_lm_manager MultiModel.lm_manager].
  pose proof (execute_tasks_extends gateway problem_context
                (ModelCapability.ta_recommended_tasks task_analysis) self) as Loop.
  eapply extends_trans; [exact Loop|].
  destruct Loop as (Same & _). rewrite <- Same. apply generate_extends.
Qed.

Lemma specialist_type_unlisted (task_name : string) :
  LLM.quality_indicators ("specialist_" ++ task_name) = [].
Proof. reflexivity. Qed.

(** Without a quality bonus the text score stays at or below
    0.8 + 0.05. *)
Lemma unlisted_score_modest (content agent_type : string) :
  LLM.quality_indicators agent_type = [] ->
  SchedulerSpec.modest (LLM._calculate_confidence content agent_type).
Proof.
  intros Q. unfold LLM._calculate_confidence, LLM.length_step, LLM.quality_step,
                   LLM.uncertainty_step. rewrite Q. cbn [Py.any_in existsb].
  cbn zeta.
  destruct (100 <? Py.len content)%nat;
    destruct (Py.len content <? 50)%nat;
    destruct (Py.any_in LLM.uncertainty_words (Py.lower content));
    split; vm_compute; reflexivity.
Qed.

Lemma unlisted_reply_modest (agent_type : string) (reply : LLM.Reply) :
  LLM.quality_indicators agent_type = [] ->
  SchedulerSpec.modest (WorkflowSpec.reply_confidence agent_type reply).
Proof.
  intros Q. destruct reply as [[content|]|e]; cbn [WorkflowSpec.reply_confidence];
    [apply unlisted_score_modest; exact Q| |];
    split; vm_compute; reflexivity.
Qed.

(** X10. The router never recommends a task kind twice and binds the
    recommended kinds to pairwise different backends, each the backend
    of its kind: the list of backends needed has exactly one entry per
    task, at most five, and holds the backend of every task. *)
Theorem router_one_backend_per_task (c : ModelCapability.ProblemContext) :
  let a := ModelCapability.analyze_problem_requirements c in
  NoDup (map ModelCapability.model (ModelCapability.ta_recommended_tasks a))
  /\ List.length (ModelCapability.models_needed a) = ModelCapability.total_tasks a
  /\ ModelCapability.total_tasks a <= 5
  /\ (forall m,
        In m (ModelCapability.models_needed a)
        <-> exists t, In t (ModelCapability.ta_recommended_tasks a)
                      /\ ModelCapability.model t = m)
  /\ Forall (fun t => ModelCapability.model t
                      = ModelCapability.get_model_for_task (ModelCapability.task t))
            (ModelCapability.ta_recommended_tasks a).
Proof.
  cbn zeta. unfold ModelCapability.analyze_problem_requirements.
  cbn [ModelCapability.ta_recommended_tasks ModelCapability.models_needed
       ModelCapability.total_tasks].
  destruct (recommended_tasks_shape c) as (N & _ & L & M).
  split; [exact N|]. split; [|split; [exact L|split; [|exact M]]].
  - rewrite (nodup_length_NoDup _ N). apply length_map.
  - intros m. rewrite nodup_In, in_map_iff. split.
    + intros (t & E & I). exists t. split; assumption.
    + intros (t & I & E). exists t. split; assumption.
Qed.

(** The counter and the slot after one analysis on a fresh
    orchestrator. *)
Lemma fresh_analysis_switches_count
      (gateway : LLM.Gateway) (c : ModelCapability.ProblemContext)
      (lm : LLM.LMStudioManager) :
  let out := MultiModel.execute_multi_model_analysis gateway c (MultiModel.init lm) in
  let tasks := ModelCapability.recommended_tasks c in
  MultiModel.model_switches (fst out) = List.length tasks
  /\ MultiModel.model_switch_count (snd out) = List.length tasks
  /\ MultiModel.current_loaded_model (snd out)
     = SchedulerSpec.loaded_after None (map ModelCapability.model tasks).
Proof.
  cbn zeta. unfold MultiModel.execute_multi_model_analysis.
  rewrite execute_and_synthesize_unfold. cbn zeta.
  cbn [fst snd MultiModel.model_switches]. rewrite synthesize_frame.
  cbn [MultiModel.set_lm_manager MultiModel.model_switch_count
       MultiModel.current_loaded_model].
  cbn [ModelCapability.analyze_problem_requirements
       ModelCapability.ta_recommended_tasks].
  destruct (recommended_tasks_shape c) as (N & _).
  assert (Count : MultiModel.model_switch_count
                    (snd (MultiModel.execute_tasks gateway c
                            (ModelCapability.recommended_tasks c)
                            (MultiModel.init lm)))
                  = List.length (ModelCapability.recommended_tasks c)).
  { rewrite execute_tasks_count.
    cbn [MultiModel.init MultiModel.model_switch_count
         MultiModel.current_loaded_model].
    rewrite (switches_fresh _ None N) by discriminate.
    rewrite length_map. reflexivity. }
  split; [exact Count|]. split; [exact Count|].
  apply execute_tasks_loaded.
Qed.

(** X11. An analysis run on a fresh orchestrator reports as many
    backend switches as the router recommended tasks, returns one
    result per task in the router's order, labelled with the task's
    kind, backend and tier, leaves the last task's backend loaded, and
    issues one request per task plus one for the synthesis. *)
Theorem fresh_analysis_switches_once_per_task
        (gateway : LLM.Gateway) (c : ModelCapability.ProblemContext)
        (lm : LLM.LMStudioManager) :
  let out := MultiModel.execute_multi_model_analysis gateway c (MultiModel.init lm) in
  let tasks := ModelCapability.recommended_tasks c in
  MultiModel.model_switches (fst out) = List.length tasks
  /\ map SchedulerSpec.labels (MultiModel.task_results (fst out))
     = map SchedulerSpec.labels_of tasks
  /\ MultiModel.current_loaded_model (snd out)
     = SchedulerSpec.loaded_after None (map ModelCapability.model tasks)
  /\ RunSpec.calls (MultiModel.lm_manager (snd out))
     = RunSpec.calls lm + List.length tasks + 1.
Proof.
  cbn zeta. unfold MultiModel.execute_multi_model_analysis.
  pose proof (analysis_extends gateway c
                (ModelCapability.analyze_problem_requirements c)
                (MultiModel.init lm)) as (_ & issued & Calls & Len & _).
  rewrite execute_and_synthesize_unfold in *. cbn zeta in *.
  cbn [fst snd MultiModel.model_switches MultiModel.task_results] in *.
  rewrite synthesize_frame in *.
  cbn [MultiModel.set_lm_manager MultiModel.model_switch_count
       MultiModel.current_loaded_model MultiModel.lm_manager] in *.
  cbn [ModelCapability.analyze_problem_requirements
       ModelCapability.ta_recommended_tasks] in *.
  destruct (recommended_tasks_shape c) as (N & _).
  split; [|split; [|split]].
  - rewrite execute_tasks_count. cbn [MultiModel.init MultiModel.model_switch_count
                                      MultiModel.current_loaded_model].
    rewrite (switches_fresh _ None N) by discriminate.
    rewrite length_map. reflexivity.
  - apply execute_tasks_labels.
  - apply execute_tasks_loaded.
  - unfold RunSpec.calls. rewrite Calls, length_app, Len.
    cbn [MultiModel.init MultiModel.lm_manager]. lia.
Qed.

(** X12. The switch counter is never reset: a second analysis of the
    same problem on the same orchestrator reports the first count
    again plus one switch per task when there are two tasks or more,
    and plus none when there is at most one. *)
Theorem switch_counter_accumulates
        (gateway : LLM.Gateway) (c : ModelCapability.ProblemContext)
        (lm : LLM.LMStudioManager) :
  let first := MultiModel.execute_multi_model_analysis gateway c
                 (MultiModel.init lm) in
  let second := MultiModel.execute_multi_model_analysis gateway c (snd first) in
  let n := List.length (ModelCapability.recommended_tasks c) in
  MultiModel.model_switches (fst first) = n
  /\ MultiModel.model_switches (fst second) = n + (if (n <=? 1)%nat then 0 else n).
Proof.
  cbn zeta.
  pose proof (fresh_analysis_switches_count gateway c lm)
    as (First & Count & Loaded).
  split; [exact First|].
  unfold MultiModel.execute_multi_model_analysis in *.
  set (first := MultiModel.execute_and_synthesize gateway c _ (MultiModel.init lm)) in *.
  rewrite (execute_and_synthesize_unfold gateway c _ (snd first)). cbn zeta.
  cbn [fst MultiModel.model_switches]. rewrite synthesize_frame.
  cbn [MultiModel.set_lm_manager MultiModel.model_switch_count].
  rewrite execute_tasks_count.
  cbn [ModelCapability.analyze_problem_requirements
       ModelCapability.ta_recommended_tasks].
  rewrite Loaded, Count. f_equal.
  destruct (recommended_tasks_shape c) as (N & _).
  rewrite <- (length_map ModelCapability.model).
  destruct (map ModelCapability.model (ModelCapability.recommended_tasks c))
    as [|a [|b rest]] eqn:E.
  - reflexivity.
  - cbn. rewrite String.eqb_refl. reflexivity.
  - cbn [SchedulerSpec.loaded_after]. rewrite switches_reload; [|exact N|cbn; lia].
    reflexivity.
Qed.

Lemma task_model_listed (t : ModelCapability.TaskType) :
  In (ModelCapability.get_model_for_task t) LogisticsModelManager.get_all_models.
Proof. destruct t; vm_compute; tauto. Qed.

(** X13. The gateway client's requests go out on the model its
    constructor sets, which is none of the models of [get_all_models];
    every task result of an analysis is labelled with a model of that
    catalogue. So no result names the model that produced it. *)
Theorem results_name_models_never_requested
        (gateway : LLM.Gateway) (c : ModelCapability.ProblemContext)
        (self : MultiModel.MultiModelOrchestrator) :
  LLM.current_active_model (MultiModel.lm_manager self)
  = LLM.current_active_model LLM.init ->
  let out := MultiModel.execute_multi_model_analysis gateway c self in
  exists issued,
    SchedulerSpec.issued_between (MultiModel.lm_manager self)
      (MultiModel.lm_manager (snd out)) issued
    /\ Forall (fun q => ~ In (LLM.req_model q)
                          LogisticsModelManager.get_all_models) issued
    /\ Forall (fun r => In (MultiModel.model r)
                          LogisticsModelManager.get_all_models)
              (MultiModel.task_results (fst out)).
Proof.
  intros Active. cbn zeta. unfold MultiModel.execute_multi_model_analysis.
  destruct (analysis_extends gateway c
              (ModelCapability.analyze_problem_requirements c) self)
    as (_ & issued & Calls & _ & Models).
  exists issued. split; [exact Calls|]. split.
  - rewrite Active in Models. revert Models. apply Forall_impl.
    intros q ->. vm_compute. intuition discriminate.
  - rewrite execute_and_synthesize_unfold. cbn zeta.
    cbn [fst MultiModel.task_results ModelCapability.analyze_problem_requirements
         ModelCapability.ta_recommended_tasks].
    pose proof (execute_tasks_models gateway c (ModelCapability.recommended_tasks c)
                  self) as L.
    apply Forall_forall. intros r I.
    apply (in_map MultiModel.model) in I. rewrite L in I.
    apply in_map_iff in I. destruct I as (t & <- & It).
    destruct (recommended_tasks_shape c) as (_ & _ & _ & M).
    rewrite Forall_forall in M. rewrite (M t It). apply task_model_listed.
Qed.

Lemma results_name_models_never_requested_witness :
  exists issued,
    SchedulerSpec.issued_between LLM.init
      (MultiModel.lm_manager
         (snd (MultiModel.execute_multi_model_analysis Scenarios.offline
                 SchedulerSpec.quiet (MultiModel.init LLM.init)))) issued
    /\ Forall (fun q => ~ In (LLM.req_model q)
                          LogisticsModelManager.get_all_models) issued.
Proof.
  destruct (results_name_models_never_requested Scenarios.offline
              SchedulerSpec.quiet (MultiModel.init LLM.init) eq_refl)
    as (issued & Calls & Req & _).
  exists issued. split; [exact Calls|exact Req].
Defined.

(** X14. No task result of an analysis, and no synthesis, gets the
    quality bonus of the text score: the agent types the scheduler
    calls under have no quality keywords, so these confidences lie
    between 0.2 (the fallback) and the binary64 sum 0.8 + 0.05,
    whatever the backend answers. *)
Theorem scheduler_confidences_are_modest
        (gateway : LLM.Gateway) (c : ModelCapability.ProblemContext)
        (self : MultiModel.MultiModelOrchestrator) :
  let a := fst (MultiModel.execute_multi_model_analysis gateway c self) in
  Forall (fun r => SchedulerSpec.modest (MultiModel.confidence r))
         (MultiModel.task_results a)
  /\ SchedulerSpec.modest
       (MultiModel.synthesis_confidence (MultiModel.final_solution a)).
Proof.
  cbn zeta. unfold MultiModel.execute_multi_model_analysis.
  rewrite execute_and_synthesize_unfold. cbn zeta.
  cbn [fst MultiModel.task_results MultiModel.final_solution]. split.
  - apply execute_tasks_results. intros task_name model_name priority self'.
    unfold MultiModel._execute_specialized_task, St.bind, St.ret, St.zoom,
           LLM.generate_response_for_agent.
    cbn [fst MultiModel.confidence].
    rewrite on_reply_confidence. apply unlisted_reply_modest.
    apply specialist_type_unlisted.
  - unfold MultiModel._synthesize_multi_model_results, St.bind, St.ret, St.zoom,
           LLM.generate_response_for_agent.
    cbn [fst MultiModel.synthesis_confidence].
    rewrite on_reply_confidence. apply unlisted_reply_modest. reflexivity.
Qed.

(* ================================================================== *)
(** ** The checklists of the specialists *)
(* ================================================================== *)

Lemma lower_ascii_idempotent (c : ascii) :
  Py.lower_ascii (Py.lower_ascii c) = Py.lower_ascii c.
Proof. destruct c as [[] [] [] [] [] [] [] []]; reflexivity. Qed.

Lemma ascii_lower_idempotent (s : string) :
  Py.ascii_lower (Py.ascii_lower s) = Py.ascii_lower s.
Proof.
  induction s as [|c s IH]; [reflexivity|].
  cbn [Py.ascii_lower]. rewrite lower_ascii_idempotent, IH. reflexivity.
Qed.

Lemma lower_ascii_lower (s : string) : Py.lower (Py.ascii_lower s) = Py.lower s.
Proof. unfold Py.lower. rewrite ascii_lower_idempotent. reflexivity. Qed.

Lemma lower_ascii_continuation (c : ascii) :
  Py.is_continuation (Py.lower_ascii c) = Py.is_continuation c.
Proof. destruct c as [[] [] [] [] [] [] [] []]; reflexivity. Qed.

Lemma len_ascii_lower (s : string) : Py.len (Py.ascii_lower s) = Py.len s.
Proof.
  induction s as [|c s IH]; [reflexivity|].
  cbn [Py.ascii_lower Py.len]. rewrite lower_ascii_continuation, IH. reflexivity.
Qed.

(** X15. The express agent's security checklist and its urgency label
    agree: insurance verification is never asked for without a
    signature; a parcel that needs both a signature and fragile
    handling is never classed "medium"; and one that needs insurance
    verification and is flagged urgent by the caller is classed
    "urgent". *)
Theorem security_checklist_and_urgency (task : Agents.Task) :
  let measures := Checklists._assess_security_needs task in
  let label := Agents._determine_urgency Agents.GrabExpressAgent task in
  NoDup measures
  /\ (In "insurance_verification" measures -> In "signature_required" measures)
  /\ (In "signature_required" measures -> In "fragile_handling" measures ->
      label <> "medium")
  /\ (In "insurance_verification" measures ->
      Agents.urgency task = Some "high" -> label = "urgent").
Proof.
  cbn zeta.
  unfold Checklists._assess_security_needs, Agents._determine_urgency,
         Agents.urgent_factors, Agents.complex_factors.
  cbn zeta.
  destruct (10000 <? Py.get_or (Agents.package_value task) 0)%Z eqn:V1;
    destruct (50000 <? Py.get_or (Agents.package_value task) 0)%Z eqn:V5;
    try (apply Z.ltb_lt in V5; apply Z.ltb_ge in V1; lia);
    destruct (Agents.get_eq (Agents.package_type task) "documents");
    destruct (Py.get_or (Agents.fragile task) false);
    cbn [Checklists.append_if app];
    (split; [repeat constructor; cbn; intuition discriminate|]);
    (split; [cbn; intuition discriminate|]);
    (split;
     [ intros I1 I2;
       try (cbn in I1; intuition discriminate);
       try (cbn in I2; intuition discriminate);
       destruct (Agents.get_eq (Agents.urgency task) "high");
       destruct (Py.contains "medical" _);
       destruct (Agents.in_disruption "emergency" task);
       destruct (Agents.in_disruption "time-sensitive" task);
       destruct (Agents.in_disruption "multiple" task);
       destruct (Agents.in_disruption "wrong address" task);
       cbn; discriminate
     | intros I1 U;
       try (cbn in I1; intuition discriminate);
       unfold Agents.get_eq; rewrite U; cbn [String.eqb];
       destruct (Py.contains "medical" _);
       destruct (Agents.in_disruption "emergency" task);
       destruct (Agents.in_disruption "time-sensitive" task);
       reflexivity ]).
Qed.

(** X16. The customer-service agent offers compensation only to a
    customer it classed angry or frustrated, whose task it therefore
    treats as urgent and marks for follow-up, and only for the two
    delivery services: a credit of 100 for grabfood, a discount of 50
    for grabexpress, nothing for any other service type. *)
Theorem compensation_implies_urgency_and_follow_up
        (task : Agents.Task) (keys : Checklists.CustomerKeys) :
  let offer := Checklists.suggested_compensation task in
  let service := Py.get_or (Agents.service_type task) "general" in
  (Checklists.c_type offer <> None ->
   Agents._determine_urgency Agents.CustomerServiceAgent task = "urgent"
   /\ Checklists._needs_follow_up task keys = true
   /\ (service = "grabfood" \/ service = "grabexpress"))
  /\ (service = "grabfood" ->
      offer = {| Checklists.c_type := Some "credit"; Checklists.amount := 100;
                 Checklists.reason := Some "Food delivery disruption compensation" |}
      \/ offer = {| Checklists.c_type := None; Checklists.amount := 0;
                    Checklists.reason := None |})
  /\ (service = "grabexpress" ->
      offer = {| Checklists.c_type := Some "discount"; Checklists.amount := 50;
                 Checklists.reason := Some "Express delivery delay compensation" |}
      \/ offer = {| Checklists.c_type := None; Checklists.amount := 0;
                    Checklists.reason := None |})
  /\ (service <> "grabfood" -> service <> "grabexpress" ->
      offer = {| Checklists.c_type := None; Checklists.amount := 0;
                 Checklists.reason := None |}).
Proof.
  cbn zeta.
  unfold Checklists.suggested_compensation, Checklists._suggest_compensation,
         Checklists._needs_follow_up, Agents._determine_urgency.
  cbn zeta.
  destruct (Py.mem (Agents._analyze_sentiment task) ["angry"; "frustrated"]) eqn:Neg.
  - destruct (Py.get_or (Agents.service_type task) "general" =? "grabfood") eqn:F.
    + apply String.eqb_eq in F. rewrite F. cbn.
      split; [intros _; rewrite !orb_true_r; cbn; auto|].
      split; [auto|]. split; [discriminate|]. intros N; now elim N.
    + destruct (Py.get_or (Agents.service_type task) "general" =? "grabexpress") eqn:E.
      * apply String.eqb_eq in E. rewrite E. cbn.
        split; [intros _; rewrite !orb_true_r; cbn; auto|].
        split; [discriminate|]. split; [auto|]. intros _ N; now elim N.
      * apply String.eqb_neq in F, E. cbn.
        split; [intros N; now elim N|].
        split; [intros Q; now elim F|]. split; [intros Q; now elim E|]. auto.
  - cbn. split; [intros N; now elim N|]. auto.
Qed.

(** X17. The keyword tests ignore the case of the ASCII letters of
    the text they read: folding the letters A..Z of an answer changes
    neither its confidence score nor the action items extracted from
    it, folding those of the analysis does not change the specialist
    chosen, and folding those of a problem description does not change
    the tasks the router recommends. *)
Theorem keyword_tests_ignore_case (text agent_type service_type : string)
        (urgency : option string) :
  LLM._calculate_confidence (Py.ascii_lower text) agent_type
  = LLM._calculate_confidence text agent_type
  /\ Checklists._extract_action_items (Py.ascii_lower text)
     = Checklists._extract_action_items text
  /\ Workflow.choose_specialist (Py.ascii_lower text) service_type
     = Workflow.choose_specialist text service_type
  /\ ModelCapability.recommended_tasks
       {| ModelCapability.description := Some (Py.ascii_lower text);
          ModelCapability.urgency := urgency |}
     = ModelCapability.recommended_tasks
         {| ModelCapability.description := Some text;
            ModelCapability.urgency := urgency |}.
Proof.
  split; [|split; [|split]].
  - unfold LLM._calculate_confidence, LLM.length_step, LLM.quality_step,
           LLM.uncertainty_step.
    rewrite lower_ascii_lower, len_ascii_lower. reflexivity.
  - unfold Checklists._extract_action_items. rewrite lower_ascii_lower. reflexivity.
  - unfold Workflow.choose_specialist. rewrite lower_ascii_lower. reflexivity.
  - unfold ModelCapability.recommended_tasks.
    cbn [ModelCapability.description ModelCapability.urgency Py.get_or].
    rewrite lower_ascii_lower. reflexivity.
Qed.

(* ================================================================== *)
(** ** The driver ([handle_disruption]) *)
(* ================================================================== *)

Lemma crew_type_unlisted (crew_type : string) :
  LLM.quality_indicators ("crew_" ++ crew_type) = [].
Proof. reflexivity. Qed.

Lemma determine_crew_type_known (d : Main.DisruptionData) (text : string) :
  Main.description d = Some text ->
  exists crew_type,
    Main._determine_crew_type d = inr crew_type
    /\ In crew_type Main.crew_types.
Proof.
  intros D. unfold Main._determine_crew_type. rewrite D.
  destruct (Py.contains "traffic" _); [eexists; split; [reflexivity|cbn; auto]|].
  destruct (Py.contains "restaurant" _); [eexists; split; [reflexivity|cbn; auto]|].
  destruct (Py.contains "customer" _); eexists; (split; [reflexivity|cbn; auto]).
Qed.

(** X18. [handle_disruption] raises [KeyError] for a report without a
    description, before anything is called or changed. For any other
    report it returns the scheduler's analysis and attaches a crew
    analysis exactly when at least two complexity indicators hold; the
    crew is one of the three that have a prompt, it costs one more
    gateway request (one per task, one for the synthesis, one for the
    crew), on the client's active model like the others, and its
    confidence gets no quality bonus. *)
Theorem handle_disruption_outcome
        (gateway : LLM.Gateway) (d : Main.DisruptionData)
        (self : MultiModel.MultiModelOrchestrator) :
  let out := Main.handle_disruption gateway d self in
  let lm := MultiModel.lm_manager self in
  match Main.description d with
  | None => out = (inl (Workflow.KeyError "description"), self)
  | Some _ =>
      exists r,
        fst out = inr r
        /\ Main.multi_model_result r
           = fst (MultiModel.execute_multi_model_analysis gateway
                    (Main.problem_context d) self)
        /\ (Main.crew_analysis r <> None <-> Main.crew_needed d = true)
        /\ (forall crew,
              Main.crew_analysis r = Some crew ->
              In (Main.crew_type crew) Main.crew_types
              /\ SchedulerSpec.modest (Main.confidence crew))
        /\ extends (LLM.current_active_model lm)
             (List.length (ModelCapability.recommended_tasks
                             (Main.problem_context d))
              + 1 + (if Main.crew_needed d then 1 else 0))
             lm (MultiModel.lm_manager (snd out))
  end.
Proof.
  cbn zeta. unfold Main.handle_disruption, Main.crew_needed,
                   Main._requires_crew_approach.
  destruct (Main.description d) as [text|] eqn:D; [|reflexivity].
  unfold St.bind, St.ret, Main.enhanced_multi_model_processing.
  pose proof (analysis_extends gateway (Main.problem_context d)
                (ModelCapability.analyze_problem_requirements
                   (Main.problem_context d)) self) as Ext.
  change (MultiModel.execute_and_synthesize gateway (Main.problem_context d)
            (ModelCapability.analyze_problem_requirements (Main.problem_context d)))
    with (MultiModel.execute_multi_model_analysis gateway (Main.problem_context d))
    in Ext.
  cbn [ModelCapability.analyze_problem_requirements
       ModelCapability.ta_recommended_tasks] in Ext.
  destruct (MultiModel.execute_multi_model_analysis gateway
              (Main.problem_context d) self) as [a self1].
  cbn [fst snd] in *.
  destruct (2 <=? Py.sum_bool (Main.complexity_indicators text d))%nat.
  - destruct (determine_crew_type_known d text D) as (crew_type & -> & Known).
    unfold St.zoom, Main.execute_crew_task, St.bind, St.ret,
           LLM.generate_response_for_agent.
    cbn [fst snd].
    eexists. split; [reflexivity|]. cbn [Main.multi_model_result Main.crew_analysis].
    split; [reflexivity|]. split; [split; [reflexivity|discriminate]|].
    split.
    + intros crew [= <-]. cbn [Main.crew_type Main.confidence].
      split; [exact Known|].
      rewrite on_reply_confidence. apply unlisted_reply_modest.
      apply crew_type_unlisted.
    + eapply extends_trans; [exact Ext|].
      cbn [MultiModel.set_lm_manager MultiModel.lm_manager].
      destruct Ext as (Same & _). rewrite <- Same.
      apply (generate_extends gateway ("crew_" ++ crew_type)
               (Py.get_or (Main.urgency d) "medium")
               (MultiModel.lm_manager self1)).
  - cbn [fst snd]. eexists. split; [reflexivity|].
    cbn [Main.multi_model_result Main.crew_analysis].
    split; [reflexivity|].
    split; [split; [intros N; now elim N|discriminate]|].
    split; [discriminate|].
    rewrite Nat.add_0_r. exact Ext.
Qed.

(* ================================================================== *)
(** ** The parallel manager ([parallel_inference]) *)
(* ================================================================== *)







(* ================================================================== *)
(** ** The specialists' flags and the outcome of the run *)
(* ================================================================== *)

Lemma SFltb_leb_trans x y z :
  SFltb x y = true -> SFleb y z = true -> SFltb x z = true.
Proof.
  unfold SFltb, SFleb, SFcompare.
  destruct x as [sx|sx| |sx mx ex], y as [sy|sy| |sy my ey], z as [sz|sz| |sz mz ez];
    try destruct sx; try destruct sy; try destruct sz; simpl; try congruence;
    change (PosDef.Pos.compare_cont Eq) with Pos.compare;
    destruct (Z.compare_spec ex ey), (Z.compare_spec ey ez), (Z.compare_spec ex ez);
    subst; simpl; try congruence; try lia;
    destruct (Pos.compare_spec mx my), (Pos.compare_spec my mz), (Pos.compare_spec mx mz);
    subst; simpl; try congruence; try lia.
Qed.

Lemma ltb_leb_trans (x y z : float) :
  PrimFloat.ltb x y = true -> PrimFloat.leb y z = true -> PrimFloat.ltb x z = true.
Proof. rewrite !ltb_spec, leb_spec. apply SFltb_leb_trans. Qed.

Section Flags.

Import Workflow WorkflowSpec FlagSpec.

Variable config : Settings.Config.
Variable gateway : LLM.Gateway.

(** An invariant of the state alone, carried through a run. *)
Lemma run_preserves (Inv : LogisticsState -> Prop) :
  (forall n s lm s' lm',
     Inv s -> node gateway n s lm = (inr s', lm') -> Inv s') ->
  forall recursion_limit steps n s lm s' lm',
    Inv s ->
    run config gateway recursion_limit steps n s lm = (inr s', lm') ->
    Inv s'.
Proof.
  intros Step recursion_limit steps.
  induction steps as [|steps IH]; intros n s lm s' lm' I Run; [discriminate|].
  rewrite run_step in Run.
  destruct (node gateway n s lm) as [[e|s1] lm1] eqn:N; [discriminate|].
  pose proof (Step n s lm s1 lm1 I N) as I1.
  destruct (successor config n s1) as [n'|].
  - eapply IH; eassumption.
  - injection Run as <- _. exact I1.
Qed.

Lemma process_task_flagged a task lm :
  flagged (to_dict (fst (Agents.process_task gateway a task lm))).
Proof.
  unfold Agents.process_task, St.bind, St.ret, LLM.generate_response_for_agent.
  destruct a; reflexivity.
Qed.

Lemma node_keeps_flags n s lm s' lm' :
  all_flagged s -> node gateway n s lm = (inr s', lm') -> all_flagged s'.
Proof.
  unfold all_flagged. intros F Run. destruct n; cbn [node] in Run.
  - unfold analyze_disruption, St.bind, St.ret in Run.
    destruct (LLM.generate_response _ _ _) in Run. injection Run as <- _. exact F.
  - unfold route_to_specialist in Run.
    destruct (analysis (disruption s)); [|discriminate].
    unfold St.bind, St.ret in Run.
    destruct (LLM.generate_response _ _ _) in Run. injection Run as <- _. exact F.
  - unfold execute_specialist_task in Run.
    destruct (agents (current_agent s)) as [a|]; [|discriminate].
    destruct (description (disruption s)) as [d|]; [|discriminate].
    destruct (service_type (disruption s)) as [st|]; [|discriminate].
    unfold St.bind, St.ret in Run.
    pose proof (process_task_flagged a (specialist_task (disruption s) d st) lm) as P.
    destruct (Agents.process_task _ _ _ _) as [msg lm1]. injection Run as <- _.
    cbn [record_response agent_responses]. apply Forall_app. split; [exact F|].
    constructor; [exact P|constructor].
  - unfold validate_solution in Run.
    destruct (rev (agent_responses s)) as [|latest rest].
    + injection Run as <- _. exact F.
    + destruct (description (disruption s)); [|discriminate].
      unfold St.bind, St.ret in Run.
      destruct (LLM.generate_response _ _ _) in Run. injection Run as <- _. exact F.
  - unfold handle_customer_communication in Run.
    destruct (description (disruption s)); [|discriminate].
    destruct (solution (final_solution s)); [|discriminate].
    destruct (service_type (disruption s)); [|discriminate].
    unfold St.bind, St.ret in Run.
    destruct (Agents.process_task _ _ _ _) in Run. injection Run as <- _. exact F.
  - unfold escalate_to_human, St.ret in Run. injection Run as <- _. exact F.
  - unfold finalize_solution, St.ret in Run. injection Run as <- _. exact F.
Qed.

End Flags.

(** X20. Under the default thresholds the escalation flag that the
    specialist put in its last answer ([requires_escalation] of the
    food and express agents, [escalation_needed] of the
    customer-service agent) agrees with the outcome of a run that
    ended normally: it is set exactly when the run escalated. *)
Theorem final_answer_flag_agrees_with_outcome
        (gateway : LLM.Gateway) (report : Workflow.Disruption)
        (lm : LLM.LMStudioManager) (s : Workflow.LogisticsState) :
  fst (Workflow.process_disruption Settings.config gateway report lm)
    = Workflow.FinalState s ->
  exists earlier latest,
    Workflow.agent_responses s = earlier ++ [latest]
    /\ FlagSpec.own_flag (Workflow.content (Workflow.response latest))
       = Workflow.escalation_needed s.
Proof.
  intros Fin. apply process_final in Fin.
  assert (Out : OutcomeSpec.escalated Settings.config s
                \/ OutcomeSpec.communicated Settings.config s).
  { refine (run_invariant Settings.config gateway
              (OutcomeSpec.outcome_pending Settings.config)
              (fun s _ => OutcomeSpec.escalated Settings.config s
                          \/ OutcomeSpec.communicated Settings.config s)
              (outcome_step Settings.config gateway) 50 50 _ _ _ _ _ _ Fin).
    split; [reflexivity|exact I]. }
  assert (Att : OutcomeSpec.attempts_on_record s
                  (snd (Workflow.process_disruption Settings.config gateway
                          report lm))).
  { refine (run_invariant Settings.config gateway OutcomeSpec.attempts_pending
              OutcomeSpec.attempts_on_record
              (attempts_step Settings.config gateway) 50 50 _ _ _ _ _ _ Fin).
    split; reflexivity. }
  assert (Fl : FlagSpec.all_flagged s).
  { refine (run_preserves Settings.config gateway FlagSpec.all_flagged
              (node_keeps_flags gateway) 50 50 _ _ _ _ _ _ Fin).
    constructor. }
  destruct Att as (_ & _ & (earlier & latest & Resp & Conf & _) & _).
  exists earlier, latest. split; [exact Resp|].
  unfold FlagSpec.all_flagged in Fl. rewrite Resp in Fl.
  apply Forall_app in Fl. destruct Fl as (_ & Fl).
  inversion Fl as [|? ? Here _]; subst. unfold FlagSpec.flagged in Here.
  rewrite Conf in Here.
  destruct Out as [(Esc & Low & _)|(Esc & Low & High & _)]; rewrite Esc;
    change (Settings.HUMAN_ESCALATION_THRESHOLD Settings.config) with 0.6%float in Low.
  - destruct (Workflow.content (Workflow.response latest));
      cbn [FlagSpec.own_flag]; rewrite Here; [exact Low|].
    apply (ltb_leb_trans _ _ _ Low). vm_compute. reflexivity.
  - change (Settings.CONFIDENCE_THRESHOLD Settings.config) with 0.8%float in High.
    destruct (Workflow.content (Workflow.response latest));
      cbn [FlagSpec.own_flag]; rewrite Here; [exact Low|].
    destruct (PrimFloat.ltb (Workflow.confidence_score s) 0.7) eqn:Mid;
      [|reflexivity].
    rewrite (ltb_leb_trans _ 0.7%float 0.8%float Mid) in High;
      [discriminate|vm_compute; reflexivity].
Qed.

Lemma final_answer_flag_agrees_with_outcome_witness :
  exists earlier latest,
    Workflow.agent_responses (Runs.state_of Runs.escalated_run)
    = earlier ++ [latest]
    /\ FlagSpec.own_flag (Workflow.content (Workflow.response latest))
       = Workflow.escalation_needed (Runs.state_of Runs.escalated_run).
Proof.
  assert (Fin : fst (Workflow.process_disruption Settings.config
                       Scenarios.offline Scenarios.traffic_jam LLM.init)
                = Workflow.FinalState (Runs.state_of Runs.escalated_run))
    by (vm_compute; reflexivity).
  exact (final_answer_flag_agrees_with_outcome Scenarios.offline
           Scenarios.traffic_jam LLM.init _ Fin).
Defined.

(* ================================================================== *)
(** ** The entry point: every fault becomes a result *)
(* ================================================================== *)

(** C7. [process_disruption] returns a result for every disruption,
    backend and configuration: the final state when the graph run ends
    normally, and otherwise a record with [escalation_needed] set, the
    confidence 0.1 and a solution that carries the error; in both cases
    the result holds a confidence score and a solution or an escalation
    context. The record of an error carries the caller's report as the
    run has left it, with the analysis and the briefing attached. *)
Theorem process_disruption_always_returns
        (config : Settings.Config) (gateway : LLM.Gateway)
        (disruption : Workflow.Disruption) (lm : LLM.LMStudioManager) :
  let graph :=
    fst (Workflow.ainvoke config gateway (Workflow.initial_state disruption) 50 lm) in
  let r := fst (Workflow.process_disruption config gateway disruption lm) in
  WorkflowSpec.well_formed r
  /\ (forall final_state,
        graph = inr final_state -> r = Workflow.FinalState final_state)
  /\ (forall e report,
        graph = inl (e, report) ->
        report = RunSpec.annexed gateway disruption lm
        /\ r = Workflow.ErrorResult (Workflow.error_state report e)
        /\ Workflow.result_escalation_needed r = true
        /\ Workflow.result_confidence_score r = 0.1%float
        /\ Workflow.solution (Workflow.result_final_solution r)
           = Some (Workflow.SystemError e)
        /\ Workflow.fs_confidence (Workflow.result_final_solution r)
           = Some 0.1%float).
Proof.
  cbn zeta. unfold Workflow.process_disruption, St.bind, St.ret.
  destruct (Workflow.ainvoke config gateway (Workflow.initial_state disruption) 50 lm)
    as [[[e report]|final_state] lm'] eqn:Run; cbn [fst].
  - split; [left; discriminate|]. split; [discriminate|].
    intros e' report' [= <- <-]. split; [|repeat split].
    unfold Workflow.ainvoke, Workflow.entry_point in Run.
    destruct (first_two_nodes config gateway 50 48 disruption lm)
      as (s & a & Two & _ & _ & _ & _ & _ & _ & Rep).
    rewrite Two in Run.
    exact (run_fault_report config gateway _ 50 48
             Workflow.N_execute_specialist_task s _ _ _ _ Rep Run).
  - split.
    + left. cbn [Workflow.result_final_solution].
      unfold Workflow.ainvoke in Run.
      eapply run_ends_with_solution; [|exact Run]. exact I.
    + split; [intros s [= <-]; reflexivity|discriminate].
Qed.

(** A report without description faults in [execute_specialist_task];
    the caller still gets the error record, on the report with its
    two annexes. *)
Lemma process_disruption_always_returns_witness :
  fst (Workflow.process_disruption Settings.config Scenarios.offline
         Scenarios.no_description LLM.init)
  = Workflow.ErrorResult
      (Workflow.error_state
         (RunSpec.annexed Scenarios.offline Scenarios.no_description LLM.init)
         (Workflow.KeyError "description")).
Proof.
  assert (Run : fst (Workflow.ainvoke Settings.config Scenarios.offline
                       (Workflow.initial_state Scenarios.no_description) 50
                       LLM.init)
                = inl (Workflow.KeyError "description",
                       RunSpec.annexed Scenarios.offline
                         Scenarios.no_description LLM.init))
    by (vm_compute; reflexivity).
  exact (proj1 (proj2 (proj2 (proj2 (process_disruption_always_returns
           Settings.config Scenarios.offline Scenarios.no_description LLM.init))
         _ _ Run))).
Defined.

(* ================================================================== *)
(** ** The retry loop is bounded by the recursion limit *)
(* ================================================================== *)

(** C9, amended. The retry path is bounded by the recursion limit of the
    graph run, which [process_disruption] fixes at 50 steps; the
    setting [MAX_ITERATIONS] plays no part. When the score that each
    validation decides on, that of the specialist's answer in that
    round, lies in the retry band, a disruption that has a description
    and a service type goes through analysis, routing and 24 rounds of
    specialist and validation (50 gateway calls, 24 of them by the
    specialist); the run then stops with [GraphRecursionError], which
    the entry point turns into the error record. Nothing is asked of
    the other answers of the backend. *)
Theorem retry_bounded_by_recursion_limit
        (config : Settings.Config) (gateway : LLM.Gateway)
        (disruption : Workflow.Disruption) (lm : LLM.LMStudioManager)
        (d st : string) :
  Workflow.description disruption = Some d ->
  Workflow.service_type disruption = Some st ->
  (forall k, k < 24 ->
     WorkflowSpec.in_retry_band config
       (DecisionSpec.validated_score gateway disruption lm k)) ->
  let out := Workflow.process_disruption config gateway disruption lm in
  fst out = Workflow.ErrorResult
              (Workflow.error_state
                 (RunSpec.annexed gateway disruption lm)
                 (Workflow.GraphRecursionError 50))
  /\ WorkflowSpec.specialist_calls (snd out)
     = WorkflowSpec.specialist_calls lm + 24
  /\ List.length (LLM.gateway_calls (snd out))
     = List.length (LLM.gateway_calls lm) + 50.
Proof.
  intros D S Band. cbn zeta.
  unfold Workflow.process_disruption, Workflow.ainvoke, St.bind, St.ret,
         Workflow.entry_point.
  destruct (first_two_nodes config gateway 50 48 disruption lm)
    as (s & a & Run & A & D0 & S0 & Ro & _ & _ & Rep).
  rewrite Run.
  set (lm2 := RunSpec.called "orchestrator" "medium"
                (RunSpec.called "orchestrator" "medium" lm)) in *.
  assert (L2 : List.length (LLM.gateway_calls lm2)
               = List.length (LLM.gateway_calls lm) + 2).
  { unfold lm2, RunSpec.called. cbn [LLM.gateway_calls].
    rewrite !length_app. cbn. lia. }
  assert (S2 : WorkflowSpec.specialist_calls lm2
               = WorkflowSpec.specialist_calls lm).
  { unfold lm2, RunSpec.called.
    rewrite !specialist_calls_snoc. cbn. lia. }
  assert (R : WorkflowSpec.ready a d st s)
    by (split; [exact A|split; congruence]).
  destruct (retry_rounds config gateway 50 24 a d st s lm2 R) as (E & Sc & Lc).
  { intros k Hk. rewrite L2, (agents_gateway_name _ _ A), Ro.
    exact (Band k Hk). }
  change (2 * 24) with 48 in *.
  destruct (Workflow.run config gateway 50 48 Workflow.N_execute_specialist_task s lm2)
    as [r lm3].
  cbn [fst snd] in *. subst r. rewrite Rep.
  split; [reflexivity|]. split; lia.
Qed.

(** The backend that always answers with the empty text keeps the
    specialist in the retry band of the default configuration. *)
Lemma retry_bounded_by_recursion_limit_witness :
  fst (Workflow.process_disruption Settings.config Scenarios.terse
         Scenarios.traffic_jam LLM.init)
  = Workflow.ErrorResult
      (Workflow.error_state
         (RunSpec.annexed Scenarios.terse Scenarios.traffic_jam LLM.init)
         (Workflow.GraphRecursionError 50)).
Proof.
  refine (proj1 (retry_bounded_by_recursion_limit Settings.config Scenarios.terse
            Scenarios.traffic_jam LLM.init _ _ eq_refl eq_refl _)).
  intros k Hk. split; vm_compute; reflexivity.
Defined.
